(** * Beijing air-quality forecast: the recursive PM2.5 pipeline

    A shallow embedding of [improved_app_with_features.py]: the feature
    derivation functions, the 72-step recursive forecasting loop
    [build_future_dataframe], the AQI classifier and the forecast summary.

    Numbers are IEEE binary64 values (Rocq's primitive [float]), as Python's
    [float] and numpy's [float64] are.  A pandas DataFrame is a list of rows,
    each row a dictionary from column name to cell.  Library calls whose code
    is not part of the application (numpy's [sin], [cos], [mean], [std],
    pandas' [quantile], the trained model) are parameters.  Code that may
    raise returns a [res]; the Streamlit script (messages shown, [st.stop])
    is a state-and-outcome monad [App].

    The embedding comes first, then the vocabulary of the statements, then
    the properties with their proofs. *)

From Stdlib Require Import ZArith Floats Reals Lra Ascii.
From stdpp Require Import gmap strings list pretty sorting.

Set Warnings "-inexact-float".

(** ** Cells, rows and frames *)

(** A pandas [Timestamp] as the application reads it: [ts_value] is the
    instant (nanoseconds since the epoch, the key timestamps are ordered
    by), the other fields are what the [.dt] accessors return
    ([dayofweek] counts from Monday = 0). *)
Record Timestamp := {
  ts_value : Z;
  ts_year : Z;
  ts_month : Z;
  ts_day : Z;
  ts_hour : Z;
  ts_dayofweek : Z;
  ts_dayofyear : Z
}.

(** The cells a frame of the application holds. *)
Inductive value :=
| VFloat (f : float)
| VInt (z : Z)
| VStr (s : string)
| VTime (t : Timestamp).

(** A row is a dictionary from column name to cell ([Series.to_dict]); a
    DataFrame is the list of its rows, in index order.  pandas frames are
    rectangular: every row of a well-formed frame has the same keys.  The
    order of the columns is not recorded. *)
Abbreviation row := (gmap string value).
Abbreviation DataFrame := (list row).

(** ** Exceptions *)

Record exn := Exn { exn_type : string; exn_msg : string }.

Definition KeyError (k : string) : exn := Exn "KeyError" ("'" +:+ k +:+ "'").
Definition IndexError (msg : string) : exn := Exn "IndexError" msg.
Definition TypeError (msg : string) : exn := Exn "TypeError" msg.
Definition ValueError (msg : string) : exn := Exn "ValueError" msg.

(** The result of code that may raise. *)
Inductive res (A : Type) :=
| Ok (a : A)
| Raise (e : exn).
Arguments Ok {A} a.
Arguments Raise {A} e.

#[global] Instance res_ret : MRet res := fun A a => Ok a.
#[global] Instance res_bind : MBind res := fun A B k m =>
  match m with
  | Ok a => k a
  | Raise e => Raise e
  end.

(** [[f x for x in l]] where [f] may raise: stops at the first exception. *)
Fixpoint res_map {A B} (f : A -> res B) (l : list A) : res (list B) :=
  match l with
  | [] => Ok []
  | x :: l' =>
      y ← f x;
      ys ← res_map f l';
      Ok (y :: ys)
  end.

(** ** Python and pandas primitives *)

(** A 64-bit integer read as a float (round to nearest even). *)
Definition float_of_Z (z : Z) : float :=
  SF2Prim (binary_normalize prec emax z 0 false).

(** The numeric reading of a cell: floats and integers are numbers,
    strings and timestamps are not. *)
Definition as_float (v : value) : res float :=
  match v with
  | VFloat f => Ok f
  | VInt z => Ok (float_of_Z z)
  | VStr _ => Raise (TypeError "str where a number is expected")
  | VTime _ => Raise (TypeError "Timestamp where a number is expected")
  end.

Definition as_time (v : value) : res Timestamp :=
  match v with
  | VTime t => Ok t
  | _ => Raise (Exn "AttributeError" "Can only use .dt accessor with datetimelike values")
  end.

(** [r[k]] *)
Definition getitem (r : row) (k : string) : res value :=
  match r !! k with
  | Some v => Ok v
  | None => Raise (KeyError k)
  end.

(** [df[k]], the column as a list of cells. *)
Definition column (k : string) (df : DataFrame) : res (list value) :=
  res_map (fun r => getitem r k) df.

(** [df.columns] of a rectangular frame (an empty frame shows none). *)
Definition columns (df : DataFrame) : gset string :=
  match df with
  | [] => ∅
  | r :: _ => dom r
  end.

(** [df[k] = v] with a scalar [v]: broadcast to every row. *)
Definition set_scalar (k : string) (v : value) (df : DataFrame) : DataFrame :=
  (fun r => <[k := v]> r) <$> df.

(** [df[k] = vs] with a list or Series of the frame's length. *)
Definition set_column (k : string) (vs : list value) (df : DataFrame) : res DataFrame :=
  if decide (length vs = length df)
  then Ok (zip_with (fun r v => <[k := v]> r) df vs)
  else Raise (ValueError "Length of values does not match length of index").

(** [l[i]] on a Python list: a negative index counts from the end. *)
Definition list_getitem {A} (l : list A) (i : Z) : res A :=
  let j := if (i <? 0)%Z then (i + Z.of_nat (length l))%Z else i in
  if (j <? 0)%Z then Raise (IndexError "list index out of range")
  else match l !! Z.to_nat j with
       | Some x => Ok x
       | None => Raise (IndexError "list index out of range")
       end.

(** [l[-n:]] for [n >= 0]: the last [n] elements ([-0] is [0], so
    [l[-0:]] is the whole list). *)
Definition slice_last {A} (n : nat) (l : list A) : list A :=
  match n with
  | O => l
  | _ => drop (length l - n) l
  end.

(** [s.tail(n)] *)
Definition tail_n {A} (n : nat) (l : list A) : list A :=
  drop (length l - n) l.

(** [s.iloc[0]] *)
Definition iloc0 {A} (l : list A) : res A :=
  match l with
  | x :: _ => Ok x
  | [] => Raise (IndexError "single positional indexer is out-of-bounds")
  end.

(** [sum(l)] over Python integers. *)
Definition py_sum (l : list Z) : Z := foldl Z.add 0%Z l.

(** [Series.clip(lower, upper)] on one element: a NaN bound is no bound, a
    NaN element stays. *)
Definition clip (lower upper x : float) : float :=
  let x1 := if is_nan lower || is_nan x || (lower <=? x)%float then x else lower in
  if is_nan upper || is_nan x1 || (x1 <=? upper)%float then x1 else upper.

(** ** Constants *)

Definition FORECAST_HOURS : nat := 72.
Definition HISTORY_HOURS : nat := 24.

(** The values of [WEATHER_RENAME], in the dictionary's order. *)
Definition WEATHER_RENAME_values : list string :=
  ["Temp"; "DewP"; "Press"; "WindSpeed"; "WindDir"; "Humidity";
   "precipitation"; "snowfall"].

(** ** Feature helpers *)

Definition get_season (month : Z) : string :=
  if existsb (Z.eqb month) [12; 1; 2]%Z then "Winter"
  else if existsb (Z.eqb month) [3; 4; 5]%Z then "Spring"
  else if existsb (Z.eqb month) [6; 7; 8]%Z then "Summer"
  else "Fall".

Definition get_time_of_day (hour : Z) : string :=
  if (5 <=? hour)%Z && (hour <? 12)%Z then "Morning"
  else if (12 <=? hour)%Z && (hour <? 17)%Z then "Afternoon"
  else if (17 <=? hour)%Z && (hour <? 21)%Z then "Evening"
  else "Night".

(** [calculate_wind_components] is written once over the arithmetic it
    uses, so that it can be read over floats (as it runs) and over the real
    numbers (as its docstring means it). *)
Section WindComponents.
Context {num : Type}.
Variables (neg : num -> num) (mul : num -> num -> num).
Variables (radians sin cos : num -> num).

Definition calculate_wind_components (wind_speed wind_direction : num) : num * num :=
  let wind_dir_rad := radians wind_direction in
  let u := mul (neg wind_speed) (sin wind_dir_rad) in
  let v := mul (neg wind_speed) (cos wind_dir_rad) in
  (u, v).

End WindComponents.

(** [sum(1 for p in precip_data if p >= threshold)] *)
Definition calculate_hours_of_precipitation
    (precip_data : list float) (threshold : float) : Z :=
  py_sum ((fun _ => 1%Z) <$> List.filter (fun p => (threshold <=? p)%float) precip_data).

Definition is_extreme_pm25 (pm25_value : float) (threshold : float) : string :=
  if (threshold <=? pm25_value)%float then "Yes" else "No".

(** The category and its display colour. *)
Definition pm25_to_aqi_category (pm25 : float) : string * string :=
  if (pm25 <=? 12)%float then ("Good", "#00e400")
  else if (pm25 <=? 35.4)%float then ("Moderate", "#ffff00")
  else if (pm25 <=? 55.4)%float then ("Unhealthy for Sensitive Groups", "#ff7e00")
  else if (pm25 <=? 150.4)%float then ("Unhealthy", "#ff0000")
  else if (pm25 <=? 250.4)%float then ("Very Unhealthy", "#8f3f97")
  else ("Hazardous", "#7e0023").

(** ** The numeric libraries

    numpy and pandas functions the application calls and does not define.
    [quantile data q] is [Series.quantile(q)]. *)
Class Numpy := {
  np_sin : float -> float;
  np_cos : float -> float;
  np_mean : list float -> float;
  np_std : list float -> float;
  quantile : list float -> float -> float
}.

(** [np.radians]: multiplication by the double nearest to pi/180. *)
Definition np_radians (x : float) : float := (x * 0.017453292519943295)%float.

Section Features.
Context {np : Numpy}.

Definition wind_components : float -> float -> float * float :=
  calculate_wind_components PrimFloat.opp PrimFloat.mul np_radians np_sin np_cos.

(** [winsorize] on a pandas Series (the branch the application takes: its
    only caller passes the column [df["WindSpeed"]]). *)
Definition winsorize (data : list float) (lower_percentile upper_percentile : float)
    : list float :=
  let lower_bound := quantile data lower_percentile in
  let upper_bound := quantile data upper_percentile in
  clip lower_bound upper_bound <$> data.

Definition lag_periods : list nat := [1; 2; 3; 6; 12; 24]%nat.

(** [f"pm2.5_lag{lag}"] *)
Definition lag_column (lag : nat) : string := "pm2.5_lag" +:+ pretty lag.

(** One pass of the loop body of [create_lag_features]: the cell written
    to the column [pm2.5_lag<lag>]. *)
Definition lag_feature (history_pm25 : list float) (lag : nat) : res value :=
  if decide (lag <= length history_pm25)%nat
  then x ← list_getitem history_pm25 (- Z.of_nat lag); Ok (VFloat x)
  else match history_pm25 with
       | _ :: _ => x ← list_getitem history_pm25 0; Ok (VFloat x)
       | [] => Ok (VFloat nan)
       end.

Fixpoint add_lags (lags : list nat) (history_pm25 : list float) (result_df : DataFrame)
    : res DataFrame :=
  match lags with
  | [] => Ok result_df
  | lag :: lags' =>
      v ← lag_feature history_pm25 lag;
      add_lags lags' history_pm25 (set_scalar (lag_column lag) v result_df)
  end.

Definition create_lag_features (df : DataFrame) (history_pm25 : list float)
    : res DataFrame :=
  add_lags lag_periods history_pm25 df.

Definition create_rolling_features (df : DataFrame) (history_pm25 : list float)
    : DataFrame :=
  if decide (0 < length history_pm25)%nat then
    let window_size := (24 `min` length history_pm25)%nat in
    let result_df :=
      set_scalar "pm2.5_roll24_mean"
        (VFloat (np_mean (slice_last window_size history_pm25))) df in
    set_scalar "pm2.5_roll24_std"
      (if decide (1 < window_size)%nat
       then VFloat (np_std (slice_last window_size history_pm25))
       else VInt 0)
      result_df
  else
    set_scalar "pm2.5_roll24_std" (VFloat nan)
      (set_scalar "pm2.5_roll24_mean" (VFloat nan) df).

(** The time features of one row, from its timestamp. *)
Definition time_features (t : Timestamp) (r : row) : row :=
  <["Season" := VStr (get_season (ts_month t))]>
  (<["time_of_day" := VStr (get_time_of_day (ts_hour t))]>
  (<["is_weekend" := VInt (if (5 <=? ts_dayofweek t)%Z then 1 else 0)]>
  (<["day_of_year" := VInt (ts_dayofyear t)]>
  (<["day_of_week" := VInt (ts_dayofweek t)]>
  (<["hour" := VInt (ts_hour t)]>
  (<["Day" := VInt (ts_day t)]>
  (<["month" := VInt (ts_month t)]>
  (<["Year" := VInt (ts_year t)]> r)))))))).

Definition add_time_features (df : DataFrame) : res DataFrame :=
  times ← column "time" df;
  ts ← res_map as_time times;
  Ok (zip_with (fun r t => time_features t r) df ts).

(** The body of the [iterrows] loop of [add_weather_features]. *)
Definition row_wind_components (r : row) : res (float * float) :=
  ws ← getitem r "WindSpeed";
  wd ← getitem r "WindDir";
  d ← as_float wd;
  s ← as_float ws;
  Ok (wind_components s d).

(** [calculate_hours_of_precipitation] on a list of cells, with the default
    threshold. *)
Definition hours_of_precipitation (cells : list value) : res Z :=
  data ← res_map as_float cells;
  Ok (calculate_hours_of_precipitation data 0.1).

(** [1 if s.iloc[0] > 0.1 else 0] on a column. *)
Definition has_precipitation (cells : list value) : res Z :=
  c ← iloc0 cells;
  p ← as_float c;
  Ok (if (0.1 <? p)%float then 1 else 0)%Z.

Definition add_weather_features (df : DataFrame) (historical_weather_df : option DataFrame)
    : res DataFrame :=
  uv ← res_map row_wind_components df;
  result_df ← set_column "WinDir_U" ((fun c => VFloat (fst c)) <$> uv) df;
  result_df ← set_column "WinDir_V" ((fun c => VFloat (snd c)) <$> uv) result_df;
  speed_cells ← column "WindSpeed" result_df;
  speeds ← res_map as_float speed_cells;
  result_df ←
    set_column "WindSpeed_Winsorized" (VFloat <$> winsorize speeds 0.05 0.95) result_df;
  match historical_weather_df with
  | Some historical =>
      precip ← column "precipitation" historical;
      let past_24h_precip := tail_n 24 precip in
      snow ← column "snowfall" historical;
      let past_24h_snow := tail_n 24 snow in
      rain_hours ← hours_of_precipitation past_24h_precip;
      let result_df := set_scalar "HoursOfRain" (VInt rain_hours) result_df in
      snow_hours ← hours_of_precipitation past_24h_snow;
      let result_df := set_scalar "HoursOfSnow" (VInt snow_hours) result_df in
      rain_rolling ← hours_of_precipitation past_24h_precip;
      let result_df := set_scalar "HoursOfRain_rolling" (VInt rain_rolling) result_df in
      snow_rolling ← hours_of_precipitation past_24h_snow;
      Ok (set_scalar "HoursOfSnow_rolling" (VInt snow_rolling) result_df)
  | None =>
      precip ← column "precipitation" result_df;
      has_rain ← has_precipitation precip;
      snow ← column "snowfall" result_df;
      has_snow ← has_precipitation snow;
      let result_df := set_scalar "HoursOfRain" (VInt (has_rain * 3)) result_df in
      let result_df := set_scalar "HoursOfSnow" (VInt (has_snow * 3)) result_df in
      let result_df := set_scalar "HoursOfRain_rolling" (VInt (has_rain * 3)) result_df in
      Ok (set_scalar "HoursOfSnow_rolling" (VInt (has_snow * 3)) result_df)
  end.

Definition add_extreme_event_features (df : DataFrame) (history_pm25 : list float)
    : res DataFrame :=
  if decide (0 < length history_pm25)%nat then
    last_pm25 ← list_getitem history_pm25 (-1);
    let result_df := set_scalar "Extreme_PM2.5" (VStr (is_extreme_pm25 last_pm25 150)) df in
    if decide (1 < length history_pm25)%nat then
      prev_pm25 ← list_getitem history_pm25 (-2);
      Ok (set_scalar "Extreme_Event_VMD_shift1" (VStr (is_extreme_pm25 prev_pm25 150))
            result_df)
    else
      Ok (set_scalar "Extreme_Event_VMD_shift1" (VStr "No") result_df)
  else
    Ok (set_scalar "Extreme_Event_VMD_shift1" (VStr "No")
          (set_scalar "Extreme_PM2.5" (VStr "No") df)).

(** [df.sort_values("time")]: the rows in the order of their instants (rows
    of equal instant keep their order). *)
Definition sort_values_time (df : DataFrame) : res DataFrame :=
  keys ← res_map (fun r => v ← getitem r "time"; t ← as_time v; Ok (ts_value t)) df;
  Ok (snd <$> merge_sort (fun a b : Z * row => (a.1 <= b.1)%Z)
                (H := fun a b => decide (a.1 <= b.1)%Z) (zip keys df)).

(** [aq_df["pm2.5"].tail(HISTORY_HOURS).tolist()]; the cells are read as
    numbers here. *)
Definition pm25_tail (aq_df : DataFrame) : res (list float) :=
  cells ← column "pm2.5" aq_df;
  res_map as_float (tail_n HISTORY_HOURS cells).

(** [for col in WEATHER_RENAME.values(): if col in src.columns:
    dst[col] = src[col]] *)
Fixpoint copy_weather_columns (cols : list string) (src dst : DataFrame) : res DataFrame :=
  match cols with
  | [] => Ok dst
  | col :: cols' =>
      if decide (col ∈ columns src) then
        cells ← column col src;
        dst' ← set_column col cells dst;
        copy_weather_columns cols' src dst'
      else copy_weather_columns cols' src dst
  end.

Definition prepare_features (wx_df aq_df : DataFrame)
    (historical_weather_df : option DataFrame) : res DataFrame :=
  aq_df ← sort_values_time aq_df;
  history_pm25 ← pm25_tail aq_df;
  times ← column "time" wx_df;
  let result_df : DataFrame := (fun t => {["time" := t]}) <$> times in
  result_df ← copy_weather_columns WEATHER_RENAME_values wx_df result_df;
  result_df ← add_time_features result_df;
  result_df ← add_weather_features result_df historical_weather_df;
  result_df ← create_lag_features result_df history_pm25;
  let result_df := create_rolling_features result_df history_pm25 in
  result_df ← add_extreme_event_features result_df history_pm25;
  times ← column "time" result_df;
  set_column "datetime" times result_df.

End Features.

(** ** The Streamlit script: messages, stop, exceptions *)

(** What the script shows: [st.write] of a text, [st.write] of a frame's
    column names, [st.error]. *)
Inductive st_event :=
| st_write (text : string)
| st_write_columns (cols : gset string)
| st_error (msg : string).

(** How a call ends: it returns, it raises, or [st.stop()] ends the script
    run (Streamlit's stop is not an [Exception]: no [except Exception]
    clause catches it). *)
Inductive outcome (A : Type) :=
| Returned (a : A)
| Raised (e : exn)
| Stopped.
Arguments Returned {A} a.
Arguments Raised {A} e.
Arguments Stopped {A}.

(** A computation of the script: it extends the list of messages shown so
    far and ends in an outcome. *)
Definition App (A : Type) : Type := list st_event -> list st_event * outcome A.

#[global] Instance App_ret : MRet App := fun A a ui => (ui, Returned a).
#[global] Instance App_bind : MBind App := fun A B k m ui =>
  match m ui with
  | (ui', Returned a) => k a ui'
  | (ui', Raised e) => (ui', Raised e)
  | (ui', Stopped) => (ui', Stopped)
  end.

Definition show (ev : st_event) : App unit := fun ui => (ui ++ [ev], Returned tt).
Definition st_stop {A} : App A := fun ui => (ui, Stopped).
Definition lift {A} (m : res A) : App A := fun ui =>
  match m with
  | Ok a => (ui, Returned a)
  | Raise e => (ui, Raised e)
  end.

(** ** The model

    What [float(model.predict(df)[0])] does on the call of step [idx] with
    the frame [df]: it evaluates to a Python float (any binary64 value:
    [float] accepts NaN and the infinities), or it raises (in [predict], on
    an empty result, or in [float] on a value that is not a number). *)
Inductive prediction :=
| PredValue (yhat : float)
| PredRaises (e : exn).

Definition Model : Type := nat -> DataFrame -> prediction.

(** [load_model]: [model_file] is the content of [rf_pm25_model.pkl], if
    the file exists. *)
Definition load_model (model_file : option Model) : App Model :=
  match model_file with
  | None =>
      show (st_error "Model file not found – upload rf_pm25_model.pkl");;
      st_stop
  | Some model => mret model
  end.

(** [df.iloc[[idx]]] and [df.iloc[idx]] *)
Definition iloc_frame (df : DataFrame) (idx : nat) : res DataFrame :=
  match df !! idx with
  | Some r => Ok [r]
  | None => Raise (IndexError "positional indexers are out-of-bounds")
  end.

Definition iloc (df : DataFrame) (idx : nat) : res row :=
  match df !! idx with
  | Some r => Ok r
  | None => Raise (IndexError "single positional indexer is out-of-bounds")
  end.

(** [pd.DataFrame(rows)] from a list of dictionaries: the columns are the
    keys of all rows, a cell that a row lacks is NaN (NaT in a column of
    timestamps; both are the missing cell [VFloat nan] here). *)
Definition pd_DataFrame (rows : list row) : DataFrame :=
  let cols : gset string := ⋃ (dom <$> rows) in
  (fun r => r ∪ gset_to_gmap (VFloat nan) cols) <$> rows.

(** [for idx in idxs: state = body(idx, state)] *)
Fixpoint for_each {S} (body : nat -> S -> App S) (idxs : list nat) (s : S) : App S :=
  match idxs with
  | [] => mret s
  | idx :: idxs' => s' ← body idx s; for_each body idxs' s'
  end.

(** ** The recursive forecast *)

Section Forecast.
Context {np : Numpy}.

(** [try: yhat = float(model.predict(df)[0])] with the [except] clause of
    the first step: the message, then stop. *)
Definition predict_first (model : Model) (idx : nat) (pred_df : DataFrame) : App float :=
  match model idx pred_df with
  | PredValue yhat => mret yhat
  | PredRaises e =>
      show (st_error ("Prediction error: " +:+ exn_msg e));;
      st_stop
  end.

(** The same with the [except] clause of the later steps. *)
Definition predict_next (model : Model) (idx : nat) (new_row_df : DataFrame) : App float :=
  match model idx new_row_df with
  | PredValue yhat => mret yhat
  | PredRaises e =>
      show (st_error ("Prediction error at step " +:+ pretty idx +:+ ": " +:+ exn_msg e));;
      show (st_write "Debug info - Features available:");;
      show (st_write_columns (columns new_row_df));;
      st_stop
  end.

(** [for col in WEATHER_RENAME.values(): if col in wx_df.columns:
    new_row_df[col] = wx_df.iloc[idx][col]] *)
Fixpoint copy_weather_cells (cols : list string) (wx_df : DataFrame) (idx : nat)
    (new_row_df : DataFrame) : res DataFrame :=
  match cols with
  | [] => Ok new_row_df
  | col :: cols' =>
      if decide (col ∈ columns wx_df) then
        wx_row ← iloc wx_df idx;
        cell ← getitem wx_row col;
        copy_weather_cells cols' wx_df idx (set_scalar col cell new_row_df)
      else copy_weather_cells cols' wx_df idx new_row_df
  end.

(** The features of a step after the first, from the weather row of the
    step and the history so far. *)
Definition next_features (wx_df : DataFrame) (idx : nat) (history_pm25 : list float)
    : res DataFrame :=
  wx_row ← iloc wx_df idx;
  row_time ← getitem wx_row "time";
  let new_row_df : DataFrame := [ {["time" := row_time]} ] in
  new_row_df ← copy_weather_cells WEATHER_RENAME_values wx_df idx new_row_df;
  new_row_df ← add_time_features new_row_df;
  new_row_df ← add_weather_features new_row_df None;
  new_row_df ← create_lag_features new_row_df history_pm25;
  let new_row_df := create_rolling_features new_row_df history_pm25 in
  add_extreme_event_features new_row_df history_pm25.

(** The body of the loop.  The state is the pair of the two lists the loop
    appends to: [history_pm25] and [rows]. *)
Definition forecast_step (model : Model) (wx_df aq_df : DataFrame)
    (historical_weather_df : option DataFrame)
    (idx : nat) (state : list float * list row) : App (list float * list row) :=
  let '(history_pm25, rows) := state in
  if decide (idx = 0%nat) then
    wx_first ← lift (iloc_frame wx_df idx);
    pred_df ← lift (prepare_features wx_first aq_df historical_weather_df);
    show (st_write "Debug info - Features available:");;
    show (st_write_columns (columns pred_df));;
    yhat ← predict_first model idx pred_df;
    let history_pm25 := history_pm25 ++ [yhat] in
    let pred_df := set_scalar "PM2.5_pred" (VFloat yhat) pred_df in
    r ← lift (iloc pred_df 0);
    mret (history_pm25, rows ++ [r])
  else
    new_row_df ← lift (next_features wx_df idx history_pm25);
    yhat ← predict_next model idx new_row_df;
    let history_pm25 := history_pm25 ++ [yhat] in
    let new_row_df := set_scalar "PM2.5_pred" (VFloat yhat) new_row_df in
    r ← lift (iloc new_row_df 0);
    mret (history_pm25, rows ++ [r]).

Definition build_future_dataframe (model_file : option Model) (wx_df aq_df : DataFrame)
    (historical_weather_df : option DataFrame) : App DataFrame :=
  aq_df ← lift (sort_values_time aq_df);
  history_pm25 ← lift (pm25_tail aq_df);
  model ← load_model model_file;
  '(_, rows) ← for_each (forecast_step model wx_df aq_df historical_weather_df)
                 (seq 0 FORECAST_HOURS) (history_pm25, []);
  mret (pd_DataFrame rows).

End Forecast.

(** ** The forecast summary *)

(** The frames of the script live in a store: a variable or an argument
    holds the address of a frame, and an assignment to a column writes the
    frame at that address. *)
Abbreviation heap := (gmap nat DataFrame).

(** [df.empty]: no row, or no column. *)
Definition df_empty (df : DataFrame) : bool :=
  bool_decide (df = []) || bool_decide (columns df = ∅).

(** [s.apply(pm25_to_aqi_category)] *)
Definition apply_aqi (cells : list value) : res (list (string * string)) :=
  res_map (fun c => p ← as_float c; Ok (pm25_to_aqi_category p)) cells.

(** [s.idxmax()]: the position of the first greatest value, NaN skipped; a
    column with no number has none. *)
Fixpoint idxmax_from (l : list float) (i : nat) (best : option (nat * float))
    : option (nat * float) :=
  match l with
  | [] => best
  | x :: l' =>
      if is_nan x then idxmax_from l' (S i) best
      else match best with
           | None => idxmax_from l' (S i) (Some (i, x))
           | Some (_, b) =>
               if (b <? x)%float then idxmax_from l' (S i) (Some (i, x))
               else idxmax_from l' (S i) best
           end
  end.

Definition idxmax (l : list float) : res nat :=
  match idxmax_from l 0 None with
  | Some (i, _) => Ok i
  | None => Raise (ValueError "Encountered all NA values")
  end.

(** [df.loc[i, k]] on the default index. *)
Definition loc (df : DataFrame) (i : nat) (k : string) : res value :=
  match df !! i with
  | Some r => getitem r k
  | None => Raise (KeyError (pretty i))
  end.

Definition newline : string := String "010"%char "".

Definition weekday_names : list string :=
  ["Monday"; "Tuesday"; "Wednesday"; "Thursday"; "Friday"; "Saturday"; "Sunday"].
Definition month_names : list string :=
  ["January"; "February"; "March"; "April"; "May"; "June"; "July"; "August";
   "September"; "October"; "November"; "December"].

(** [t.strftime("%A, %B %d")] *)
Definition strftime_A_B_d (t : Timestamp) : string :=
  default "" (weekday_names !! Z.to_nat (ts_dayofweek t)) +:+ ", " +:+
  default "" (month_names !! Z.to_nat (ts_month t - 1)) +:+ " " +:+
  (if (ts_day t <? 10)%Z then "0" else "") +:+ pretty (ts_day t).

Section Summary.
(** [datetime.datetime.now().date()] and the date one day later, as
    (year, month, day). *)
Variables (today tomorrow : Z * Z * Z).

Definition ts_date (t : Timestamp) : Z * Z * Z := (ts_year t, ts_month t, ts_day t).

(** The cell read from the [datetime] column, as the timestamp whose
    [date()] is taken: the missing cell is NaT, which has no date. *)
Definition worst_timestamp (v : value) : res Timestamp :=
  match v with
  | VTime t => Ok t
  | VFloat _ => Raise (ValueError "NaTType does not support date")
  | _ => Raise (Exn "AttributeError" "object has no attribute 'date'")
  end.

(** The part of [generate_forecast_summary] after the AQI columns are
    written: it only reads the frame. *)
Definition summary_text (df : DataFrame) : res string :=
  cells ← column "PM2.5_pred" df;
  preds ← res_map as_float cells;
  overall_worst_idx ← idxmax preds;
  category_cell ← loc df overall_worst_idx "aqi_category";
  time_cell ← loc df overall_worst_idx "datetime";
  worst_time ← worst_timestamp time_cell;
  let overall_worst_category :=
    match category_cell with VStr s => s | _ => "" end in
  let date_str :=
    if decide (ts_date worst_time = today) then "Today"
    else if decide (ts_date worst_time = tomorrow) then "Tomorrow"
    else strftime_A_B_d worst_time in
  let hour := ts_hour worst_time in
  let period :=
    if (6 <=? hour)%Z && (hour <? 12)%Z then "morning (6-12 AM)"
    else if (12 <=? hour)%Z && (hour <? 18)%Z then "afternoon (12-6 PM)"
    else if (18 <=? hour)%Z then "evening (6-12 PM)" else "night (12-6 AM)" in
  let summary :=
    ["Air quality will be worst on " +:+ date_str +:+ " during " +:+ period +:+
     ", reaching " +:+ overall_worst_category +:+ " levels."] in
  let summary :=
    if bool_decide (overall_worst_category ∈ ["Unhealthy"; "Very Unhealthy"; "Hazardous"])
    then summary ++ [newline +:+ "⛔ Outdoor activity is not recommended."]
    else if String.eqb overall_worst_category "Unhealthy for Sensitive Groups"
    then summary ++ [newline +:+ "⚠️ Sensitive individuals should limit outdoor activity."]
    else summary in
  Ok (String.concat (newline +:+ newline) summary).

(** [generate_forecast_summary(df_future)]: [df_future] is the address of
    the caller's frame.  The result is the store after the call and what
    the call returns or raises. *)
Definition generate_forecast_summary (df_future : nat) (h : heap) : heap * res string :=
  match h !! df_future with
  | None => (h, Raise (Exn "NameError" "name 'df_future' is not defined"))
  | Some df =>
      if df_empty df then (h, Ok "No forecast data available.")
      else
        match (cells ← column "PM2.5_pred" df; apply_aqi cells) with
        | Raise e => (h, Raise e)
        | Ok pairs =>
            match set_column "aqi_category" ((fun c => VStr (fst c)) <$> pairs) df with
            | Raise e => (h, Raise e)
            | Ok df1 =>
                let h1 := <[df_future := df1]> h in
                match set_column "aqi_color" ((fun c => VStr (snd c)) <$> pairs) df1 with
                | Raise e => (h1, Raise e)
                | Ok df2 =>
                    let h2 := <[df_future := df2]> h1 in
                    (h2, summary_text df2)
                end
            end
        end
  end.

End Summary.

(** ** A numeric library to run the model

    Textbook formulas standing for numpy and pandas when the model is
    evaluated on a sample input.  The theorems hold for every [Numpy];
    these definitions only serve to run the model. *)
Module Reference.

Definition fsum (l : list float) : float := foldl PrimFloat.add 0%float l.

Definition mean (l : list float) : float :=
  (fsum l / float_of_Z (Z.of_nat (length l)))%float.

(** The population standard deviation ([ddof = 0], numpy's default). *)
Definition std (l : list float) : float :=
  let m := mean l in
  PrimFloat.sqrt (mean ((fun x => (x - m) * (x - m))%float <$> l)).

(** Partial sums of the Taylor series at 0: [term] is the current term,
    [k] the index of the next factor. *)
Fixpoint taylor (n : nat) (x2 term : float) (k : Z) (acc : float) : float :=
  match n with
  | O => acc
  | S n' =>
      let term' := (- (term * x2) / (float_of_Z (k * (k + 1))))%float in
      taylor n' x2 term' (k + 2) (acc + term')%float
  end.

Definition sin (x : float) : float := taylor 20 (x * x)%float x 2 x.
Definition cos (x : float) : float := taylor 20 (x * x)%float 1%float 1 1%float.

(** Linear interpolation between the two order statistics around the
    position [(n - 1) * q]. *)
Definition linear_quantile (data : list float) (q : float) : float :=
  let sorted :=
    merge_sort (fun a b => (a <=? b)%float = true)
      (H := fun a b => decide ((a <=? b)%float = true)) data in
  let h := (float_of_Z (Z.of_nat (length data) - 1) * q)%float in
  let k := length (List.filter (fun i => (float_of_Z (Z.of_nat i) <=? h)%float)
                     (seq 1 (length data - 1))) in
  match sorted !! k, sorted !! S k with
  | Some a, Some b => (a + (b - a) * (h - float_of_Z (Z.of_nat k)))%float
  | Some a, None => a
  | _, _ => nan
  end.

#[export] Instance numpy : Numpy := {|
  np_sin := sin;
  np_cos := cos;
  np_mean := mean;
  np_std := std;
  quantile := linear_quantile
|}.

End Reference.

(** ** Well-formed inputs *)

Definition is_numeric (v : value) : bool :=
  match v with
  | VFloat _ | VInt _ => true
  | _ => false
  end.

Definition has_numeric (r : row) (c : string) : bool :=
  match r !! c with
  | Some v => is_numeric v
  | None => false
  end.

Definition has_time (r : row) : bool :=
  match r !! "time" with
  | Some (VTime _) => true
  | _ => false
  end.

(** A weather row carries its timestamp and a number in each of the eight
    weather fields. *)
Definition valid_weather_row (r : row) : bool :=
  has_time r && forallb (has_numeric r) WEATHER_RENAME_values.

(** An air-quality row carries its timestamp and a PM2.5 number. *)
Definition valid_air_quality_row (r : row) : bool :=
  has_time r && has_numeric r "pm2.5".

(** A row of the historical weather window carries the two precipitation
    numbers. *)
Definition valid_historical_row (r : row) : bool :=
  has_numeric r "precipitation" && has_numeric r "snowfall".

(** The inputs of a forecast run: at least [FORECAST_HOURS] weather rows,
    every row of every frame well formed. *)
Definition valid_inputs (wx_df aq_df : DataFrame)
    (historical_weather_df : option DataFrame) : bool :=
  (FORECAST_HOURS <=? length wx_df)%nat &&
  forallb valid_weather_row wx_df &&
  forallb valid_air_quality_row aq_df &&
  match historical_weather_df with
  | Some historical => forallb valid_historical_row historical
  | None => true
  end.

(** The instant of a row. *)
Definition instant (r : row) : option Z :=
  match r !! "time" with
  | Some (VTime t) => Some (ts_value t)
  | _ => None
  end.


(** ** Sample inputs

    Concrete frames on which the model is run. *)
Module Sample.

(** Hour [h] of 1 June 2025 (a Sunday) and the days after. *)
Definition hour_stamp (h : Z) : Timestamp := {|
  ts_value := h * 3600000000000;
  ts_year := 2025;
  ts_month := 6;
  ts_day := 1 + h / 24;
  ts_hour := h mod 24;
  ts_dayofweek := (6 + h / 24) mod 7;
  ts_dayofyear := 152 + h / 24
|}.

(** A weather row: calm air, rain of 0.2 mm in every fifth hour, no snow. *)
Definition weather_row (h : Z) : row :=
  <["time" := VTime (hour_stamp h)]>
  (<["Temp" := VFloat 20.5]>
  (<["DewP" := VFloat 10]>
  (<["Press" := VFloat 1013.25]>
  (<["WindSpeed" := VFloat 0]>
  (<["WindDir" := VInt 0]>
  (<["Humidity" := VInt 40]>
  (<["precipitation" := VFloat (if (h mod 5 =? 0)%Z then 0.2 else 0)]>
  (<["snowfall" := VFloat 0]> ∅)))))))).

Definition wx_df : DataFrame := (fun i => weather_row (Z.of_nat i)) <$> seq 0 72.

(** Thirty hours of PM2.5 readings before the forecast: 0, 1, ..., 29. *)
Definition aq_df : DataFrame :=
  (fun i => <["time" := VTime (hour_stamp (Z.of_nat i - 30))]>
            (<["pm2.5" := VFloat (float_of_Z (Z.of_nat i))]> ∅)) <$> seq 0 30.

(** Thirty hours of past weather: rain of exactly 0.1 mm in each, snow of
    0.05 mm in each. *)
Definition historical_weather_df : DataFrame :=
  (fun _ => <["precipitation" := VFloat 0.1]> (<["snowfall" := VFloat 0.05]> ∅))
    <$> seq 0 30.

(** A model that always answers 10. *)
Definition constant_model : Model := fun _ _ => PredValue 10.



(** The first row of a frame that was computed without an exception. *)
Definition first_row (m : res DataFrame) : row :=
  match m with
  | Ok (r :: _) => r
  | _ => ∅
  end.

End Sample.

(** ** Vocabulary of the statements

    Definitions the properties below are stated with. *)



(** The reading of C4 as it is stated: a lag on a buffer shorter than the
    lag is the oldest entry of the buffer, and it is a number. *)
Definition lag_is_oldest_entry (history : list float) (lag : nat) : Prop :=
  (length history < lag)%nat ->
  exists x, head history = Some x /\
            lag_feature history lag = Ok (VFloat x) /\ is_nan x = false.

(** The last [min(24, len)] entries of the buffer. *)
Definition rolling_window (history : list float) : list float :=
  tail_n (24 `min` length history) history.

(** Two rows agree on every column outside [K]. *)
Definition agree_outside (K : list string) (r r' : row) : Prop :=
  forall c, c ∉ K -> r' !! c = r !! c.

(** The number of values at or above the threshold. *)
Definition count_at_least (threshold : float) (data : list float) : Z :=
  Z.of_nat (length (List.filter (fun p => (threshold <=? p)%float) data)).

(** The count over the last 24 values of column [c] of a historical
    window. *)
Definition window_hours (historical : DataFrame) (c : string) (n : Z) : Prop :=
  exists cells data,
    column c historical = Ok cells /\
    res_map as_float (tail_n 24 cells) = Ok data /\
    n = count_at_least 0.1 data.

(** The single-row estimate from column [c] of one row: 3 hours if the
    value is strictly above 0.1, none otherwise. *)
Definition single_row_hours (r : row) (c : string) (n : Z) : Prop :=
  exists cell p,
    r !! c = Some cell /\ as_float cell = Ok p /\
    n = (if (0.1 <? p)%float then 3 else 0)%Z.

(** What the two precipitation counts of [add_weather_features] are, by
    the branch taken. *)
Definition weather_hours (df : DataFrame) (historical_weather_df : option DataFrame)
    (rain snow : Z) : Prop :=
  match historical_weather_df with
  | Some historical =>
      window_hours historical "precipitation" rain /\
      window_hours historical "snowfall" snow
  | None =>
      exists r0, df !! 0%nat = Some r0 /\
        single_row_hours r0 "precipitation" rain /\
        single_row_hours r0 "snowfall" snow
  end.

(** The weather cells of [wr] copied into [r]: [r1] has the cells of [wr]
    in the columns [cols] and the cells of [r] elsewhere. *)
Definition weather_copy (cols : list string) (wr r r1 : row) : Prop :=
  (forall c, c ∈ cols -> r1 !! c = wr !! c) /\ agree_outside cols r r1.

(** The columns [add_time_features] writes. *)
Definition time_columns : list string :=
  ["Year"; "month"; "Day"; "hour"; "day_of_week"; "day_of_year"; "is_weekend";
   "time_of_day"; "Season"].

(** The columns written from the PM2.5 history: lags, rolling statistics
    and extreme-event flags. *)
Definition history_columns : list string :=
  ["pm2.5_lag1"; "pm2.5_lag2"; "pm2.5_lag3"; "pm2.5_lag6"; "pm2.5_lag12"; "pm2.5_lag24";
   "pm2.5_roll24_mean"; "pm2.5_roll24_std"; "Extreme_PM2.5"; "Extreme_Event_VMD_shift1"].

(** What a forecast step knows about the row it builds from the weather
    row [wr]: the timestamp of [wr] and the four precipitation cells, from
    the historical window [hist] if the step is given one and from [wr]
    alone otherwise. *)
Definition feature_row (wr : row) (hist : option DataFrame) (r : row) : Prop :=
  r !! "time" = wr !! "time" /\
  exists rain snow,
    weather_hours [wr] hist rain snow /\
    r !! "HoursOfRain" = Some (VInt rain) /\
    r !! "HoursOfSnow" = Some (VInt snow) /\
    r !! "HoursOfRain_rolling" = Some (VInt rain) /\
    r !! "HoursOfSnow_rolling" = Some (VInt snow).


(** The weather history a step passes on: the first step only. *)
Definition step_history (hist : option DataFrame) (idx : nat) : option DataFrame :=
  if decide (idx = 0%nat) then hist else None.

(** The feature frame the loop body builds at step [idx], before it calls
    the model: [prepare_features] on the first weather row at step 0,
    [next_features] afterwards. *)
Definition step_features (np : Numpy) (wx_df aq_df : DataFrame)
    (hist : option DataFrame) (idx : nat) (history : list float) : res DataFrame :=
  if decide (idx = 0%nat)
  then wx_first ← iloc_frame wx_df idx; prepare_features wx_first aq_df hist
  else next_features wx_df idx history.

(** What the run knows about the row of step [idx]. *)
Definition forecast_row (wx_df : DataFrame) (hist : option DataFrame) (idx : nat)
    (r : row) : Prop :=
  exists wr,
    wx_df !! idx = Some wr /\
    feature_row wr (step_history hist idx) r /\
    exists y, r !! "PM2.5_pred" = Some (VFloat y).


(** The extreme-event flag of the entry [n] places before the end of the
    buffer: "No" when the buffer has fewer than [n] entries. *)
Definition extreme_flag (history : list float) (n : nat) : string :=
  match history !! (length history - n)%nat with
  | Some x => if decide (n <= length history)%nat then is_extreme_pm25 x 150 else "No"
  | None => "No"
  end.

(** The cell [create_rolling_features] writes to pm2.5_roll24_mean. *)
Definition rolling_mean_cell (np : Numpy) (history : list float) : value :=
  match history with
  | [] => VFloat nan
  | _ => VFloat (np_mean (rolling_window history))
  end.

(** The cell [create_rolling_features] writes to pm2.5_roll24_std. *)
Definition rolling_std_cell (np : Numpy) (history : list float) : value :=
  match history with
  | [] => VFloat nan
  | [_] => VInt 0
  | _ => VFloat (np_std (rolling_window history))
  end.

(** The cells of a row that are derived from the PM2.5 buffer [history]. *)
Definition history_cells (np : Numpy) (history : list float) (r : row) : Prop :=
  (forall k, k ∈ lag_periods ->
     exists x, lag_feature history k = Ok (VFloat x) /\
               r !! lag_column k = Some (VFloat x)) /\
  r !! "pm2.5_roll24_mean" = Some (rolling_mean_cell np history) /\
  r !! "pm2.5_roll24_std" = Some (rolling_std_cell np history) /\
  r !! "Extreme_PM2.5" = Some (VStr (extreme_flag history 1)) /\
  r !! "Extreme_Event_VMD_shift1" = Some (VStr (extreme_flag history 2)).

(** The steps [a], [a+1], ... of the loop from the buffer [history], as a
    step relation: each step builds its feature frame from the buffer,
    asks the model, writes the prediction into the row and appends it to
    the buffer.  [ys] are the predictions and [rows] the rows, in order. *)
Inductive steps_trace (np : Numpy) (model : Model) (wx_df aq_df : DataFrame)
    (hist : option DataFrame) : nat -> list float -> list float -> list row -> Prop :=
| steps_done a history :
    steps_trace np model wx_df aq_df hist a history [] []
| steps_next a history r0 y ys rows :
    step_features np wx_df aq_df hist a history = Ok [r0] ->
    model a [r0] = PredValue y ->
    steps_trace np model wx_df aq_df hist (S a) (history ++ [y]) ys rows ->
    steps_trace np model wx_df aq_df hist a history
      (y :: ys) (<["PM2.5_pred" := VFloat y]> r0 :: rows).

(** The debug messages of the first step. *)
Definition debug_messages (cols : gset string) : list st_event :=
  [st_write "Debug info - Features available:"; st_write_columns cols].

(** The columns [add_weather_features] writes. *)
Definition weather_feature_columns : list string :=
  ["WinDir_U"; "WinDir_V"; "WindSpeed_Winsorized";
   "HoursOfRain"; "HoursOfSnow"; "HoursOfRain_rolling"; "HoursOfSnow_rolling"].

(** The columns the feature derivations write besides time. *)
Definition derived_columns : list string :=
  WEATHER_RENAME_values ++ time_columns ++ weather_feature_columns ++ history_columns.

(** A model whose prediction rises with the hour: 0, 1, 2, ... *)
Definition rising_model : Model := fun idx _ => PredValue (float_of_Z (Z.of_nat idx)).

(** The predictions written in a frame. *)
Definition predictions (df : DataFrame) : list float :=
  (fun r : row => match r !! "PM2.5_pred" with Some (VFloat y) => y | _ => nan end) <$> df.

(** The frame after [generate_forecast_summary] has written the category
    and the colour of each prediction. *)
Definition with_aqi (df : DataFrame) (preds : list float) : DataFrame :=
  zip_with (fun (r : row) v => <["aqi_color" := v]> r)
    (zip_with (fun (r : row) v => <["aqi_category" := v]> r) df
       ((fun c : string * string => VStr c.1) <$> (pm25_to_aqi_category <$> preds)))
    ((fun c : string * string => VStr c.2) <$> (pm25_to_aqi_category <$> preds)).

(** The six categories from best to worst. *)
Definition aqi_rank (category : string) : nat :=
  if String.eqb category "Good" then 0
  else if String.eqb category "Moderate" then 1
  else if String.eqb category "Unhealthy for Sensitive Groups" then 2
  else if String.eqb category "Unhealthy" then 3
  else if String.eqb category "Very Unhealthy" then 4
  else 5.

(** A row with its instant, the sort key of [sort_values_time]. *)
Definition keyed (r : row) : Z * row := (default 0%Z (instant r), r).

(** The order [sort_values_time] sorts by. *)
Definition key_le (a b : Z * row) : Prop := (a.1 <= b.1)%Z.

#[local] Instance key_le_dec : RelDecision key_le := fun a b => decide (a.1 <= b.1)%Z.

(** * Properties *)

(** Closes an equation between closed terms by evaluating both sides. *)
Ltac by_evaluation :=
  lazymatch goal with |- ?x = _ => vm_cast_no_check (@eq_refl _ x) end.

(** ** IEEE comparisons

    The order facts about [<=?] and [<?] on floats that the classifier
    needs, derived from the specification of the primitive operations. *)

Module FloatOrder.

Lemma SFcompare_swap (a b : spec_float) :
  SFcompare b a = option_map CompOpp (SFcompare a b).
Proof.
  destruct a as [sa|sa| |sa ma ea], b as [sb|sb| |sb mb eb];
    repeat match goal with s : bool |- _ => destruct s end;
    cbn; try reflexivity.
  - rewrite (Z.compare_antisym ea eb), (ZC4 mb ma).
    destruct (ea ?= eb)%Z; cbn; rewrite ?CompOpp_involutive; reflexivity.
  - rewrite (Z.compare_antisym ea eb), (ZC4 mb ma).
    destruct (ea ?= eb)%Z; cbn; reflexivity.
Qed.

Lemma SFcompare_nan_iff (a b : spec_float) :
  SFcompare a b = None <-> a = S754_nan \/ b = S754_nan.
Proof.
  destruct a as [sa|sa| |sa ma ea], b as [sb|sb| |sb mb eb];
    repeat match goal with s : bool |- _ => destruct s end;
    cbn; split; intros H; try discriminate; try tauto;
    destruct H; discriminate.
Qed.

Lemma Prim2SF_nan_iff (x : float) : Prim2SF x = S754_nan <-> is_nan x = true.
Proof.
  unfold is_nan. rewrite FloatAxioms.eqb_spec. unfold SFeqb.
  destruct (SFcompare (Prim2SF x) (Prim2SF x)) as [c|] eqn:E.
  - split.
    + intros H. rewrite H in E. discriminate.
    + intros H.
      assert (Hs := SFcompare_swap (Prim2SF x) (Prim2SF x)).
      rewrite E in Hs. cbn in Hs.
      destruct c; cbn in *; try discriminate; congruence.
  - apply SFcompare_nan_iff in E. split; [reflexivity | tauto].
Qed.

(** On numbers (no NaN on either side) [<=?] and [<?] are each other's
    negation. *)
Lemma leb_false_ltb (x y : float) :
  is_nan x = false -> is_nan y = false ->
  (x <=? y)%float = false -> (y <? x)%float = true.
Proof.
  intros Hx Hy. rewrite FloatAxioms.leb_spec, FloatAxioms.ltb_spec. unfold SFleb, SFltb.
  rewrite (SFcompare_swap (Prim2SF x) (Prim2SF y)).
  destruct (SFcompare (Prim2SF x) (Prim2SF y)) as [c|] eqn:E.
  - destruct c; cbn; congruence.
  - apply SFcompare_nan_iff in E.
    destruct E as [E|E]; apply Prim2SF_nan_iff in E; congruence.
Qed.

Lemma ltb_leb_false (x y : float) :
  (y <? x)%float = true -> (x <=? y)%float = false.
Proof.
  rewrite FloatAxioms.leb_spec, FloatAxioms.ltb_spec. unfold SFleb, SFltb.
  rewrite (SFcompare_swap (Prim2SF x) (Prim2SF y)).
  destruct (SFcompare (Prim2SF x) (Prim2SF y)) as [[]|]; cbn; congruence.
Qed.

Lemma SFleb_trans (a b c : spec_float) :
  SFleb a b = true -> SFleb b c = true -> SFleb a c = true.
Proof.
  unfold SFleb.
  destruct a as [sa|sa| |sa ma ea], b as [sb|sb| |sb mb eb],
           c as [sc|sc| |sc mc ec];
    repeat match goal with s : bool |- _ => destruct s end;
    cbn; try congruence;
    change (PosDef.Pos.compare_cont Eq) with Pos.compare;
    repeat match goal with
    | |- context [(?u ?= ?v)%Z] =>
        destruct (Z.compare_spec u v); cbn; try congruence; try lia
    end;
    subst;
    repeat match goal with
    | |- context [(?u ?= ?v)%positive] =>
        destruct (Pos.compare_spec u v); cbn; try congruence; try lia
    end.
Qed.

Lemma leb_trans (x y z : float) :
  (x <=? y)%float = true -> (y <=? z)%float = true -> (x <=? z)%float = true.
Proof. rewrite !FloatAxioms.leb_spec. apply SFleb_trans. Qed.

(** A value above [y] is above everything below [y]. *)
Lemma ltb_leb_above (x y z : float) :
  (z <=? y)%float = true -> (y <? x)%float = true -> (x <=? z)%float = false.
Proof.
  intros Hzy Hyx. destruct (x <=? z)%float eqn:E; [|reflexivity].
  pose proof (leb_trans _ _ _ E Hzy) as H.
  rewrite (ltb_leb_false _ _ Hyx) in H. discriminate.
Qed.

Lemma leb_nan_l (x y : float) : is_nan x = true -> (x <=? y)%float = false.
Proof.
  intros H. apply Prim2SF_nan_iff in H.
  rewrite FloatAxioms.leb_spec, H. reflexivity.
Qed.

End FloatOrder.

(** ** The AQI classifier *)

Lemma ltb_negb_leb (x y : float) :
  is_nan x = false -> is_nan y = false -> (y <? x)%float = negb (x <=? y)%float.
Proof.
  intros Hx Hy. destruct (x <=? y)%float eqn:E; cbn.
  - destruct (y <? x)%float eqn:E'; [|reflexivity].
    apply FloatOrder.ltb_leb_false in E'. congruence.
  - now apply FloatOrder.leb_false_ltb.
Qed.

(** Below a breakpoint is below every greater breakpoint. *)
Lemma leb_breakpoint (p c c' : float) :
  (c <=? c')%float = true -> (p <=? c)%float = true -> (p <=? c')%float = true.
Proof. intros Hc Hp. exact (FloatOrder.leb_trans _ _ _ Hp Hc). Qed.

(** C6: for a PM2.5 concentration [p] that is a number, the category is
    Good iff p <= 12, Moderate iff 12 < p <= 35.4, Unhealthy for Sensitive
    Groups iff 35.4 < p <= 55.4, Unhealthy iff 55.4 < p <= 150.4, Very
    Unhealthy iff 150.4 < p <= 250.4 and Hazardous iff p > 250.4; the upper
    bounds are inclusive: 12.0 is Good, 12.1 Moderate, 150.4 Unhealthy and
    150.5 Very Unhealthy. *)
Theorem pm25_to_aqi_category_breakpoints (p : float) :
  is_nan p = false ->
  ((pm25_to_aqi_category p).1 = "Good" <-> (p <=? 12)%float = true) /\
  ((pm25_to_aqi_category p).1 = "Moderate" <->
     (12 <? p)%float = true /\ (p <=? 35.4)%float = true) /\
  ((pm25_to_aqi_category p).1 = "Unhealthy for Sensitive Groups" <->
     (35.4 <? p)%float = true /\ (p <=? 55.4)%float = true) /\
  ((pm25_to_aqi_category p).1 = "Unhealthy" <->
     (55.4 <? p)%float = true /\ (p <=? 150.4)%float = true) /\
  ((pm25_to_aqi_category p).1 = "Very Unhealthy" <->
     (150.4 <? p)%float = true /\ (p <=? 250.4)%float = true) /\
  ((pm25_to_aqi_category p).1 = "Hazardous" <-> (250.4 <? p)%float = true) /\
  (pm25_to_aqi_category 12.0).1 = "Good" /\
  (pm25_to_aqi_category 12.1).1 = "Moderate" /\
  (pm25_to_aqi_category 150.4).1 = "Unhealthy" /\
  (pm25_to_aqi_category 150.5).1 = "Very Unhealthy".
Proof.
  intros Hp.
  rewrite (ltb_negb_leb p 12), (ltb_negb_leb p 35.4), (ltb_negb_leb p 55.4),
    (ltb_negb_leb p 150.4), (ltb_negb_leb p 250.4) by (assumption || reflexivity).
  pose proof (leb_breakpoint p 12 35.4 eq_refl) as H1.
  pose proof (leb_breakpoint p 35.4 55.4 eq_refl) as H2.
  pose proof (leb_breakpoint p 55.4 150.4 eq_refl) as H3.
  pose proof (leb_breakpoint p 150.4 250.4 eq_refl) as H4.
  unfold pm25_to_aqi_category.
  destruct (p <=? 12)%float, (p <=? 35.4)%float, (p <=? 55.4)%float,
    (p <=? 150.4)%float, (p <=? 250.4)%float;
    try specialize (H1 eq_refl); try specialize (H2 eq_refl);
    try specialize (H3 eq_refl); try specialize (H4 eq_refl);
    try discriminate;
    cbn; repeat split; intros;
    repeat match goal with H : _ /\ _ |- _ => destruct H end;
    try discriminate; reflexivity.
Qed.

Lemma pm25_to_aqi_category_breakpoints_witness :
  is_nan 35.4%float = false /\
  ((pm25_to_aqi_category 35.4).1 = "Moderate" <->
     (12 <? 35.4)%float = true /\ (35.4 <=? 35.4)%float = true).
Proof.
  split; [reflexivity |].
  exact (proj1 (proj2 (pm25_to_aqi_category_breakpoints 35.4 eq_refl))).
Defined.

(** A NaN concentration fails every comparison and falls through to the
    last branch. *)
Lemma pm25_to_aqi_category_nan : (pm25_to_aqi_category nan).1 = "Hazardous".
Proof. reflexivity. Qed.

(** ** Wind components *)




(** ** Reasoning about results and frames *)

Lemma res_bind_Ok {A B} (m : res A) (k : A -> res B) (b : B) :
  m ≫= k = Ok b <-> exists a, m = Ok a /\ k a = Ok b.
Proof.
  destruct m as [a|e]; cbn; split.
  - intros H. eauto.
  - intros (a' & Ha & Hk). congruence.
  - discriminate.
  - intros (a' & Ha & _). discriminate.
Qed.

(** Invert a chain of binds that ended in [Ok]. *)
Ltac res_inv H :=
  repeat match type of H with
  | _ ≫= _ = Ok _ =>
      let a := fresh "a" in
      let Ha := fresh "Ha" in
      apply res_bind_Ok in H; destruct H as (a & Ha & H)
  | Ok _ = Ok _ => injection H as H
  end.

Lemma res_map_Ok_length {A B} (f : A -> res B) (l : list A) (l' : list B) :
  res_map f l = Ok l' -> length l' = length l.
Proof.
  revert l'. induction l as [|x l IH]; intros l' H; cbn in H.
  - injection H as <-. reflexivity.
  - res_inv H. subst l'. cbn. f_equal. eauto.
Qed.

Lemma res_map_Ok_lookup {A B} (f : A -> res B) (l : list A) (l' : list B) i x :
  res_map f l = Ok l' -> l !! i = Some x ->
  exists y, f x = Ok y /\ l' !! i = Some y.
Proof.
  revert l' i. induction l as [|a l IH]; intros l' i H Hi; [discriminate|].
  cbn in H. res_inv H. subst l'.
  destruct i as [|i]; cbn in Hi |- *.
  - injection Hi as ->. eauto.
  - eauto.
Qed.


Lemma length_set_scalar k v df : length (set_scalar k v df) = length df.
Proof. unfold set_scalar. apply length_fmap. Qed.

Lemma lookup_set_scalar k v df i :
  set_scalar k v df !! i = (fun r => <[k := v]> r) <$> df !! i.
Proof. unfold set_scalar. apply list_lookup_fmap. Qed.

Lemma elem_of_set_scalar k v df (r' : row) :
  r' ∈ set_scalar k v df <-> exists r, r' = <[k := v]> r /\ r ∈ df.
Proof. unfold set_scalar. apply list_elem_of_fmap. Qed.

Lemma set_column_Ok k vs df df' :
  set_column k vs df = Ok df' ->
  length vs = length df /\ df' = zip_with (fun r v => <[k := v]> r) df vs.
Proof. unfold set_column. case_decide; [|discriminate]. intros [= <-]. auto. Qed.

Lemma set_column_same_length k vs df :
  length vs = length df ->
  set_column k vs df = Ok (zip_with (fun r v => <[k := v]> r) df vs).
Proof. intros H. unfold set_column. now rewrite decide_True. Qed.

(** Negative indexing within range reads from the end. *)
Lemma list_getitem_from_end {A} (l : list A) (k : nat) :
  (1 <= k <= length l)%nat ->
  list_getitem l (- Z.of_nat k) =
    match l !! (length l - k)%nat with
    | Some x => Ok x
    | None => Raise (IndexError "list index out of range")
    end.
Proof.
  intros Hk. unfold list_getitem.
  replace (- Z.of_nat k <? 0)%Z with true by (symmetry; apply Z.ltb_lt; lia).
  replace (- Z.of_nat k + Z.of_nat (length l) <? 0)%Z with false
    by (symmetry; apply Z.ltb_ge; lia).
  replace (Z.to_nat (- Z.of_nat k + Z.of_nat (length l))) with (length l - k)%nat by lia.
  reflexivity.
Qed.

Lemma list_getitem_from_end_Some {A} (l : list A) (k : nat) :
  (1 <= k <= length l)%nat ->
  exists x, l !! (length l - k)%nat = Some x /\ list_getitem l (- Z.of_nat k) = Ok x.
Proof.
  intros Hk. rewrite list_getitem_from_end by assumption.
  destruct (lookup_lt_is_Some_2 l (length l - k)%nat) as [x Hx]; [lia|].
  rewrite Hx. eauto.
Qed.

(** ** Lag features *)

Lemma lag_column_inj : Inj (=) (=) lag_column.
Proof.
  intros k k' H. unfold lag_column in H.
  apply (String.app_inj "pm2.5_lag") in H. now apply (inj pretty) in H.
Qed.

Lemma lag_feature_enough (history : list float) (lag : nat) :
  (1 <= lag <= length history)%nat ->
  exists x, history !! (length history - lag)%nat = Some x /\
            lag_feature history lag = Ok (VFloat x).
Proof.
  intros Hk. unfold lag_feature. rewrite decide_True by lia.
  destruct (list_getitem_from_end_Some history lag Hk) as (x & Hx & ->).
  eauto.
Qed.

Lemma lag_feature_short (history : list float) (lag : nat) (x : float) :
  (length history < lag)%nat -> head history = Some x ->
  lag_feature history lag = Ok (VFloat x).
Proof.
  intros Hk Hx. unfold lag_feature. rewrite decide_False by lia.
  destruct history as [|y history]; [discriminate|].
  injection Hx as ->. reflexivity.
Qed.

Lemma lag_feature_empty (lag : nat) :
  (1 <= lag)%nat -> lag_feature [] lag = Ok (VFloat nan).
Proof.
  intros Hk. unfold lag_feature. rewrite decide_False by (cbn; lia). reflexivity.
Qed.

Lemma lag_feature_total (history : list float) (lag : nat) :
  (1 <= lag)%nat -> exists x, lag_feature history lag = Ok (VFloat x).
Proof.
  intros Hk. destruct (decide (lag <= length history)%nat) as [Hle|Hgt].
  - destruct (lag_feature_enough history lag) as (x & _ & Hx); [lia|]. eauto.
  - destruct history as [|y history].
    + exists nan. now apply lag_feature_empty.
    + exists y. apply lag_feature_short; [lia | reflexivity].
Qed.

(** [add_lags] never raises on positive lags; it writes the lag cells and
    leaves every other cell as it was. *)
Lemma add_lags_spec (lags : list nat) (history : list float) (df : DataFrame) :
  Forall (fun k => 1 <= k)%nat lags -> NoDup lags ->
  exists df', add_lags lags history df = Ok df' /\
    Forall2 (fun r r' : row =>
      (forall k, k ∈ lags ->
         exists x, lag_feature history k = Ok (VFloat x) /\
                   r' !! lag_column k = Some (VFloat x)) /\
      (forall c, (forall k, k ∈ lags -> c <> lag_column k) -> r' !! c = r !! c))
      df df'.
Proof.
  intros Hpos Hnd. revert df.
  induction lags as [|k lags IH]; intros df; cbn.
  - exists df. split; [reflexivity|].
    apply Forall2_same_length_lookup_2; [reflexivity|].
    intros i r r' Hr Hr'. assert (r' = r) as -> by congruence.
    split; [intros k Hk; inversion Hk | reflexivity].
  - apply Forall_cons in Hpos as [Hk Hpos]. apply NoDup_cons in Hnd as [Hnotin Hnd].
    destruct (lag_feature_total history k Hk) as (x & Hx). rewrite Hx. cbn.
    destruct (IH Hpos Hnd (set_scalar (lag_column k) (VFloat x) df)) as (df' & -> & Hall).
    exists df'. split; [reflexivity|].
    unfold set_scalar in Hall. apply Forall2_fmap_l in Hall.
    eapply Forall2_impl; [exact Hall|].
    intros r r' [Hin Hout]. cbn in Hin, Hout. split.
    + intros k' Hk'. apply elem_of_cons in Hk' as [->|Hk']; [|now apply Hin].
      exists x. split; [assumption|].
      rewrite Hout; [apply lookup_insert_eq|].
      intros k' Hk' Heq. apply lag_column_inj in Heq. congruence.
    + intros c Hc. rewrite Hout.
      * apply lookup_insert_ne. intros Heq. eapply Hc; [left | symmetry; exact Heq].
      * intros k' Hk'. apply Hc. now right.
Qed.

Lemma lag_periods_ok : Forall (fun k => 1 <= k)%nat lag_periods /\ NoDup lag_periods.
Proof.
  split.
  - unfold lag_periods. repeat constructor; lia.
  - apply (bool_decide_unpack _). vm_compute. exact I.
Qed.

(** The empty buffer has no oldest entry: every lag feature is NaN. *)
Lemma lag_feature_empty_buffer_is_nan :
  lag_feature [] 1 = Ok (VFloat nan) /\ is_nan nan = true /\
  ~ lag_is_oldest_entry [] 1.
Proof.
  split; [reflexivity|]. split; [reflexivity|].
  intros H. destruct H as (x & Hx & _); [cbn; lia | discriminate].
Qed.

(** C4, amended: [create_lag_features] never raises.  For each lag k of
    {1,2,3,6,12,24} and each row of the result: with at least k entries in
    the buffer the cell [pm2.5_lag<k>] is the entry k places before the
    end; with fewer than k entries in a buffer that is not empty it is the
    oldest entry; with the empty buffer it is NaN. *)
Theorem create_lag_features_cells (df : DataFrame) (history : list float) :
  exists df', create_lag_features df history = Ok df' /\
    length df' = length df /\
    forall (r' : row) (k : nat), r' ∈ df' -> k ∈ lag_periods ->
      ((k <= length history)%nat ->
         exists x, history !! (length history - k)%nat = Some x /\
                   r' !! lag_column k = Some (VFloat x)) /\
      ((length history < k)%nat -> history <> [] ->
         exists x, head history = Some x /\ r' !! lag_column k = Some (VFloat x)) /\
      (history = [] -> r' !! lag_column k = Some (VFloat nan)).
Proof.
  destruct lag_periods_ok as [Hpos Hnd].
  destruct (add_lags_spec lag_periods history df Hpos Hnd) as (df' & Hdf' & Hall).
  exists df'. split; [exact Hdf'|]. split.
  { symmetry. eapply Forall2_length, Hall. }
  intros r' k Hr' Hk.
  apply list_elem_of_lookup in Hr' as [i Hi].
  destruct (Forall2_lookup_r _ _ _ _ _ Hall Hi) as (r & _ & Hin & _).
  destruct (Hin k Hk) as (x & Hx & Hcell).
  assert (1 <= k)%nat as Hk1 by (rewrite Forall_forall in Hpos; now apply Hpos).
  repeat split.
  - intros Hle. destruct (lag_feature_enough history k) as (y & Hy & Hy'); [lia|].
    exists y. split; [assumption|]. congruence.
  - intros Hlt Hne. destruct history as [|y history]; [congruence|].
    exists y. split; [reflexivity|].
    rewrite (lag_feature_short (y :: history) k y Hlt eq_refl) in Hx. congruence.
  - intros ->. rewrite (lag_feature_empty k Hk1) in Hx. congruence.
Qed.

(** ** Rolling features *)

Lemma slice_last_pos {A} (n : nat) (l : list A) :
  (0 < n)%nat -> slice_last n l = tail_n n l.
Proof. destruct n; [lia | reflexivity]. Qed.

Lemma length_tail_n {A} (n : nat) (l : list A) :
  (n <= length l)%nat -> length (tail_n n l) = n.
Proof. intros H. unfold tail_n. rewrite length_drop. lia. Qed.

Lemma tail_n_suffix {A} (n : nat) (l : list A) : tail_n n l `suffix_of` l.
Proof. apply suffix_drop. Qed.

Lemma rolling_window_length (history : list float) :
  length (rolling_window history) = (24 `min` length history)%nat.
Proof. apply length_tail_n. lia. Qed.

(** C5: the 24-hour rolling mean and standard deviation are taken over the
    last min(24, len) entries of the buffer; on a buffer of one entry the
    standard deviation is the integer 0; on the empty buffer both cells are
    NaN. *)
Theorem create_rolling_features_cells (np : Numpy) (df : DataFrame)
    (history : list float) (r' : row) :
  r' ∈ create_rolling_features df history ->
  (history <> [] ->
     r' !! "pm2.5_roll24_mean" = Some (VFloat (np_mean (rolling_window history)))) /\
  ((1 < length history)%nat ->
     r' !! "pm2.5_roll24_std" = Some (VFloat (np_std (rolling_window history)))) /\
  (length history = 1%nat -> r' !! "pm2.5_roll24_std" = Some (VInt 0)) /\
  (history = [] ->
     r' !! "pm2.5_roll24_mean" = Some (VFloat nan) /\
     r' !! "pm2.5_roll24_std" = Some (VFloat nan)) /\
  length (rolling_window history) = (24 `min` length history)%nat /\
  rolling_window history `suffix_of` history.
Proof.
  intros Hr'. unfold create_rolling_features in Hr'.
  assert (Hlen : history = [] <-> length history = 0%nat)
    by (destruct history; cbn; split; (congruence || lia)).
  case_decide as Hpos.
  - apply elem_of_set_scalar in Hr' as (r1 & -> & Hr1).
    apply elem_of_set_scalar in Hr1 as (r & -> & _).
    rewrite slice_last_pos in * by lia. fold (rolling_window history).
    repeat split.
    + intros _. now rewrite lookup_insert_ne, lookup_insert_eq.
    + intros H1. rewrite lookup_insert_eq, decide_True by lia. reflexivity.
    + intros H1. rewrite lookup_insert_eq, decide_False by lia. reflexivity.
    + apply Hlen in H. lia.
    + apply Hlen in H. lia.
    + apply rolling_window_length.
    + apply tail_n_suffix.
  - apply elem_of_set_scalar in Hr' as (r1 & -> & Hr1).
    apply elem_of_set_scalar in Hr1 as (r & -> & _).
    repeat split; try (intros; exfalso; destruct history; cbn in *; (congruence || lia)).
    + now rewrite lookup_insert_ne, lookup_insert_eq.
    + now rewrite lookup_insert_eq.
    + apply rolling_window_length.
    + apply tail_n_suffix.
Qed.

Lemma create_rolling_features_cells_witness :
  exists r' : row,
    r' ∈ create_rolling_features (np := Reference.numpy) [∅] [5%float] /\
    r' !! "pm2.5_roll24_mean" = Some (VFloat 5) /\
    r' !! "pm2.5_roll24_std" = Some (VInt 0).
Proof.
  exists (<["pm2.5_roll24_std" := VInt 0]>
            (<["pm2.5_roll24_mean" := VFloat (@np_mean Reference.numpy [5%float])]> ∅)).
  assert (Hin : <["pm2.5_roll24_std" := VInt 0]>
                  (<["pm2.5_roll24_mean" :=
                       VFloat (@np_mean Reference.numpy [5%float])]> (∅ : row))
                ∈ create_rolling_features (np := Reference.numpy) [∅] [5%float])
    by apply list_elem_of_here.
  destruct (create_rolling_features_cells Reference.numpy [∅] [5%float] _ Hin)
    as (Hmean & _ & Hstd & _).
  split; [exact Hin|]. split; [|exact (Hstd eq_refl)].
  rewrite Hmean by discriminate. by_evaluation.
Defined.

(** ** Weather features *)

Lemma agree_outside_refl K r : agree_outside K r r.
Proof. intros c _. reflexivity. Qed.

Lemma agree_outside_insert k v r : agree_outside [k] r (<[k := v]> r).
Proof.
  intros c Hc. apply lookup_insert_ne. intros ->. apply Hc. apply list_elem_of_here.
Qed.

Lemma agree_outside_trans K1 K2 r1 r2 r3 :
  agree_outside K1 r1 r2 -> agree_outside K2 r2 r3 -> agree_outside (K1 ++ K2) r1 r3.
Proof.
  intros H1 H2 c Hc. rewrite H2, H1; [reflexivity | |];
    intros Hin; apply Hc, elem_of_app; auto.
Qed.

Lemma Forall2_agree_trans K1 K2 (df1 df2 df3 : DataFrame) :
  Forall2 (agree_outside K1) df1 df2 -> Forall2 (agree_outside K2) df2 df3 ->
  Forall2 (agree_outside (K1 ++ K2)) df1 df3.
Proof.
  intros H12. revert df3. induction H12 as [|r1 r2 df1 df2 Hr _ IH]; intros df3 H23.
  - inversion H23. constructor.
  - inversion H23 as [|? r3 ? df3' Hr' H23']; subst. constructor; [|now apply IH].
    eapply agree_outside_trans; eassumption.
Qed.

Lemma set_scalar_agree k v (df : DataFrame) :
  Forall2 (agree_outside [k]) df (set_scalar k v df).
Proof.
  unfold set_scalar. apply Forall2_fmap_r, Forall_Forall2_diag, Forall_forall.
  intros r _. apply agree_outside_insert.
Qed.

Lemma set_column_agree k vs (df df' : DataFrame) :
  set_column k vs df = Ok df' -> Forall2 (agree_outside [k]) df df'.
Proof.
  intros H. apply set_column_Ok in H as [Hlen ->].
  revert vs Hlen. induction df as [|r df IH]; intros [|v vs] Hlen;
    cbn in *; try discriminate; constructor.
  - apply agree_outside_insert.
  - apply IH. lia.
Qed.

Lemma py_sum_ones {A} (l : list A) : py_sum ((fun _ => 1%Z) <$> l) = Z.of_nat (length l).
Proof.
  unfold py_sum.
  enough (forall acc, foldl Z.add acc ((fun _ => 1%Z) <$> l) = (acc + Z.of_nat (length l))%Z)
    as H by (rewrite H; lia).
  induction l as [|x l IH]; intros acc; cbn [foldl fmap list_fmap length].
  - lia.
  - rewrite IH. lia.
Qed.

Lemma calculate_hours_of_precipitation_count data threshold :
  calculate_hours_of_precipitation data threshold = count_at_least threshold data.
Proof. unfold calculate_hours_of_precipitation. apply py_sum_ones. Qed.

(** Solves ["c" ∉ ["a"; "b"; ...]] on literal column names. *)
Ltac column_not_in :=
  let Hin := fresh "Hin" in
  intros Hin;
  repeat (apply elem_of_cons in Hin as [Hin|Hin]; [discriminate Hin|]);
  apply elem_of_nil in Hin; exact Hin.

Lemma column_lookup k (df : DataFrame) cells i r :
  column k df = Ok cells -> df !! i = Some r ->
  exists v, r !! k = Some v /\ cells !! i = Some v.
Proof.
  intros H Hi. unfold column in H.
  destruct (res_map_Ok_lookup _ _ _ _ _ H Hi) as (v & Hv & Hc).
  unfold getitem in Hv. destruct (r !! k) eqn:E; [|discriminate].
  injection Hv as ->. eauto.
Qed.

Lemma has_precipitation_Ok cells n :
  has_precipitation cells = Ok n ->
  exists c p, cells !! 0%nat = Some c /\ as_float c = Ok p /\
              n = (if (0.1 <? p)%float then 1 else 0)%Z.
Proof.
  unfold has_precipitation. intros H.
  apply res_bind_Ok in H as (c & Hc & H).
  apply res_bind_Ok in H as (p & Hp & H).
  injection H as <-.
  destruct cells as [|c' cells]; [discriminate|]. cbn in Hc. injection Hc as ->.
  exists c, p. auto.
Qed.

(** The shape of every successful result of [add_weather_features]: the
    four precipitation cells written over a frame that differs from the
    input in the three wind columns only. *)
Lemma add_weather_features_Ok (np : Numpy) (df : DataFrame) hist (df' : DataFrame) :
  add_weather_features df hist = Ok df' ->
  exists (base : DataFrame) (rain snow : Z),
    df' = set_scalar "HoursOfSnow_rolling" (VInt snow)
            (set_scalar "HoursOfRain_rolling" (VInt rain)
              (set_scalar "HoursOfSnow" (VInt snow)
                (set_scalar "HoursOfRain" (VInt rain) base))) /\
    Forall2 (agree_outside ["WinDir_U"; "WinDir_V"; "WindSpeed_Winsorized"]) df base /\
    weather_hours df hist rain snow.
Proof.
  unfold add_weather_features. intros H.
  apply res_bind_Ok in H as (uv & Huv & H).
  apply res_bind_Ok in H as (df1 & Hdf1 & H).
  apply res_bind_Ok in H as (df2 & Hdf2 & H).
  apply res_bind_Ok in H as (speed_cells & Hsc & H).
  apply res_bind_Ok in H as (speeds & Hsp & H).
  apply res_bind_Ok in H as (base & Hbase & H).
  assert (Hagree : Forall2 (agree_outside ["WinDir_U"; "WinDir_V"; "WindSpeed_Winsorized"])
                     df base).
  { apply set_column_agree in Hdf1, Hdf2, Hbase.
    exact (Forall2_agree_trans _ _ _ _ _
             (Forall2_agree_trans _ _ _ _ _ Hdf1 Hdf2) Hbase). }
  destruct hist as [h|].
  - apply res_bind_Ok in H as (pcells & Hp & H).
    apply res_bind_Ok in H as (scells & Hs & H).
    apply res_bind_Ok in H as (rain & Hrain & H).
    apply res_bind_Ok in H as (snow & Hsnow & H).
    apply res_bind_Ok in H as (rain' & Hrain' & H).
    apply res_bind_Ok in H as (snow' & Hsnow' & H).
    injection H as <-.
    assert (rain' = rain) as -> by congruence.
    assert (snow' = snow) as -> by congruence.
    exists base, rain, snow. split; [reflexivity|]. split; [exact Hagree|].
    unfold hours_of_precipitation in Hrain, Hsnow.
    apply res_bind_Ok in Hrain as (precip & Hprecip & Hrain).
    apply res_bind_Ok in Hsnow as (snowfall & Hsnowfall & Hsnow).
    injection Hrain as <-. injection Hsnow as <-.
    rewrite !calculate_hours_of_precipitation_count.
    split; [exists pcells, precip | exists scells, snowfall]; auto.
  - apply res_bind_Ok in H as (pcells & Hp & H).
    apply res_bind_Ok in H as (has_rain & Hrain & H).
    apply res_bind_Ok in H as (scells & Hs & H).
    apply res_bind_Ok in H as (has_snow & Hsnow & H).
    injection H as <-.
    apply has_precipitation_Ok in Hrain as (pc & p & Hpc & Hpf & ->).
    apply has_precipitation_Ok in Hsnow as (sc & s & Hsc' & Hsf & ->).
    exists base, ((if (0.1 <? p)%float then 1 else 0) * 3)%Z,
      ((if (0.1 <? s)%float then 1 else 0) * 3)%Z.
    split; [reflexivity|]. split; [exact Hagree|].
    assert (Hb0 : is_Some (base !! 0%nat)).
    { apply lookup_lt_is_Some. apply res_map_Ok_length in Hp.
      apply lookup_lt_Some in Hpc. lia. }
    destruct Hb0 as [b0 Hb0].
    destruct (Forall2_lookup_r _ _ _ _ _ Hagree Hb0) as (r0 & Hr0 & Hr0b).
    destruct (column_lookup _ _ _ _ _ Hp Hb0) as (v & Hv & Hv').
    destruct (column_lookup _ _ _ _ _ Hs Hb0) as (w & Hw & Hw').
    assert (v = pc) as -> by congruence. assert (w = sc) as -> by congruence.
    rewrite Hr0b in Hv by column_not_in. rewrite Hr0b in Hw by column_not_in.
    exists r0. split; [assumption|].
    split; [exists pc, p | exists sc, s];
      (repeat split; try assumption; destruct (_ <? _)%float; reflexivity).
Qed.

(** The four precipitation cells of a row of the result. *)
Lemma add_weather_features_hour_cells (np : Numpy) (df : DataFrame) hist
    (df' : DataFrame) (r' : row) :
  add_weather_features df hist = Ok df' -> r' ∈ df' ->
  exists rain snow,
    weather_hours df hist rain snow /\
    r' !! "HoursOfRain" = Some (VInt rain) /\
    r' !! "HoursOfSnow" = Some (VInt snow) /\
    r' !! "HoursOfRain_rolling" = Some (VInt rain) /\
    r' !! "HoursOfSnow_rolling" = Some (VInt snow).
Proof.
  intros H Hr'.
  apply add_weather_features_Ok in H as (base & rain & snow & -> & _ & Hh).
  apply elem_of_set_scalar in Hr' as (r3 & -> & Hr').
  apply elem_of_set_scalar in Hr' as (r2 & -> & Hr').
  apply elem_of_set_scalar in Hr' as (r1 & -> & Hr').
  apply elem_of_set_scalar in Hr' as (r0 & -> & Hr').
  exists rain, snow. split; [exact Hh|].
  repeat split.
  - now rewrite !lookup_insert_ne, lookup_insert_eq by discriminate.
  - now rewrite !lookup_insert_ne, lookup_insert_eq by discriminate.
  - now rewrite !lookup_insert_ne, lookup_insert_eq by discriminate.
  - now rewrite lookup_insert_eq.
Qed.

(** C7: with a historical weather window, HoursOfRain is the number of
    values at or above 0.1 among the last 24 precipitation values of the
    window, and HoursOfSnow likewise for snowfall; without one, HoursOfRain
    is 3 if the precipitation of the first row of the frame is strictly
    above 0.1 and 0 otherwise, and HoursOfSnow likewise for snowfall. *)
Theorem add_weather_features_precipitation_hours (np : Numpy) (df : DataFrame)
    (historical_weather_df : option DataFrame) (df' : DataFrame) (r' : row) :
  add_weather_features df historical_weather_df = Ok df' -> r' ∈ df' ->
  match historical_weather_df with
  | Some historical =>
      exists pcells scells precip snowfall,
        column "precipitation" historical = Ok pcells /\
        column "snowfall" historical = Ok scells /\
        res_map as_float (tail_n 24 pcells) = Ok precip /\
        res_map as_float (tail_n 24 scells) = Ok snowfall /\
        r' !! "HoursOfRain" = Some (VInt (count_at_least 0.1 precip)) /\
        r' !! "HoursOfSnow" = Some (VInt (count_at_least 0.1 snowfall))
  | None =>
      exists r0 pcell scell p s,
        df !! 0%nat = Some r0 /\
        r0 !! "precipitation" = Some pcell /\ as_float pcell = Ok p /\
        r0 !! "snowfall" = Some scell /\ as_float scell = Ok s /\
        r' !! "HoursOfRain" = Some (VInt (if (0.1 <? p)%float then 3 else 0)) /\
        r' !! "HoursOfSnow" = Some (VInt (if (0.1 <? s)%float then 3 else 0))
  end.
Proof.
  intros H Hr'.
  destruct (add_weather_features_hour_cells np df _ df' r' H Hr')
    as (rain & snow & Hh & Hrain & Hsnow & _ & _).
  destruct historical_weather_df as [h|]; cbn in Hh.
  - destruct Hh as [(pcells & precip & ? & ? & ->) (scells & snowfall & ? & ? & ->)].
    exists pcells, scells, precip, snowfall. auto 10.
  - destruct Hh as (r0 & ? & (pc & p & ? & ? & ->) & (sc & s & ? & ? & ->)).
    exists r0, pc, sc, p, s. auto 10.
Qed.

Lemma add_weather_features_precipitation_hours_witness :
  exists df' r',
    add_weather_features (np := Reference.numpy) [Sample.weather_row 0]
      (Some Sample.historical_weather_df) = Ok df' /\
    r' ∈ df' /\
    r' !! "HoursOfRain" = Some (VInt 24) /\ r' !! "HoursOfSnow" = Some (VInt 0) /\
    exists precip snowfall,
      r' !! "HoursOfRain" = Some (VInt (count_at_least 0.1 precip)) /\
      r' !! "HoursOfSnow" = Some (VInt (count_at_least 0.1 snowfall)).
Proof.
  pose (out := add_weather_features (np := Reference.numpy) [Sample.weather_row 0]
                 (Some Sample.historical_weather_df)).
  assert (E : out = Ok [Sample.first_row out]) by by_evaluation.
  subst out.
  eexists _, _.
  split; [exact E|]. split; [apply list_elem_of_here|].
  split; [by_evaluation|]. split; [by_evaluation|].
  destruct (add_weather_features_precipitation_hours Reference.numpy _ _ _ _ E
              (list_elem_of_here _ _))
    as (pcells & scells & precip & snowfall & _ & _ & _ & _ & Hr & Hs).
  exists precip, snowfall. split; assumption.
Defined.

(** C8: in every row that the weather feature derivation produces, with or
    without a historical window, HoursOfRain_rolling is HoursOfRain and
    HoursOfSnow_rolling is HoursOfSnow. *)
Theorem add_weather_features_rolling_equal (np : Numpy) (df : DataFrame)
    (historical_weather_df : option DataFrame) (df' : DataFrame) (r' : row) :
  add_weather_features df historical_weather_df = Ok df' -> r' ∈ df' ->
  is_Some (r' !! "HoursOfRain") /\
  is_Some (r' !! "HoursOfSnow") /\
  r' !! "HoursOfRain_rolling" = r' !! "HoursOfRain" /\
  r' !! "HoursOfSnow_rolling" = r' !! "HoursOfSnow".
Proof.
  intros H Hr'.
  destruct (add_weather_features_hour_cells np df _ df' r' H Hr')
    as (rain & snow & _ & -> & -> & -> & ->).
  repeat split; eauto.
Qed.

Lemma add_weather_features_rolling_equal_witness :
  exists df' r',
    add_weather_features (np := Reference.numpy) [Sample.weather_row 0] None = Ok df' /\
    r' ∈ df' /\
    r' !! "HoursOfRain" = Some (VInt 3) /\
    r' !! "HoursOfRain_rolling" = r' !! "HoursOfRain" /\
    r' !! "HoursOfSnow_rolling" = r' !! "HoursOfSnow".
Proof.
  pose (out := add_weather_features (np := Reference.numpy) [Sample.weather_row 0] None).
  assert (E : out = Ok [Sample.first_row out]) by by_evaluation.
  subst out.
  eexists _, _.
  split; [exact E|]. split; [apply list_elem_of_here|].
  split; [by_evaluation|].
  destruct (add_weather_features_rolling_equal Reference.numpy _ _ _ _ E
              (list_elem_of_here _ _)) as (_ & _ & Hrain & Hsnow).
  split; assumption.
Defined.

(** ** Single-row frames *)

Lemma has_numeric_Some (r : row) (c : string) :
  has_numeric r c = true -> exists v f, r !! c = Some v /\ as_float v = Ok f.
Proof.
  unfold has_numeric. destruct (r !! c) as [v|]; [|discriminate].
  destruct v; try discriminate; cbn; eauto.
Qed.

Lemma has_time_Some (r : row) :
  has_time r = true -> exists t, r !! "time" = Some (VTime t).
Proof.
  unfold has_time. destruct (r !! "time") as [[]|]; try discriminate. eauto.
Qed.

Lemma valid_weather_row_time (r : row) :
  valid_weather_row r = true -> exists t, r !! "time" = Some (VTime t).
Proof.
  unfold valid_weather_row. intros H. apply andb_prop in H as [H _].
  now apply has_time_Some.
Qed.

Lemma valid_weather_row_numeric (r : row) (c : string) :
  valid_weather_row r = true -> c ∈ WEATHER_RENAME_values ->
  exists v f, r !! c = Some v /\ as_float v = Ok f.
Proof.
  unfold valid_weather_row. intros H Hc. apply andb_prop in H as [_ H].
  rewrite forallb_forall in H. apply has_numeric_Some, H.
  now apply list_elem_of_In.
Qed.

Lemma set_column_singleton k v (r : row) : set_column k [v] [r] = Ok [<[k := v]> r].
Proof. reflexivity. Qed.

Lemma column_singleton k (r : row) v : r !! k = Some v -> column k [r] = Ok [v].
Proof. intros H. unfold column, res_map, getitem. now rewrite H. Qed.

Lemma weather_copy_step col cols (wr r r1 : row) v :
  wr !! col = Some v ->
  weather_copy cols wr (<[col := v]> r) r1 -> weather_copy (col :: cols) wr r r1.
Proof.
  intros Hv [Hin Hout]. split.
  - intros c Hc. destruct (decide (c ∈ cols)) as [Hc'|Hc']; [now apply Hin|].
    apply elem_of_cons in Hc as [->|Hc]; [|contradiction].
    rewrite Hout by assumption. now rewrite lookup_insert_eq.
  - intros c Hc. apply not_elem_of_cons in Hc as [Hne Hc].
    rewrite Hout by assumption. now apply lookup_insert_ne.
Qed.

Lemma copy_weather_columns_single (cols : list string) (wr r : row) :
  (forall c, c ∈ cols -> is_Some (wr !! c)) ->
  exists r1, copy_weather_columns cols [wr] [r] = Ok [r1] /\ weather_copy cols wr r r1.
Proof.
  revert r. induction cols as [|col cols IH]; intros r Hcols; cbn [copy_weather_columns].
  - exists r. split; [reflexivity|]. split; [intros c Hc; inversion Hc|].
    apply agree_outside_refl.
  - destruct (Hcols col) as [v Hv]; [left|].
    rewrite decide_True by (cbn; apply elem_of_dom; eauto).
    rewrite (column_singleton _ _ _ Hv). cbn. rewrite set_column_singleton. cbn.
    destruct (IH (<[col := v]> r)) as (r1 & -> & Hcopy).
    { intros c Hc. apply Hcols. now right. }
    exists r1. split; [reflexivity|]. now apply weather_copy_step with v.
Qed.

Lemma copy_weather_cells_single (cols : list string) (wx_df : DataFrame) (idx : nat)
    (wr r : row) :
  wx_df !! idx = Some wr ->
  (forall c, c ∈ cols -> c ∈ columns wx_df) ->
  (forall c, c ∈ cols -> is_Some (wr !! c)) ->
  exists r1, copy_weather_cells cols wx_df idx [r] = Ok [r1] /\ weather_copy cols wr r r1.
Proof.
  intros Hidx Hcolumns. revert r.
  induction cols as [|col cols IH]; intros r Hcols; cbn [copy_weather_cells].
  - exists r. split; [reflexivity|]. split; [intros c Hc; inversion Hc|].
    apply agree_outside_refl.
  - destruct (Hcols col) as [v Hv]; [left|].
    rewrite decide_True by (apply Hcolumns; left).
    unfold iloc, getitem. rewrite Hidx. cbn. rewrite Hv. cbn.
    destruct (IH (fun c Hc => Hcolumns c (list_elem_of_further _ _ _ Hc)) (<[col := v]> r))
      as (r1 & -> & Hcopy).
    { intros c Hc. apply Hcols. now right. }
    exists r1. split; [reflexivity|]. now apply weather_copy_step with v.
Qed.

Lemma time_features_agree (t : Timestamp) (r : row) :
  agree_outside time_columns r (time_features t r).
Proof.
  intros c Hc. unfold time_features.
  rewrite !lookup_insert_ne; [reflexivity|..];
    intros <-; apply Hc; unfold time_columns; set_solver.
Qed.

Lemma add_time_features_single (r : row) (t : Timestamp) :
  r !! "time" = Some (VTime t) -> add_time_features [r] = Ok [time_features t r].
Proof.
  intros H. unfold add_time_features. rewrite (column_singleton _ _ _ H). reflexivity.
Qed.

Lemma res_bind_ret {A B} (a : A) (k : A -> res B) : Ok a ≫= k = k a.
Proof. reflexivity. Qed.

Lemma row_wind_components_Ok (np : Numpy) (r : row) ws wd s d :
  r !! "WindSpeed" = Some ws -> as_float ws = Ok s ->
  r !! "WindDir" = Some wd -> as_float wd = Ok d ->
  row_wind_components r = Ok (wind_components s d).
Proof.
  intros Hws Hs Hwd Hd. unfold row_wind_components, getitem.
  rewrite Hws, Hwd. cbn. rewrite Hd. cbn. rewrite Hs. reflexivity.
Qed.

Lemma res_map_as_float_numeric (cells : list value) :
  forallb is_numeric cells = true -> exists data, res_map as_float cells = Ok data.
Proof.
  induction cells as [|v cells IH]; cbn; [eauto|].
  intros H. apply andb_prop in H as [Hv H].
  destruct (IH H) as (data & ->).
  destruct v; try discriminate; cbn; eauto.
Qed.

Lemma column_numeric (c : string) (df : DataFrame) :
  forallb (fun r => has_numeric r c) df = true ->
  exists cells, column c df = Ok cells /\ forallb is_numeric cells = true.
Proof.
  unfold column. induction df as [|r df IH]; cbn; [eauto|].
  intros H. apply andb_prop in H as [Hr H].
  destruct (IH H) as (cells & -> & Hcells).
  unfold has_numeric, getitem in *. destruct (r !! c) as [v|]; [|discriminate].
  cbn. exists (v :: cells). split; [reflexivity|]. cbn. now rewrite Hr.
Qed.

Lemma forallb_drop {A} (f : A -> bool) (n : nat) (l : list A) :
  forallb f l = true -> forallb f (drop n l) = true.
Proof.
  revert n. induction l as [|x l IH]; intros [|n] H; cbn in *; try assumption.
  apply andb_prop in H as [_ H]. now apply IH.
Qed.

Lemma hours_of_precipitation_numeric (c : string) (historical : DataFrame) :
  forallb (fun r => has_numeric r c) historical = true ->
  exists cells n,
    column c historical = Ok cells /\ hours_of_precipitation (tail_n 24 cells) = Ok n.
Proof.
  intros H. destruct (column_numeric c historical H) as (cells & Hc & Hnum).
  destruct (res_map_as_float_numeric (tail_n 24 cells)) as (data & Hdata).
  { now apply forallb_drop. }
  exists cells, (calculate_hours_of_precipitation data 0.1). split; [assumption|].
  unfold hours_of_precipitation. now rewrite Hdata.
Qed.

Lemma valid_historical_columns (historical : DataFrame) :
  forallb valid_historical_row historical = true ->
  forallb (fun r => has_numeric r "precipitation") historical = true /\
  forallb (fun r => has_numeric r "snowfall") historical = true.
Proof.
  induction historical as [|r h IH]; cbn; [auto|].
  intros H. apply andb_prop in H as [Hr H]. apply andb_prop in Hr as [-> ->].
  destruct (IH H) as [-> ->]. auto.
Qed.

Lemma has_precipitation_singleton (c : value) (p : float) :
  as_float c = Ok p ->
  has_precipitation [c] = Ok (if (0.1 <? p)%float then 1 else 0)%Z.
Proof. intros H. unfold has_precipitation. cbn. now rewrite H. Qed.

(** On a row with numeric wind and precipitation cells the weather feature
    derivation does not raise. *)
Lemma add_weather_features_single (np : Numpy) (r : row)
    (historical_weather_df : option DataFrame) :
  has_numeric r "WindSpeed" = true -> has_numeric r "WindDir" = true ->
  has_numeric r "precipitation" = true -> has_numeric r "snowfall" = true ->
  match historical_weather_df with
  | Some historical => forallb valid_historical_row historical = true
  | None => True
  end ->
  exists df', add_weather_features [r] historical_weather_df = Ok df'.
Proof.
  intros Hws Hwd Hp Hs Hhist.
  apply has_numeric_Some in Hws as (ws & s & Hws & Hsf).
  apply has_numeric_Some in Hwd as (wd & d & Hwd & Hdf).
  apply has_numeric_Some in Hp as (pc & p & Hpc & Hpf).
  apply has_numeric_Some in Hs as (sc & sn & Hsc & Hsnf).
  unfold add_weather_features.
  cbn [res_map]. rewrite (row_wind_components_Ok np r ws wd s d) by assumption.
  rewrite !res_bind_ret. cbn [fmap list_fmap].
  rewrite set_column_singleton, res_bind_ret.
  rewrite set_column_singleton, res_bind_ret.
  rewrite (column_singleton "WindSpeed" _ ws)
    by (now rewrite !lookup_insert_ne by discriminate).
  rewrite res_bind_ret. cbn [res_map]. rewrite Hsf, !res_bind_ret.
  cbn [fmap list_fmap winsorize]. rewrite set_column_singleton, res_bind_ret.
  destruct historical_weather_df as [h|].
  - apply valid_historical_columns in Hhist as [Hhp Hhs].
    destruct (hours_of_precipitation_numeric _ _ Hhp) as (pcells & rain & -> & Hrain).
    destruct (hours_of_precipitation_numeric _ _ Hhs) as (scells & snow & -> & Hsnow).
    rewrite !res_bind_ret. cbv beta. rewrite Hrain, Hsnow, !res_bind_ret. eauto.
  - rewrite (column_singleton "precipitation" _ pc)
      by (now rewrite !lookup_insert_ne by discriminate).
    rewrite res_bind_ret. cbv beta.
    rewrite (has_precipitation_singleton _ _ Hpf), res_bind_ret. cbv beta.
    rewrite (column_singleton "snowfall" _ sc)
      by (now rewrite !lookup_insert_ne by discriminate).
    rewrite res_bind_ret. cbv beta.
    rewrite (has_precipitation_singleton _ _ Hsnf), res_bind_ret.
    eauto.
Qed.

(** ** Features from the PM2.5 history *)

Lemma agree_outside_weaken (K K' : list string) (r r' : row) :
  K ⊆ K' -> agree_outside K r r' -> agree_outside K' r r'.
Proof. intros HK H c Hc. apply H. intros Hin. apply Hc, HK, Hin. Qed.

Lemma add_extreme_event_features_total (df : DataFrame) (history : list float) :
  exists v1 v2,
    add_extreme_event_features df history =
      Ok (set_scalar "Extreme_Event_VMD_shift1" (VStr v2)
            (set_scalar "Extreme_PM2.5" (VStr v1) df)).
Proof.
  unfold add_extreme_event_features.
  case_decide as H0; [|eauto].
  destruct (list_getitem_from_end_Some history 1) as (x & _ & Hx); [lia|].
  change (- Z.of_nat 1)%Z with (-1)%Z in Hx. rewrite Hx, res_bind_ret.
  case_decide as H1; [|eauto].
  destruct (list_getitem_from_end_Some history 2) as (y & _ & Hy); [lia|].
  change (- Z.of_nat 2)%Z with (-2)%Z in Hy. rewrite Hy, res_bind_ret. eauto.
Qed.

Lemma create_rolling_features_shape (np : Numpy) (df : DataFrame) (history : list float) :
  exists v1 v2,
    create_rolling_features df history =
      set_scalar "pm2.5_roll24_std" v2 (set_scalar "pm2.5_roll24_mean" v1 df).
Proof. unfold create_rolling_features. case_decide; eauto. Qed.

(** The three history-driven derivations never raise, and they touch the
    history columns only. *)
Lemma history_features_total (np : Numpy) (df : DataFrame) (history : list float) :
  exists df1 df2,
    create_lag_features df history = Ok df1 /\
    add_extreme_event_features (create_rolling_features df1 history) history = Ok df2 /\
    Forall2 (agree_outside history_columns) df df2.
Proof.
  destruct lag_periods_ok as [Hpos Hnd].
  destruct (add_lags_spec lag_periods history df Hpos Hnd) as (df1 & Hdf1 & Hall).
  destruct (create_rolling_features_shape np df1 history) as (m & sd & Hroll).
  destruct (add_extreme_event_features_total
              (set_scalar "pm2.5_roll24_std" sd (set_scalar "pm2.5_roll24_mean" m df1))
              history) as (e1 & e2 & Hext).
  exists df1. eexists. split; [exact Hdf1|]. rewrite Hroll. split; [exact Hext|].
  assert (Hlag : Forall2 (agree_outside (lag_column <$> lag_periods)) df df1).
  { eapply Forall2_impl; [exact Hall|]. intros r r' [_ Hout] c Hc. apply Hout.
    intros k Hk ->. apply Hc. apply list_elem_of_fmap. eauto. }
  pose proof (Forall2_agree_trans _ _ _ _ _
    (Forall2_agree_trans _ _ _ _ _
      (Forall2_agree_trans _ _ _ _ _
        (Forall2_agree_trans _ _ _ _ _ Hlag
          (set_scalar_agree "pm2.5_roll24_mean" m df1))
        (set_scalar_agree "pm2.5_roll24_std" sd _))
      (set_scalar_agree "Extreme_PM2.5" (VStr e1) _))
    (set_scalar_agree "Extreme_Event_VMD_shift1" (VStr e2) _)) as H.
  exact H.
Qed.

(** ** The feature row of one step *)

Lemma feature_row_insert (wr : row) hist (r : row) k v :
  k ∉ ["time"; "HoursOfRain"; "HoursOfSnow"; "HoursOfRain_rolling"; "HoursOfSnow_rolling"] ->
  feature_row wr hist r -> feature_row wr hist (<[k := v]> r).
Proof.
  intros Hk (Ht & rain & snow & Hh & H1 & H2 & H3 & H4).
  split; [|exists rain, snow; split; [exact Hh|]];
    rewrite ?lookup_insert_ne; auto; intros ->; apply Hk; set_solver.
Qed.

Lemma single_row_hours_agree (r r' : row) c n :
  r' !! c = r !! c -> single_row_hours r c n -> single_row_hours r' c n.
Proof. intros Heq (cell & p & H1 & H2 & H3). exists cell, p. rewrite Heq. auto. Qed.

Lemma weather_hours_agree (r r' : row) hist rain snow :
  r' !! "precipitation" = r !! "precipitation" ->
  r' !! "snowfall" = r !! "snowfall" ->
  weather_hours [r] hist rain snow -> weather_hours [r'] hist rain snow.
Proof.
  intros Hp Hs. destruct hist as [h|]; cbn; [trivial|].
  intros (r0 & [= <-] & Hrain & Hsnow). exists r'. split; [reflexivity|].
  split; eapply single_row_hours_agree; eassumption.
Qed.

Lemma Forall2_singleton_l {A B} (P : A -> B -> Prop) (x : A) (l : list B) :
  Forall2 P [x] l -> exists y, l = [y] /\ P x y.
Proof.
  intros H. inversion H as [|? y ? l' Hxy Hl']; subst.
  inversion Hl'; subst. eauto.
Qed.

Lemma weather_chain (np : Numpy) (wr r1 : row) (t : Timestamp)
    (hist : option DataFrame) (history : list float) :
  valid_weather_row wr = true ->
  match hist with
  | Some historical => forallb valid_historical_row historical = true
  | None => True
  end ->
  wr !! "time" = Some (VTime t) ->
  weather_copy WEATHER_RENAME_values wr {["time" := VTime t]} r1 ->
  exists df2 df3 r,
    add_weather_features [time_features t r1] hist = Ok df2 /\
    create_lag_features df2 history = Ok df3 /\
    add_extreme_event_features (create_rolling_features df3 history) history = Ok [r] /\
    feature_row wr hist r.
Proof.
  intros Hvalid Hhist Htime [Hin Hout].
  set (r2 := time_features t r1).
  assert (Hr2 : forall c, c ∈ WEATHER_RENAME_values -> r2 !! c = wr !! c).
  { intros c Hc. unfold r2. rewrite time_features_agree; [now apply Hin|].
    unfold WEATHER_RENAME_values in Hc. unfold time_columns. intros Hc'.
    repeat (apply elem_of_cons in Hc as [->|Hc];
            [repeat (apply elem_of_cons in Hc' as [Hc'|Hc']; [discriminate Hc'|]);
             inversion Hc'|]).
    inversion Hc. }
  assert (Hnum : forall c, c ∈ WEATHER_RENAME_values -> has_numeric r2 c = true).
  { intros c Hc. unfold has_numeric. rewrite (Hr2 c Hc).
    destruct (valid_weather_row_numeric wr c Hvalid Hc) as (v & f & -> & Hf).
    destruct v; (discriminate || reflexivity). }
  destruct (add_weather_features_single np r2 hist) as (df2 & Hdf2);
    try (apply Hnum; unfold WEATHER_RENAME_values; set_solver); [exact Hhist|].
  destruct (history_features_total np df2 history) as (df3 & df4 & Hlag & Hext & Hagree).
  pose proof (add_weather_features_Ok np _ _ _ Hdf2) as (base & rain0 & snow0 & E & Hbase & _).
  apply Forall2_singleton_l in Hbase as (b & -> & Hb).
  subst df2. cbn [set_scalar fmap list_fmap] in *.
  apply Forall2_singleton_l in Hagree as (r & -> & Hr).
  eexists _, df3, r. split; [exact Hdf2|]. split; [exact Hlag|]. split; [exact Hext|].
  destruct (add_weather_features_hour_cells np _ _ _ _ Hdf2 (list_elem_of_here _ _))
    as (rain & snow & Hh & H1 & H2 & H3 & H4).
  split.
  - rewrite Hr by (unfold history_columns; column_not_in).
    rewrite !lookup_insert_ne by discriminate.
    rewrite Hb by column_not_in.
    unfold r2. rewrite time_features_agree by (unfold time_columns; column_not_in).
    rewrite Hout by (unfold WEATHER_RENAME_values; column_not_in).
    rewrite lookup_singleton_eq. now rewrite Htime.
  - exists rain, snow. split.
    + eapply weather_hours_agree; [| |exact Hh]; symmetry; apply Hr2;
        unfold WEATHER_RENAME_values; set_solver.
    + rewrite !Hr by (unfold history_columns; column_not_in). auto.
Qed.

Lemma valid_air_quality_keys (aq_df : DataFrame) :
  forallb valid_air_quality_row aq_df = true ->
  exists keys,
    res_map (fun r => v ← getitem r "time"; t ← as_time v; Ok (ts_value t)) aq_df
      = Ok keys.
Proof.
  induction aq_df as [|r df IH]; cbn [forallb res_map]; [eauto|].
  intros H. apply andb_prop in H as [Hr H].
  destruct (IH H) as (keys & ->).
  apply andb_prop in Hr as [Ht _]. apply has_time_Some in Ht as (t & Ht).
  unfold getitem. rewrite Ht. cbn. eauto.
Qed.

Lemma forallb_Permutation {A} (f : A -> bool) (l l' : list A) :
  l ≡ₚ l' -> forallb f l = true -> forallb f l' = true.
Proof.
  intros Hp H. apply Is_true_true, forallb_True.
  apply Is_true_true, forallb_True in H. now rewrite <- Hp.
Qed.

(** Sorting a well-formed air-quality frame does not raise and keeps the
    frame well formed. *)
Lemma sort_values_time_valid (aq_df : DataFrame) :
  forallb valid_air_quality_row aq_df = true ->
  exists sorted,
    sort_values_time aq_df = Ok sorted /\
    forallb valid_air_quality_row sorted = true.
Proof.
  intros H. destruct (valid_air_quality_keys aq_df H) as (keys & Hkeys).
  unfold sort_values_time. rewrite Hkeys, res_bind_ret.
  eexists. split; [reflexivity|].
  eapply forallb_Permutation; [|exact H].
  rewrite merge_sort_Permutation. rewrite snd_zip; [reflexivity|].
  apply res_map_Ok_length in Hkeys. lia.
Qed.

Lemma valid_air_quality_pm25 (aq_df : DataFrame) :
  forallb valid_air_quality_row aq_df = true ->
  forallb (fun r => has_numeric r "pm2.5") aq_df = true.
Proof.
  induction aq_df as [|r df IH]; cbn; [auto|].
  intros H. apply andb_prop in H as [Hr H]. apply andb_prop in Hr as [_ ->].
  now rewrite IH.
Qed.

Lemma pm25_tail_valid (aq_df : DataFrame) :
  forallb valid_air_quality_row aq_df = true ->
  exists history, pm25_tail aq_df = Ok history.
Proof.
  intros H. apply valid_air_quality_pm25 in H.
  destruct (column_numeric "pm2.5" aq_df H) as (cells & Hc & Hnum).
  unfold pm25_tail. rewrite Hc, res_bind_ret.
  apply res_map_as_float_numeric. now apply forallb_drop.
Qed.

Lemma weather_columns_present (wr : row) (c : string) :
  valid_weather_row wr = true -> c ∈ WEATHER_RENAME_values -> is_Some (wr !! c).
Proof.
  intros Hv Hc. destruct (valid_weather_row_numeric wr c Hv Hc) as (v & _ & -> & _).
  eauto.
Qed.

Lemma forallb_lookup {A} (f : A -> bool) (l : list A) i x :
  forallb f l = true -> l !! i = Some x -> f x = true.
Proof.
  intros H Hi. rewrite forallb_forall in H. apply H.
  apply list_elem_of_In. eapply list_elem_of_lookup_2, Hi.
Qed.

(** The features of a later step exist for every history. *)
Lemma next_features_Ok (np : Numpy) (wx_df : DataFrame) (idx : nat) (wr : row)
    (history : list float) :
  forallb valid_weather_row wx_df = true -> wx_df !! idx = Some wr ->
  exists r, next_features wx_df idx history = Ok [r] /\ feature_row wr None r.
Proof.
  intros Hall Hidx.
  pose proof (forallb_lookup _ _ _ _ Hall Hidx) as Hvalid.
  destruct (valid_weather_row_time wr Hvalid) as (t & Ht).
  destruct (copy_weather_cells_single WEATHER_RENAME_values wx_df idx wr
              {["time" := VTime t]} Hidx) as (r1 & Hr1 & Hcopy).
  { intros c Hc. destruct wx_df as [|w0 wx]; [discriminate|]. cbn.
    apply elem_of_dom, weather_columns_present; [|exact Hc].
    apply (forallb_lookup _ _ 0%nat _ Hall eq_refl). }
  { intros c Hc. now apply weather_columns_present. }
  destruct (weather_chain np wr r1 t None history Hvalid I Ht Hcopy)
    as (df2 & df3 & r & Hdf2 & Hdf3 & Hr & Hfeat).
  exists r. split; [|exact Hfeat].
  unfold next_features, iloc, getitem. rewrite Hidx, res_bind_ret. cbv beta.
  rewrite Ht, res_bind_ret. cbv beta. rewrite Hr1, res_bind_ret. cbv beta.
  rewrite (add_time_features_single r1 t).
  2:{ destruct Hcopy as [_ Hout].
      rewrite Hout by (unfold WEATHER_RENAME_values; column_not_in).
      apply lookup_singleton_eq. }
  rewrite res_bind_ret. cbv beta. rewrite Hdf2, res_bind_ret. cbv beta.
  rewrite Hdf3, res_bind_ret. exact Hr.
Qed.

(** The features of the first step exist. *)
Lemma prepare_features_Ok (np : Numpy) (wr : row) (aq_df : DataFrame)
    (hist : option DataFrame) :
  valid_weather_row wr = true ->
  forallb valid_air_quality_row aq_df = true ->
  match hist with
  | Some historical => forallb valid_historical_row historical = true
  | None => True
  end ->
  exists r, prepare_features [wr] aq_df hist = Ok [r] /\ feature_row wr hist r.
Proof.
  intros Hvalid Haq Hhist.
  destruct (sort_values_time_valid aq_df Haq) as (sorted & Hsorted & Hsv).
  destruct (pm25_tail_valid sorted Hsv) as (history & Hhistory).
  destruct (valid_weather_row_time wr Hvalid) as (t & Ht).
  destruct (copy_weather_columns_single WEATHER_RENAME_values wr {["time" := VTime t]})
    as (r1 & Hr1 & Hcopy).
  { intros c Hc. now apply weather_columns_present. }
  destruct (weather_chain np wr r1 t hist history Hvalid Hhist Ht Hcopy)
    as (df2 & df3 & r & Hdf2 & Hdf3 & Hr & Hfeat).
  exists (<["datetime" := VTime t]> r). split.
  - unfold prepare_features. rewrite Hsorted, res_bind_ret. cbv beta.
    rewrite Hhistory, res_bind_ret. cbv beta.
    rewrite (column_singleton "time" wr _ Ht), res_bind_ret. cbv beta.
    cbn [fmap list_fmap]. rewrite Hr1, res_bind_ret. cbv beta.
    rewrite (add_time_features_single r1 t).
    2:{ destruct Hcopy as [_ Hout].
        rewrite Hout by (unfold WEATHER_RENAME_values; column_not_in).
        apply lookup_singleton_eq. }
    rewrite res_bind_ret. cbv beta. rewrite Hdf2, res_bind_ret. cbv beta.
    rewrite Hdf3, res_bind_ret. cbv beta. rewrite Hr, res_bind_ret. cbv beta.
    destruct Hfeat as [Htime _]. rewrite Ht in Htime.
    rewrite (column_singleton "time" r _ Htime), res_bind_ret.
    apply set_column_singleton.
  - apply feature_row_insert; [column_not_in | exact Hfeat].
Qed.

(** ** The steps of the loop *)

(** On well-formed inputs the features of step [idx] exist, whatever the
    history. *)
Lemma step_features_Ok (np : Numpy) (wx_df aq_df : DataFrame) (hist : option DataFrame)
    (idx : nat) (wr : row) (history : list float) :
  forallb valid_weather_row wx_df = true ->
  forallb valid_air_quality_row aq_df = true ->
  match hist with
  | Some historical => forallb valid_historical_row historical = true
  | None => True
  end ->
  wx_df !! idx = Some wr ->
  exists r, step_features np wx_df aq_df hist idx history = Ok [r] /\
            feature_row wr (step_history hist idx) r.
Proof.
  intros Hwx Haq Hhist Hidx. unfold step_features, step_history.
  case_decide as H0.
  - unfold iloc_frame. rewrite Hidx, res_bind_ret.
    apply prepare_features_Ok; try assumption.
    exact (forallb_lookup _ _ _ _ Hwx Hidx).
  - now apply next_features_Ok.
Qed.

Lemma App_bind_lift_Ok {A B} (a : A) (k : A -> App B) (ui : list st_event) :
  (lift (Ok a) ≫= k) ui = k a ui.
Proof. reflexivity. Qed.

Lemma App_bind_ret {A B} (a : A) (k : A -> App B) (ui : list st_event) :
  (mret a ≫= k) ui = k a ui.
Proof. reflexivity. Qed.

Lemma App_bind_show {B} (ev : st_event) (k : unit -> App B) (ui : list st_event) :
  (show ev ≫= k) ui = k tt (ui ++ [ev]).
Proof. reflexivity. Qed.

Lemma App_bind_stop {A B} (k : A -> App B) (ui : list st_event) :
  (st_stop ≫= k) ui = (ui, Stopped).
Proof. reflexivity. Qed.

(** Runs the script through its leading returns and messages. *)
Ltac app_step :=
  repeat first
    [ rewrite App_bind_lift_Ok | rewrite App_bind_ret | rewrite App_bind_show
    | rewrite App_bind_stop ];
  cbv beta.

(** A step whose features exist and whose prediction is a value appends
    the value and the row. *)
Lemma forecast_step_value (np : Numpy) (model : Model) (wx_df aq_df : DataFrame)
    (hist : option DataFrame) (idx : nat) (history : list float) (rows : list row)
    (r : row) (y : float) (ui : list st_event) :
  step_features np wx_df aq_df hist idx history = Ok [r] ->
  model idx [r] = PredValue y ->
  exists ui',
    forecast_step model wx_df aq_df hist idx (history, rows) ui =
      (ui ++ ui', Returned (history ++ [y], rows ++ [<["PM2.5_pred" := VFloat y]> r])).
Proof.
  unfold step_features, forecast_step. intros Hfeat Hmodel.
  case_decide as H0.
  - exists [st_write "Debug info - Features available:"; st_write_columns (columns [r])].
    apply res_bind_Ok in Hfeat as (wx_first & Hfirst & Hfeat).
    rewrite Hfirst. app_step. rewrite Hfeat. app_step.
    unfold predict_first. rewrite Hmodel. app_step.
    unfold mret, App_ret. now rewrite <- app_assoc.
  - exists []. rewrite Hfeat. app_step.
    unfold predict_next. rewrite Hmodel. app_step.
    unfold mret, App_ret. now rewrite app_nil_r.
Qed.


(** ** The loop *)

Lemma App_bind_Returned {A B} (m : App A) (k : A -> App B) ui ui' a :
  m ui = (ui', Returned a) -> (m ≫= k) ui = k a ui'.
Proof. intros H. unfold mbind, App_bind. now rewrite H. Qed.


Section Loop.
Context (np : Numpy) (model : Model) (wx_df aq_df : DataFrame).
Context (hist : option DataFrame).
Hypothesis Hwx : forallb valid_weather_row wx_df = true.
Hypothesis Haq : forallb valid_air_quality_row aq_df = true.
Hypothesis Hhist :
  match hist with
  | Some historical => forallb valid_historical_row historical = true
  | None => True
  end.

(** While the model answers, the loop appends one row per step. *)
Lemma for_each_values (n : nat) :
  forall (a : nat) (history : list float) (rows : list row) (ui : list st_event),
    (a + n <= length wx_df)%nat ->
    (forall idx df, (a <= idx < a + n)%nat -> exists y, model idx df = PredValue y) ->
    exists ui' history' new,
      for_each (forecast_step model wx_df aq_df hist) (seq a n) (history, rows) ui =
        (ui ++ ui', Returned (history', rows ++ new)) /\
      Forall2 (forecast_row wx_df hist) (seq a n) new.
Proof.
  induction n as [|n IH]; intros a history rows ui Hlen Hmodel; cbn [seq for_each].
  - exists [], history, []. rewrite !app_nil_r. split; [reflexivity|constructor].
  - destruct (lookup_lt_is_Some_2 wx_df a) as [wr Hwr]; [lia|].
    destruct (step_features_Ok np wx_df aq_df hist a wr history Hwx Haq Hhist Hwr)
      as (r & Hr & Hfeat).
    destruct (Hmodel a [r]) as (y & Hy); [lia|].
    destruct (forecast_step_value np model wx_df aq_df hist a history rows r y ui Hr Hy)
      as (ui1 & Hstep).
    rewrite (App_bind_Returned _ _ _ _ _ Hstep).
    destruct (IH (S a) (history ++ [y]) (rows ++ [<["PM2.5_pred" := VFloat y]> r])
                (ui ++ ui1)) as (ui2 & history' & new & Hrest & Hnew).
    { lia. }
    { intros idx df Hidx. apply Hmodel. lia. }
    exists (ui1 ++ ui2), history', (<["PM2.5_pred" := VFloat y]> r :: new).
    rewrite Hrest, <- !app_assoc. split; [reflexivity|].
    constructor; [|exact Hnew].
    exists wr. split; [exact Hwr|]. split.
    + apply feature_row_insert; [column_not_in | exact Hfeat].
    + exists y. apply lookup_insert_eq.
Qed.


End Loop.

(** ** The run *)

Lemma valid_inputs_parts (wx_df aq_df : DataFrame) (hist : option DataFrame) :
  valid_inputs wx_df aq_df hist = true ->
  (FORECAST_HOURS <= length wx_df)%nat /\
  forallb valid_weather_row wx_df = true /\
  forallb valid_air_quality_row aq_df = true /\
  match hist with
  | Some historical => forallb valid_historical_row historical = true
  | None => True
  end.
Proof.
  unfold valid_inputs. intros H.
  apply andb_prop in H as [H H4]. apply andb_prop in H as [H H3].
  apply andb_prop in H as [H1 H2]. apply Nat.leb_le in H1.
  repeat split; try assumption. destruct hist; [assumption | exact I].
Qed.

Lemma length_pd_DataFrame (rows : list row) : length (pd_DataFrame rows) = length rows.
Proof. unfold pd_DataFrame. apply length_fmap. Qed.

(** A row of the final frame keeps every cell the step wrote. *)
Lemma pd_DataFrame_lookup (rows : list row) (i : nat) (r : row) :
  pd_DataFrame rows !! i = Some r ->
  exists r0, rows !! i = Some r0 /\ forall k v, r0 !! k = Some v -> r !! k = Some v.
Proof.
  unfold pd_DataFrame. rewrite list_lookup_fmap. intros H.
  destruct (rows !! i) as [r0|]; [|discriminate]. injection H as <-.
  exists r0. split; [reflexivity|]. intros k v Hk. now apply lookup_union_Some_l.
Qed.

(** With well-formed inputs and a model that answers at every step the run
    returns the frame of its 72 rows. *)
Lemma build_future_dataframe_returns (np : Numpy) (model : Model)
    (wx_df aq_df : DataFrame) (hist : option DataFrame) (ui : list st_event) :
  valid_inputs wx_df aq_df hist = true ->
  (forall idx df, (idx < FORECAST_HOURS)%nat -> exists y, model idx df = PredValue y) ->
  exists ui' rows,
    build_future_dataframe (Some model) wx_df aq_df hist ui =
      (ui ++ ui', Returned (pd_DataFrame rows)) /\
    Forall2 (forecast_row wx_df hist) (seq 0 FORECAST_HOURS) rows.
Proof.
  intros Hvalid Hmodel.
  apply valid_inputs_parts in Hvalid as (Hlen & Hwx & Haq & Hhist).
  destruct (sort_values_time_valid aq_df Haq) as (sorted & Hsorted & Hsv).
  destruct (pm25_tail_valid sorted Hsv) as (history & Hhistory).
  destruct (for_each_values np model wx_df sorted hist Hwx Hsv Hhist FORECAST_HOURS
              0%nat history [] ui) as (ui' & history' & rows & Hloop & Hrows).
  { exact Hlen. }
  { intros idx df Hidx. apply Hmodel. lia. }
  exists ui', rows. split; [|exact Hrows].
  unfold build_future_dataframe. rewrite Hsorted. app_step.
  rewrite Hhistory. app_step. unfold load_model. app_step.
  rewrite (App_bind_Returned _ _ _ _ _ Hloop). reflexivity.
Qed.


(** ** Timestamps of the forecast *)





(** ** Precipitation hours along the forecast *)

(** C3: in a run on well-formed inputs with a model that answers, the
    precipitation-hours cells (HoursOfRain, HoursOfSnow and their _rolling
    variants) of row 0 are the ones [add_weather_features] derives with the
    historical weather window the run was given, and those of every row i
    with 1 <= i <= 71 are the single-row estimates from weather row i
    alone, whatever the historical window is. *)
Theorem build_future_dataframe_precipitation_asymmetry (np : Numpy) (model : Model)
    (wx_df aq_df : DataFrame) (hist : option DataFrame) (ui : list st_event) :
  valid_inputs wx_df aq_df hist = true ->
  (forall idx df, (idx < FORECAST_HOURS)%nat -> exists y, model idx df = PredValue y) ->
  exists ui' df,
    build_future_dataframe (Some model) wx_df aq_df hist ui = (ui ++ ui', Returned df) /\
    length df = 72%nat /\
    forall (i : nat) (r : row), df !! i = Some r ->
      exists wr rain snow,
        wx_df !! i = Some wr /\
        r !! "HoursOfRain" = Some (VInt rain) /\
        r !! "HoursOfRain_rolling" = Some (VInt rain) /\
        r !! "HoursOfSnow" = Some (VInt snow) /\
        r !! "HoursOfSnow_rolling" = Some (VInt snow) /\
        (i = 0%nat -> weather_hours [wr] hist rain snow) /\
        ((1 <= i)%nat ->
           single_row_hours wr "precipitation" rain /\
           single_row_hours wr "snowfall" snow).
Proof.
  intros Hvalid Hmodel.
  destruct (build_future_dataframe_returns np model wx_df aq_df hist ui Hvalid Hmodel)
    as (ui' & rows & Hrun & Hrows).
  exists ui', (pd_DataFrame rows). split; [exact Hrun|]. split.
  { rewrite length_pd_DataFrame. apply Forall2_length in Hrows.
    now rewrite length_seq in Hrows. }
  intros i r Hr. apply pd_DataFrame_lookup in Hr as (r0 & Hr0 & Hkeep).
  destruct (Forall2_lookup_r _ _ _ _ _ Hrows Hr0) as (idx & Hidx & Hrow).
  apply lookup_seq in Hidx as [-> _]. cbn in Hrow.
  destruct Hrow as (wr & Hwr & (_ & rain & snow & Hh & H1 & H2 & H3 & H4) & _).
  exists wr, rain, snow. split; [exact Hwr|].
  repeat (split; [now apply Hkeep|]).
  unfold step_history in Hh. split.
  - intros ->. exact Hh.
  - intros Hi. rewrite decide_False in Hh by lia.
    destruct Hh as (r1 & [= <-] & Hrain & Hsnow). auto.
Qed.

Lemma build_future_dataframe_precipitation_asymmetry_witness :
  valid_inputs Sample.wx_df Sample.aq_df (Some Sample.historical_weather_df) = true /\
  exists ui' df,
    build_future_dataframe (np := Reference.numpy) (Some Sample.constant_model)
      Sample.wx_df Sample.aq_df (Some Sample.historical_weather_df) [] =
      ([] ++ ui', Returned df) /\
    length df = 72%nat /\
    (fun r : row => r !! "HoursOfRain") <$> take 6 df =
      [Some (VInt 24); Some (VInt 0); Some (VInt 0); Some (VInt 0); Some (VInt 0);
       Some (VInt 3)].
Proof.
  split; [by_evaluation|].
  destruct (build_future_dataframe_precipitation_asymmetry Reference.numpy
              Sample.constant_model Sample.wx_df Sample.aq_df
              (Some Sample.historical_weather_df) [])
    as (ui' & df & Hrun & Hlen & _).
  - by_evaluation.
  - intros idx df _. exists 10%float. reflexivity.
  - exists ui', df. split; [exact Hrun|]. split; [exact Hlen|].
    cbn [app] in Hrun.
    assert (Hdf : match (build_future_dataframe (np := Reference.numpy)
                           (Some Sample.constant_model) Sample.wx_df Sample.aq_df
                           (Some Sample.historical_weather_df) []).2 with
                  | Returned d => d
                  | _ => []
                  end = df)
      by exact (f_equal (fun o : list st_event * outcome DataFrame =>
                           match o.2 with Returned d => d | _ => [] end) Hrun).
    rewrite <- Hdf. by_evaluation.
Defined.

(** ** A failing prediction *)


Lemma string_app_assoc (s1 s2 s3 : string) : (s1 +:+ s2) +:+ s3 = s1 +:+ s2 +:+ s3.
Proof.
  induction s1 as [|c s1 IH]; [reflexivity|].
  change (String c ((s1 +:+ s2) +:+ s3) = String c (s1 +:+ s2 +:+ s3)).
  now rewrite IH.
Qed.



(** ** The summary writes to the caller's frame *)

Lemma res_map_exists {A B} (f : A -> res B) (l : list A) :
  Forall (fun x => exists y, f x = Ok y) l -> exists l', res_map f l = Ok l'.
Proof.
  induction 1 as [|x l [y Hy] _ [l' IH]]; cbn [res_map]; [eauto|].
  rewrite Hy, res_bind_ret, IH, res_bind_ret. eauto.
Qed.

Lemma apply_aqi_numeric (cells : list value) :
  forallb is_numeric cells = true -> exists pairs, apply_aqi cells = Ok pairs.
Proof.
  intros H. apply res_map_exists.
  apply Is_true_true, forallb_True in H.
  eapply Forall_impl; [exact H|]. intros v Hv. cbn in Hv.
  destruct v; try contradiction; cbn; eauto.
Qed.

Lemma lookup_zip_with_insert k (df : DataFrame) (vs : list value) i (r' : row) :
  zip_with (fun r v => <[k := v]> r) df vs !! i = Some r' ->
  exists r v, df !! i = Some r /\ vs !! i = Some v /\ r' = <[k := v]> r.
Proof.
  rewrite lookup_zip_with. intros H.
  destruct (df !! i) as [r|]; [|discriminate]. cbn in H.
  destruct (vs !! i) as [v|]; [|discriminate]. cbn in H.
  injection H as <-. eauto.
Qed.

(** C10: for a frame that is not empty and has a number in every cell of
    its PM2.5_pred column, [generate_forecast_summary] leaves at the
    address it was given a frame of the same rows with the two cells
    aqi_category and aqi_color written into each; the frame the caller
    holds has these two columns after the call, and it is not the frame the
    caller passed if that one had no aqi_category column.  No other address
    of the store changes. *)
Theorem generate_forecast_summary_writes_columns (today tomorrow : Z * Z * Z)
    (df_future : nat) (h : heap) (df : DataFrame) :
  h !! df_future = Some df ->
  df_empty df = false ->
  forallb (fun r => has_numeric r "PM2.5_pred") df = true ->
  exists df',
    (generate_forecast_summary today tomorrow df_future h).1 !! df_future = Some df' /\
    length df' = length df /\
    (forall i r', df' !! i = Some r' ->
       exists (r : row) cell p,
         df !! i = Some r /\ r !! "PM2.5_pred" = Some cell /\ as_float cell = Ok p /\
         r' = <["aqi_color" := VStr (pm25_to_aqi_category p).2]>
                (<["aqi_category" := VStr (pm25_to_aqi_category p).1]> r)) /\
    "aqi_category" ∈ columns df' /\ "aqi_color" ∈ columns df' /\
    ("aqi_category" ∉ columns df -> df' <> df) /\
    (forall l, l <> df_future ->
       (generate_forecast_summary today tomorrow df_future h).1 !! l = h !! l).
Proof.
  intros Hh Hempty Hnum.
  destruct (column_numeric "PM2.5_pred" df Hnum) as (cells & Hcells & Hcnum).
  destruct (apply_aqi_numeric cells Hcnum) as (pairs & Hpairs).
  assert (Hlen_cells : length cells = length df)
    by (eapply res_map_Ok_length; exact Hcells).
  assert (Hlen_pairs : length pairs = length df).
  { unfold apply_aqi in Hpairs. apply res_map_Ok_length in Hpairs. lia. }
  set (df1 := zip_with (fun (r : row) v => <["aqi_category" := v]> r) df
                ((fun c : string * string => VStr c.1) <$> pairs)).
  set (df2 := zip_with (fun (r : row) v => <["aqi_color" := v]> r) df1
                ((fun c : string * string => VStr c.2) <$> pairs)).
  assert (Hlen1 : length df1 = length df).
  { unfold df1. rewrite length_zip_with, length_fmap. lia. }
  assert (Hlen2 : length df2 = length df).
  { unfold df2. rewrite length_zip_with, length_fmap. lia. }
  assert (Hrun : generate_forecast_summary today tomorrow df_future h =
                 (<[df_future := df2]> (<[df_future := df1]> h),
                  summary_text today tomorrow df2)).
  { unfold generate_forecast_summary. rewrite Hh, Hempty, Hcells, res_bind_ret, Hpairs.
    rewrite set_column_same_length by (rewrite length_fmap; lia).
    fold df1. rewrite set_column_same_length by (rewrite length_fmap; lia).
    reflexivity. }
  assert (Hrows : forall i r', df2 !! i = Some r' ->
            exists (r : row) cell p,
              df !! i = Some r /\ r !! "PM2.5_pred" = Some cell /\ as_float cell = Ok p /\
              r' = <["aqi_color" := VStr (pm25_to_aqi_category p).2]>
                     (<["aqi_category" := VStr (pm25_to_aqi_category p).1]> r)).
  { intros i r' Hr'. unfold df2 in Hr'.
    apply lookup_zip_with_insert in Hr' as (r1 & v2 & Hr1 & Hv2 & ->).
    unfold df1 in Hr1. apply lookup_zip_with_insert in Hr1 as (r & v1 & Hr & Hv1 & ->).
    destruct (column_lookup _ _ _ _ _ Hcells Hr) as (cell & Hcell & Hci).
    unfold apply_aqi in Hpairs.
    destruct (res_map_Ok_lookup _ _ _ _ _ Hpairs Hci) as (pair & Hpair & Hpi).
    apply res_bind_Ok in Hpair as (p & Hp & [= <-]).
    rewrite list_lookup_fmap, Hpi in Hv1, Hv2. cbn in Hv1, Hv2.
    injection Hv1 as <-. injection Hv2 as <-.
    exists r, cell, p. auto. }
  assert (Hcols : forall r' : row, df2 !! 0%nat = Some r' ->
            "aqi_category" ∈ dom r' /\ "aqi_color" ∈ dom r').
  { intros r' Hr'. destruct (Hrows _ _ Hr') as (r & cell & p & _ & _ & _ & ->).
    split; apply elem_of_dom.
    - rewrite lookup_insert_ne by discriminate. rewrite lookup_insert_eq. eauto.
    - rewrite lookup_insert_eq. eauto. }
  assert (Hne : df2 <> []).
  { intros E. rewrite E in Hlen2. cbn in Hlen2.
    unfold df_empty in Hempty. apply orb_false_elim in Hempty as [Hempty _].
    apply bool_decide_eq_false in Hempty. destruct df; [congruence | discriminate]. }
  exists df2. rewrite Hrun. cbn [fst].
  split; [apply lookup_insert_eq|]. split; [exact Hlen2|]. split; [exact Hrows|].
  destruct df2 as [|r' df2'] eqn:Edf2; [congruence|].
  destruct (Hcols r' eq_refl) as [Hc1 Hc2].
  split; [exact Hc1|]. split; [exact Hc2|]. split.
  - intros Hnot E. apply Hnot. rewrite <- E. exact Hc1.
  - intros l Hl. now rewrite !lookup_insert_ne by congruence.
Qed.

Lemma generate_forecast_summary_writes_columns_witness :
  exists df',
    (generate_forecast_summary (2025, 6, 1)%Z (2025, 6, 2)%Z 0
       {[ 0%nat := [ <["PM2.5_pred" := VFloat 40]> (∅ : row) ] ]}).1 !! 0%nat = Some df' /\
    df' = [ <["aqi_color" := VStr "#ff7e00"]>
              (<["aqi_category" := VStr "Unhealthy for Sensitive Groups"]>
                 (<["PM2.5_pred" := VFloat 40]> (∅ : row))) ] /\
    df' <> [ <["PM2.5_pred" := VFloat 40]> (∅ : row) ].
Proof.
  destruct (generate_forecast_summary_writes_columns (2025, 6, 1)%Z (2025, 6, 2)%Z 0
              {[ 0%nat := [ <["PM2.5_pred" := VFloat 40]> (∅ : row) ] ]}
              [ <["PM2.5_pred" := VFloat 40]> (∅ : row) ])
    as (df' & Hdf' & Hlen & Hrows & _ & _ & Hchanged & _).
  - apply lookup_singleton_eq.
  - by_evaluation.
  - by_evaluation.
  - exists df'. split; [exact Hdf'|].
    assert (Hnot : "aqi_category" ∉ columns [ <["PM2.5_pred" := VFloat 40]> (∅ : row) ]).
    { cbn [columns]. rewrite dom_insert_L, dom_empty_L.
      intros Hin. apply elem_of_union in Hin as [Hin|Hin].
      - apply elem_of_singleton in Hin. discriminate Hin.
      - inversion Hin. }
    split; [|exact (Hchanged Hnot)].
    destruct df' as [|r' [|r'' df']]; try discriminate Hlen.
    destruct (Hrows 0%nat r' eq_refl) as (r & cell & p & Hr & Hcell & Hp & ->).
    injection Hr as <-. rewrite lookup_insert_eq in Hcell. injection Hcell as <-.
    injection Hp as <-. reflexivity.
Defined.

(** * Further properties *)

(** ** Calendar features *)

(** X1: the season is Winter exactly for December, January and February,
    Spring for March to May, Summer for June to August, and Fall for every
    other number: September to November, and any number that is no month. *)
Theorem get_season_months (month : Z) :
  (get_season month = "Winter" <-> month = 12 \/ month = 1 \/ month = 2)%Z /\
  (get_season month = "Spring" <-> month = 3 \/ month = 4 \/ month = 5)%Z /\
  (get_season month = "Summer" <-> month = 6 \/ month = 7 \/ month = 8)%Z /\
  (get_season month = "Fall" <-> (9 <= month <= 11 \/ month < 1 \/ 12 < month)%Z).
Proof.
  unfold get_season. cbn [existsb].
  repeat match goal with
  | |- context [(month =? ?c)%Z] =>
      destruct (Z.eqb_spec month c);
        [subst; cbn; repeat split; intros; (discriminate || lia || auto)|]
  end.
  cbn. repeat split; intros; (discriminate || lia || auto).
Qed.

(** X2: the time of day is Morning exactly for the hours 5 to 11, Afternoon
    for 12 to 16, Evening for 17 to 20, and Night for every other number
    (21 to 23 and 0 to 4 among the hours of a day). *)
Theorem get_time_of_day_hours (hour : Z) :
  (get_time_of_day hour = "Morning" <-> 5 <= hour < 12)%Z /\
  (get_time_of_day hour = "Afternoon" <-> 12 <= hour < 17)%Z /\
  (get_time_of_day hour = "Evening" <-> 17 <= hour < 21)%Z /\
  (get_time_of_day hour = "Night" <-> (hour < 5 \/ 21 <= hour)%Z).
Proof.
  unfold get_time_of_day.
  destruct (Z.leb_spec 5 hour), (Z.ltb_spec hour 12), (Z.leb_spec 12 hour),
    (Z.ltb_spec hour 17), (Z.leb_spec 17 hour), (Z.ltb_spec hour 21);
    cbn; repeat split; intros; (discriminate || lia || auto).
Qed.




(** ** Extreme-event flags *)

Lemma list_getitem_end {A} (l : list A) (k : nat) (x : A) :
  (1 <= k <= length l)%nat -> l !! (length l - k)%nat = Some x ->
  list_getitem l (- Z.of_nat k) = Ok x.
Proof. intros Hk Hx. rewrite list_getitem_from_end by assumption. now rewrite Hx. Qed.

Lemma add_extreme_event_features_shape (df : DataFrame) (history : list float) :
  add_extreme_event_features df history =
    Ok (set_scalar "Extreme_Event_VMD_shift1" (VStr (extreme_flag history 2))
          (set_scalar "Extreme_PM2.5" (VStr (extreme_flag history 1)) df)).
Proof.
  unfold add_extreme_event_features, extreme_flag.
  destruct (decide (0 < length history)%nat) as [H0|H0].
  - destruct (lookup_lt_is_Some_2 history (length history - 1)%nat) as [x Hx]; [lia|].
    pose proof (list_getitem_end history 1 x ltac:(lia) Hx) as Hg1.
    change (- Z.of_nat 1)%Z with (-1)%Z in Hg1.
    rewrite Hg1, res_bind_ret, Hx, (decide_True (P := (1 <= length history)%nat)) by lia.
    destruct (decide (1 < length history)%nat) as [H1|H1].
    + destruct (lookup_lt_is_Some_2 history (length history - 2)%nat) as [y Hy]; [lia|].
      pose proof (list_getitem_end history 2 y ltac:(lia) Hy) as Hg2.
      change (- Z.of_nat 2)%Z with (-2)%Z in Hg2.
      rewrite Hg2, res_bind_ret, Hy, (decide_True (P := (2 <= length history)%nat)) by lia.
      reflexivity.
    + destruct (history !! (length history - 2)%nat);
        [rewrite (decide_False (P := (2 <= length history)%nat)) by lia|]; reflexivity.
  - assert (history = []) as -> by (destruct history; [reflexivity | cbn in H0; lia]).
    reflexivity.
Qed.

(** X4: [add_extreme_event_features] never raises.  In every row of its result
    Extreme_PM2.5 is "Yes" exactly when the buffer has a last entry that is
    at least 150, and Extreme_Event_VMD_shift1 is "Yes" exactly when the
    buffer has at least two entries and the one before the last is at
    least 150; a NaN entry gives "No". *)
Theorem add_extreme_event_features_flags (df : DataFrame) (history : list float) :
  exists df', add_extreme_event_features df history = Ok df' /\
    length df' = length df /\
    forall r' : row, r' ∈ df' ->
      exists f1 f2,
        r' !! "Extreme_PM2.5" = Some (VStr f1) /\
        r' !! "Extreme_Event_VMD_shift1" = Some (VStr f2) /\
        (f1 = "Yes" <-> exists x, last history = Some x /\ (150 <=? x)%float = true) /\
        (f2 = "Yes" <->
           exists y, (2 <= length history)%nat /\
                     history !! (length history - 2)%nat = Some y /\
                     (150 <=? y)%float = true) /\
        (f1 = "Yes" \/ f1 = "No") /\ (f2 = "Yes" \/ f2 = "No").
Proof.
  rewrite add_extreme_event_features_shape. eexists. split; [reflexivity|].
  split; [now rewrite !length_set_scalar|].
  intros r' Hr'.
  apply elem_of_set_scalar in Hr' as (r1 & -> & Hr1).
  apply elem_of_set_scalar in Hr1 as (r & -> & _).
  exists (extreme_flag history 1), (extreme_flag history 2).
  split; [now rewrite lookup_insert_ne, lookup_insert_eq by discriminate|].
  split; [now rewrite lookup_insert_eq|].
  unfold extreme_flag, is_extreme_pm25. rewrite last_lookup.
  replace (pred (length history)) with (length history - 1)%nat by lia.
  repeat split.
  - destruct (history !! (length history - 1)%nat) as [x|] eqn:Hx; [|discriminate].
    case_decide; [|discriminate].
    destruct (150 <=? x)%float eqn:E; [|discriminate]. eauto.
  - intros (x & Hl & Hx). apply lookup_lt_Some in Hl as Hlt.
    rewrite Hl, decide_True by lia. now rewrite Hx.
  - destruct (history !! (length history - 2)%nat) as [y|] eqn:Hy; [|discriminate].
    case_decide; [|discriminate].
    destruct (150 <=? y)%float eqn:E; [|discriminate]. eauto.
  - intros (y & Hlen & Hl & Hy). rewrite Hl, decide_True by lia. now rewrite Hy.
  - destruct (history !! (length history - 1)%nat); [|auto].
    case_decide; [|auto]. destruct (150 <=? _)%float; auto.
  - destruct (history !! (length history - 2)%nat); [|auto].
    case_decide; [|auto]. destruct (150 <=? _)%float; auto.
Qed.

(** ** The range of the precipitation hours *)

Lemma count_at_least_bounds (threshold : float) (data : list float) :
  (0 <= count_at_least threshold data <= Z.of_nat (length data))%Z.
Proof.
  unfold count_at_least.
  assert (length (List.filter (fun p => (threshold <=? p)%float) data) <= length data)%nat.
  { induction data as [|x data IH]; cbn; [lia|].
    destruct (threshold <=? x)%float; cbn; lia. }
  lia.
Qed.

Lemma window_hours_bounds (historical : DataFrame) (c : string) (n : Z) :
  window_hours historical c n ->
  (0 <= n <= 24)%Z /\ (n <= Z.of_nat (length historical))%Z.
Proof.
  intros (cells & data & Hcells & Hdata & ->).
  pose proof (count_at_least_bounds 0.1 data) as Hb.
  apply res_map_Ok_length in Hdata. apply res_map_Ok_length in Hcells.
  unfold tail_n in Hdata. rewrite length_drop in Hdata. lia.
Qed.

(** X5: in every row that [add_weather_features] produces, HoursOfRain and
    HoursOfSnow are integers: with a historical window they lie between 0
    and 24 and do not exceed the number of rows of the window; without one
    each is 0 or 3. *)
Theorem add_weather_features_hours_range (np : Numpy) (df : DataFrame)
    (historical_weather_df : option DataFrame) (df' : DataFrame) (r' : row) :
  add_weather_features df historical_weather_df = Ok df' -> r' ∈ df' ->
  exists rain snow : Z,
    r' !! "HoursOfRain" = Some (VInt rain) /\
    r' !! "HoursOfSnow" = Some (VInt snow) /\
    match historical_weather_df with
    | Some historical =>
        (0 <= rain <= 24 /\ rain <= Z.of_nat (length historical))%Z /\
        (0 <= snow <= 24 /\ snow <= Z.of_nat (length historical))%Z
    | None => (rain = 0 \/ rain = 3)%Z /\ (snow = 0 \/ snow = 3)%Z
    end.
Proof.
  intros H Hr'.
  destruct (add_weather_features_hour_cells np df _ df' r' H Hr')
    as (rain & snow & Hh & Hrain & Hsnow & _ & _).
  exists rain, snow. split; [exact Hrain|]. split; [exact Hsnow|].
  destruct historical_weather_df as [h|]; cbn in Hh.
  - destruct Hh as [Hr Hs]. split; eapply window_hours_bounds; eassumption.
  - destruct Hh as (r0 & _ & (? & p & _ & _ & ->) & (? & s & _ & _ & ->)).
    split; [destruct (0.1 <? p)%float | destruct (0.1 <? s)%float]; auto.
Qed.

Lemma add_weather_features_hours_range_witness :
  exists df' r' rain snow,
    add_weather_features (np := Reference.numpy) [Sample.weather_row 0]
      (Some (take 5 Sample.historical_weather_df)) = Ok df' /\
    r' ∈ df' /\
    r' !! "HoursOfRain" = Some (VInt rain) /\
    r' !! "HoursOfSnow" = Some (VInt snow) /\
    (0 <= rain <= 5)%Z /\ (0 <= snow <= 5)%Z.
Proof.
  pose (out := add_weather_features (np := Reference.numpy) [Sample.weather_row 0]
                 (Some (take 5 Sample.historical_weather_df))).
  assert (E : out = Ok [Sample.first_row out]) by by_evaluation.
  subst out.
  destruct (add_weather_features_hours_range Reference.numpy _ _ _ _ E
              (list_elem_of_here _ _)) as (rain & snow & Hr & Hs & [? Hr5] & [? Hs5]).
  eexists _, _, rain, snow. split; [exact E|]. split; [apply list_elem_of_here|].
  split; [exact Hr|]. split; [exact Hs|].
  change (Z.of_nat (length (take 5 Sample.historical_weather_df))) with 5%Z in Hr5, Hs5.
  lia.
Defined.

(** ** The trace of a run *)

Lemma create_rolling_features_exact (np : Numpy) (df : DataFrame) (history : list float) :
  create_rolling_features df history =
    set_scalar "pm2.5_roll24_std" (rolling_std_cell np history)
      (set_scalar "pm2.5_roll24_mean" (rolling_mean_cell np history) df).
Proof.
  unfold create_rolling_features, rolling_mean_cell, rolling_std_cell, rolling_window.
  destruct history as [|x [|y history]].
  - reflexivity.
  - reflexivity.
  - rewrite decide_True by (cbn; lia).
    rewrite slice_last_pos by (cbn; lia).
    rewrite decide_True by (cbn; lia). reflexivity.
Qed.

(** What the three history-driven derivations write. *)
Lemma history_features_cells (np : Numpy) (df df1 df2 : DataFrame) (history : list float) :
  create_lag_features df history = Ok df1 ->
  add_extreme_event_features (create_rolling_features df1 history) history = Ok df2 ->
  Forall2 (fun r r' => agree_outside history_columns r r' /\ history_cells np history r')
    df df2.
Proof.
  intros Hlag Hext.
  destruct lag_periods_ok as [Hpos Hnd].
  destruct (add_lags_spec lag_periods history df Hpos Hnd) as (df1' & Hdf1 & Hall).
  unfold create_lag_features in Hlag. rewrite Hdf1 in Hlag. injection Hlag as ->.
  rewrite create_rolling_features_exact, add_extreme_event_features_shape in Hext.
  injection Hext as <-.
  unfold set_scalar. rewrite <- !list_fmap_compose. apply Forall2_fmap_r.
  eapply Forall2_impl; [exact Hall|]. intros r r1 [Hin Hout]. cbn.
  split; [|split; [|repeat split]].
  - intros c Hc. rewrite !lookup_insert_ne.
    + apply Hout. intros k Hk ->. apply Hc.
      unfold lag_periods in Hk. unfold history_columns.
      repeat (apply elem_of_cons in Hk as [->|Hk]; [set_solver|]). inversion Hk.
    + intros <-. apply Hc. unfold history_columns. set_solver.
    + intros <-. apply Hc. unfold history_columns. set_solver.
    + intros <-. apply Hc. unfold history_columns. set_solver.
    + intros <-. apply Hc. unfold history_columns. set_solver.
  - intros k Hk. destruct (Hin k Hk) as (x & Hx & Hcell). exists x. split; [exact Hx|].
    rewrite !lookup_insert_ne; [exact Hcell|..];
      unfold lag_periods in Hk;
      repeat (apply elem_of_cons in Hk as [->|Hk]; [discriminate|]); inversion Hk.
  - now rewrite !lookup_insert_ne, lookup_insert_eq by discriminate.
  - now rewrite !lookup_insert_ne, lookup_insert_eq by discriminate.
  - now rewrite !lookup_insert_ne, lookup_insert_eq by discriminate.
  - now rewrite lookup_insert_eq.
Qed.

(** ** Reading a run backwards *)

Lemma App_bind_inv {A B} (m : App A) (k : A -> App B) ui ui' (b : B) :
  (m ≫= k) ui = (ui', Returned b) ->
  exists a ui1, m ui = (ui1, Returned a) /\ k a ui1 = (ui', Returned b).
Proof.
  unfold mbind, App_bind. destruct (m ui) as [ui1 [a|e|]]; try discriminate. eauto.
Qed.

Lemma lift_inv {A} (m : res A) ui ui' (a : A) :
  lift m ui = (ui', Returned a) -> m = Ok a /\ ui' = ui.
Proof. unfold lift. destruct m; intros [= <- <-]; auto. Qed.

Lemma agree_outside_None K (r r' : row) c :
  agree_outside K r r' -> c ∉ K -> r !! c = None -> r' !! c = None.
Proof. intros H Hc Hr. now rewrite H. Qed.

Lemma copy_weather_cells_agree (cols : list string) (wx_df : DataFrame) (idx : nat)
    (df df' : DataFrame) :
  copy_weather_cells cols wx_df idx df = Ok df' -> Forall2 (agree_outside cols) df df'.
Proof.
  revert df. induction cols as [|col cols IH]; intros df H; cbn [copy_weather_cells] in H.
  - injection H as <-. apply Forall_Forall2_diag, Forall_forall. intros r _.
    apply agree_outside_refl.
  - case_decide.
    + apply res_bind_Ok in H as (wr & _ & H). apply res_bind_Ok in H as (cell & _ & H).
      apply IH in H.
      exact (Forall2_agree_trans [col] cols _ _ _ (set_scalar_agree col cell df) H).
    + apply IH in H. eapply Forall2_impl; [exact H|].
      intros r r'. apply agree_outside_weaken. set_solver.
Qed.

Lemma copy_weather_columns_agree (cols : list string) (src dst dst' : DataFrame) :
  copy_weather_columns cols src dst = Ok dst' -> Forall2 (agree_outside cols) dst dst'.
Proof.
  revert dst. induction cols as [|col cols IH]; intros dst H; cbn [copy_weather_columns] in H.
  - injection H as <-. apply Forall_Forall2_diag, Forall_forall. intros r _.
    apply agree_outside_refl.
  - case_decide.
    + apply res_bind_Ok in H as (cells & _ & H). apply res_bind_Ok in H as (dst1 & Hd & H).
      apply IH in H.
      exact (Forall2_agree_trans [col] cols _ _ _ (set_column_agree col cells _ _ Hd) H).
    + apply IH in H. eapply Forall2_impl; [exact H|].
      intros r r'. apply agree_outside_weaken. set_solver.
Qed.

(** The rows of the result of [add_time_features]: each has a timestamp
    and keeps every cell outside the calendar columns. *)
Lemma add_time_features_agree (df df' : DataFrame) :
  add_time_features df = Ok df' ->
  Forall2 (fun r r' : row => agree_outside time_columns r r' /\
                             exists t, r !! "time" = Some (VTime t)) df df'.
Proof.
  unfold add_time_features, column. intros H.
  apply res_bind_Ok in H as (times & Htimes & H).
  apply res_bind_Ok in H as (ts & Hts & [= <-]).
  revert times ts Htimes Hts. induction df as [|r df IH]; intros times ts Htimes Hts.
  - constructor.
  - cbn [res_map] in Htimes.
    apply res_bind_Ok in Htimes as (v & Hv & Htimes).
    apply res_bind_Ok in Htimes as (times' & Htimes' & [= <-]).
    cbn [res_map] in Hts.
    apply res_bind_Ok in Hts as (t & Ht & Hts).
    apply res_bind_Ok in Hts as (ts' & Hts' & [= <-]).
    cbn [zip_with]. constructor; [|now apply (IH times' ts')].
    split; [apply time_features_agree|].
    unfold getitem in Hv. destruct (r !! "time") as [v'|]; [|discriminate].
    injection Hv as ->. destruct v; try discriminate. injection Ht as ->. eauto.
Qed.


Lemma add_weather_features_agree (np : Numpy) (df : DataFrame) hist (df' : DataFrame) :
  add_weather_features df hist = Ok df' ->
  Forall2 (agree_outside weather_feature_columns) df df'.
Proof.
  intros H. apply add_weather_features_Ok in H as (base & rain & snow & -> & Hbase & _).
  exact (Forall2_agree_trans _ _ _ _ _
    (Forall2_agree_trans _ _ _ _ _
      (Forall2_agree_trans _ _ _ _ _
        (Forall2_agree_trans _ _ _ _ _ Hbase
          (set_scalar_agree "HoursOfRain" (VInt rain) base))
        (set_scalar_agree "HoursOfSnow" (VInt snow) _))
      (set_scalar_agree "HoursOfRain_rolling" (VInt rain) _))
    (set_scalar_agree "HoursOfSnow_rolling" (VInt snow) _)).
Qed.

(** What the derivations after the weather copy do to each row. *)
Lemma feature_chain_inv (np : Numpy) (df0 df1 df2 df3 df : DataFrame) hist
    (history : list float) :
  add_time_features df0 = Ok df1 ->
  add_weather_features df1 hist = Ok df2 ->
  create_lag_features df2 history = Ok df3 ->
  add_extreme_event_features (create_rolling_features df3 history) history = Ok df ->
  Forall2 (fun r r' : row =>
             agree_outside (time_columns ++ weather_feature_columns ++ history_columns) r r' /\
             (exists t, r !! "time" = Some (VTime t)) /\
             history_cells np history r') df0 df.
Proof.
  intros H1 H2 H3 H4.
  apply add_time_features_agree in H1.
  apply add_weather_features_agree in H2.
  pose proof (history_features_cells np _ _ _ _ H3 H4) as H5.
  assert (H25 : Forall2 (fun r r' : row =>
                  agree_outside (weather_feature_columns ++ history_columns) r r' /\
                  history_cells np history r') df1 df).
  { eapply Forall2_trans; [|exact H2|exact H5].
    intros x y z Hxy [Hyz Hz]. split; [|exact Hz].
    eapply agree_outside_trans; eassumption. }
  eapply Forall2_trans; [|exact H1|exact H25].
  intros r r1 r' [Ha Ht] [Hb Hc]. split; [|split; assumption].
  eapply agree_outside_trans; eassumption.
Qed.

Lemma iloc_inv (df : DataFrame) (idx : nat) (r : row) :
  iloc df idx = Ok r -> df !! idx = Some r.
Proof. unfold iloc. destruct (df !! idx); [intros [= ->]; reflexivity | discriminate]. Qed.

Lemma getitem_inv (r : row) (k : string) (v : value) :
  getitem r k = Ok v -> r !! k = Some v.
Proof. unfold getitem. destruct (r !! k); [intros [= ->]; reflexivity | discriminate]. Qed.

Lemma time_not_derived : "time" ∉ derived_columns.
Proof.
  unfold derived_columns, WEATHER_RENAME_values, time_columns, weather_feature_columns,
    history_columns. cbn [app]. column_not_in.
Qed.

(** The frame of a later step has one row: the timestamp of the weather
    row, derived cells, and the cells of the history buffer. *)
Lemma next_features_inv (np : Numpy) (wx_df : DataFrame) (idx : nat)
    (history : list float) (df : DataFrame) :
  next_features wx_df idx history = Ok df ->
  exists wr t r,
    wx_df !! idx = Some wr /\ wr !! "time" = Some (VTime t) /\ df = [r] /\
    agree_outside derived_columns {["time" := VTime t]} r /\
    history_cells np history r.
Proof.
  unfold next_features. intros H.
  apply res_bind_Ok in H as (wr & Hwr & H). apply iloc_inv in Hwr.
  apply res_bind_Ok in H as (tv & Htv & H). apply getitem_inv in Htv.
  apply res_bind_Ok in H as (df0 & Hcopy & H).
  apply res_bind_Ok in H as (df1 & Htime & H).
  apply res_bind_Ok in H as (df2 & Hweather & H).
  apply res_bind_Ok in H as (df3 & Hlag & H).
  apply copy_weather_cells_agree in Hcopy.
  apply Forall2_singleton_l in Hcopy as (r0 & -> & Hr0).
  pose proof (feature_chain_inv np _ _ _ _ _ _ _ Htime Hweather Hlag H) as Hchain.
  apply Forall2_singleton_l in Hchain as (r & -> & Hagree & (t & Ht) & Hcells).
  rewrite Hr0, lookup_singleton_eq in Ht
    by (unfold WEATHER_RENAME_values; column_not_in).
  injection Ht as ->.
  exists wr, t, r. split; [exact Hwr|]. split; [exact Htv|]. split; [reflexivity|].
  split; [|exact Hcells].
  exact (agree_outside_trans _ _ _ _ _ Hr0 Hagree).
Qed.

(** The frame of the first step has one row as well; its history cells
    come from the last readings of the sorted air-quality frame, and it
    carries the timestamp a second time, as datetime. *)
Lemma prepare_features_inv (np : Numpy) (wr : row) (aq_df : DataFrame) hist
    (df : DataFrame) :
  prepare_features [wr] aq_df hist = Ok df ->
  exists sorted history t r,
    sort_values_time aq_df = Ok sorted /\ pm25_tail sorted = Ok history /\
    wr !! "time" = Some (VTime t) /\ df = [<["datetime" := VTime t]> r] /\
    agree_outside derived_columns {["time" := VTime t]} r /\
    history_cells np history r.
Proof.
  unfold prepare_features. intros H.
  apply res_bind_Ok in H as (sorted & Hsorted & H).
  apply res_bind_Ok in H as (history & Hhistory & H).
  apply res_bind_Ok in H as (times & Htimes & H).
  unfold column in Htimes. cbn [res_map] in Htimes.
  apply res_bind_Ok in Htimes as (tv & Htv & [= <-]). apply getitem_inv in Htv.
  cbn [fmap list_fmap] in H.
  apply res_bind_Ok in H as (df0 & Hcopy & H).
  apply res_bind_Ok in H as (df1 & Htime & H).
  apply res_bind_Ok in H as (df2 & Hweather & H).
  apply res_bind_Ok in H as (df3 & Hlag & H).
  apply res_bind_Ok in H as (df4 & Hext & H).
  apply res_bind_Ok in H as (times' & Htimes' & H).
  apply copy_weather_columns_agree in Hcopy.
  apply Forall2_singleton_l in Hcopy as (r0 & -> & Hr0).
  pose proof (feature_chain_inv np _ _ _ _ _ _ _ Htime Hweather Hlag Hext) as Hchain.
  apply Forall2_singleton_l in Hchain as (r & -> & Hagree & (t & Ht) & Hcells).
  rewrite Hr0, lookup_singleton_eq in Ht
    by (unfold WEATHER_RENAME_values; column_not_in).
  injection Ht as ->.
  pose proof (agree_outside_trans _ _ _ _ _ Hr0 Hagree) as Hall.
  assert (Hrt : r !! "time" = Some (VTime t)).
  { rewrite (Hall "time" time_not_derived). apply lookup_singleton_eq. }
  rewrite (column_singleton "time" r _ Hrt) in Htimes'. injection Htimes' as <-.
  rewrite set_column_singleton in H. injection H as <-.
  exists sorted, history, t, r. split; [exact Hsorted|]. split; [exact Hhistory|].
  split; [exact Htv|]. split; [reflexivity|]. split; [exact Hall|exact Hcells].
Qed.

Lemma step_features_singleton (np : Numpy) (wx_df aq_df : DataFrame) hist (idx : nat)
    (history : list float) (df : DataFrame) :
  step_features np wx_df aq_df hist idx history = Ok df -> exists r, df = [r].
Proof.
  unfold step_features. case_decide as H0; intros H.
  - apply res_bind_Ok in H as (wx_first & Hfirst & H).
    unfold iloc_frame in Hfirst. destruct (wx_df !! idx) as [wr|]; [|discriminate].
    injection Hfirst as <-.
    apply (prepare_features_inv np) in H as (? & ? & ? & r & _ & _ & _ & -> & _). eauto.
  - apply (next_features_inv np) in H as (? & ? & r & _ & _ & -> & _). eauto.
Qed.

(** A step that returns has built its one-row frame, got a value from the
    model, and appended the value to the buffer and the row, with the
    value written to PM2.5_pred, to the rows; only step 0 shows messages. *)
Lemma forecast_step_inv (np : Numpy) (model : Model) (wx_df aq_df : DataFrame) hist
    (idx : nat) (history : list float) (rows : list row) (ui ui' : list st_event)
    (st : list float * list row) :
  forecast_step model wx_df aq_df hist idx (history, rows) ui = (ui', Returned st) ->
  exists r0 y,
    step_features np wx_df aq_df hist idx history = Ok [r0] /\
    model idx [r0] = PredValue y /\
    st = (history ++ [y], rows ++ [<["PM2.5_pred" := VFloat y]> r0]) /\
    ui' = ui ++ (if decide (idx = 0%nat) then debug_messages (columns [r0]) else []).
Proof.
  intros H.
  assert (Hfeat : exists df, step_features np wx_df aq_df hist idx history = Ok df).
  { pose proof H as H'. unfold forecast_step in H'. unfold step_features.
    case_decide as H0.
    - apply App_bind_inv in H' as (wx_first & ui1 & H1 & H').
      apply lift_inv in H1 as [E1 ->].
      apply App_bind_inv in H' as (pred_df & ui1 & H1 & H').
      apply lift_inv in H1 as [E2 ->].
      rewrite E1, res_bind_ret. eauto.
    - apply App_bind_inv in H' as (new_row_df & ui1 & H1 & H').
      apply lift_inv in H1 as [E1 ->]. eauto. }
  destruct Hfeat as (df & Hdf).
  destruct (step_features_singleton np _ _ _ _ _ _ Hdf) as (r0 & ->).
  exists r0. unfold forecast_step, step_features in *. case_decide as H0.
  - apply res_bind_Ok in Hdf as (wx_first & Hfirst & Hdf).
    rewrite Hfirst in H. rewrite App_bind_lift_Ok in H. rewrite Hdf in H.
    rewrite App_bind_lift_Ok in H. rewrite !App_bind_show in H.
    unfold predict_first in H.
    destruct (model idx [r0]) as [y|e].
    + rewrite App_bind_ret in H. cbv beta in H.
      cbn [set_scalar fmap list_fmap iloc lookup list_lookup] in H.
      rewrite App_bind_lift_Ok in H. injection H as <- <-.
      exists y. rewrite Hfirst, res_bind_ret. repeat split; try assumption.
      now rewrite <- app_assoc.
    + cbv [mbind App_bind show st_stop] in H. discriminate.
  - rewrite Hdf in H. rewrite App_bind_lift_Ok in H.
    unfold predict_next in H.
    destruct (model idx [r0]) as [y|e].
    + rewrite App_bind_ret in H. cbv beta in H.
      cbn [set_scalar fmap list_fmap iloc lookup list_lookup] in H.
      rewrite App_bind_lift_Ok in H. injection H as <- <-.
      exists y. repeat split; try assumption. now rewrite app_nil_r.
    + cbv [mbind App_bind show st_stop] in H. discriminate.
Qed.

Section Trace.
Context (np : Numpy) (model : Model) (wx_df aq_df : DataFrame).
Context (hist : option DataFrame).

(** A loop that returns has a trace. *)
Lemma for_each_trace (n : nat) :
  forall (a : nat) (history : list float) (rows : list row) (ui ui' : list st_event)
         (st : list float * list row),
    for_each (forecast_step model wx_df aq_df hist) (seq a n) (history, rows) ui =
      (ui', Returned st) ->
    exists ys new,
      length ys = n /\
      steps_trace np model wx_df aq_df hist a history ys new /\
      st = (history ++ ys, rows ++ new).
Proof.
  induction n as [|n IH]; intros a history rows ui ui' st H; cbn [seq for_each] in H.
  - injection H as <- <-. exists [], []. rewrite !app_nil_r.
    split; [reflexivity|]. split; [constructor|reflexivity].
  - apply App_bind_inv in H as ([h1 rows1] & ui1 & Hstep & H).
    apply (forecast_step_inv np) in Hstep as (r0 & y & Hr0 & Hy & [= -> ->] & _).
    apply IH in H as (ys & new & Hlen & Htrace & ->).
    exists (y :: ys), (<["PM2.5_pred" := VFloat y]> r0 :: new).
    split; [cbn; lia|]. split; [now constructor|].
    now rewrite <- !app_assoc.
Qed.

(** The steps after the first show nothing when they return. *)
Lemma for_each_quiet (n : nat) :
  forall (a : nat) (s st : list float * list row) (ui ui' : list st_event),
    (1 <= a)%nat ->
    for_each (forecast_step model wx_df aq_df hist) (seq a n) s ui = (ui', Returned st) ->
    ui' = ui.
Proof.
  induction n as [|n IH]; intros a s st ui ui' Ha H; cbn [seq for_each] in H.
  - now injection H as <- _.
  - apply App_bind_inv in H as (s1 & ui1 & Hstep & H). destruct s as [history rows].
    apply (forecast_step_inv np) in Hstep as (r0 & y & _ & _ & _ & ->).
    rewrite decide_False, app_nil_r in H by lia.
    apply IH in H; [exact H | lia].
Qed.

(** The row, the prediction and the feature frame of the step at position
    [j] of a trace. *)
Lemma steps_trace_lookup (a : nat) (history ys : list float) (rows : list row) :
  steps_trace np model wx_df aq_df hist a history ys rows ->
  length rows = length ys /\
  forall j r, rows !! j = Some r ->
    exists r0 y,
      ys !! j = Some y /\
      step_features np wx_df aq_df hist (a + j) (history ++ take j ys) = Ok [r0] /\
      model (a + j)%nat [r0] = PredValue y /\
      r = <["PM2.5_pred" := VFloat y]> r0.
Proof.
  induction 1 as [a history|a history r0 y ys rows Hr0 Hy Htrace [IHlen IH]].
  - split; [reflexivity|]. intros j r Hj. destruct j; discriminate.
  - split; [cbn; now rewrite IHlen|].
    intros [|j] r Hj; cbn in Hj.
    + injection Hj as <-. exists r0, y. rewrite Nat.add_0_r, app_nil_r. auto.
    + destruct (IH j r Hj) as (r1 & y1 & Hy1 & Hr1 & Hm & ->).
      exists r1, y1. cbn [take]. rewrite <- app_assoc in Hr1. cbn [app] in Hr1.
      replace (a + S j)%nat with (S a + j)%nat by lia. auto.
Qed.

End Trace.

Lemma load_model_inv (model_file : option Model) ui ui' (model : Model) :
  load_model model_file ui = (ui', Returned model) -> model_file = Some model /\ ui' = ui.
Proof.
  unfold load_model. destruct model_file as [m|].
  - intros [= <- <-]. auto.
  - cbv [mbind App_bind show st_stop]. discriminate.
Qed.

(** A run that returns a frame: the model file exists, sorting and reading
    the last readings succeeded, the loop made its 72 steps, and the frame
    is built from their rows; the only messages are those of step 0. *)
Lemma build_future_dataframe_inv (np : Numpy) (model_file : option Model)
    (wx_df aq_df : DataFrame) hist (ui ui' : list st_event) (df : DataFrame) :
  build_future_dataframe model_file wx_df aq_df hist ui = (ui', Returned df) ->
  exists model sorted h0 ys rows,
    model_file = Some model /\
    sort_values_time aq_df = Ok sorted /\ pm25_tail sorted = Ok h0 /\
    length ys = FORECAST_HOURS /\
    steps_trace np model wx_df sorted hist 0 h0 ys rows /\
    df = pd_DataFrame rows /\
    exists r0, step_features np wx_df sorted hist 0 h0 = Ok [r0] /\
      ui' = ui ++ debug_messages (columns [r0]).
Proof.
  unfold build_future_dataframe. intros H.
  apply App_bind_inv in H as (sorted & ui1 & H1 & H). apply lift_inv in H1 as [Hsorted ->].
  apply App_bind_inv in H as (h0 & ui1 & H1 & H). apply lift_inv in H1 as [Hh0 ->].
  apply App_bind_inv in H as (model & ui1 & H1 & H). apply load_model_inv in H1 as [-> ->].
  apply App_bind_inv in H as ([h' rows] & ui1 & Hloop & H).
  injection H as -> <-.
  pose proof Hloop as Htrace.
  apply (for_each_trace np) in Htrace as (ys & new & Hlen & Htrace & [= -> ->]).
  exists model, sorted, h0, ys, new.
  split; [reflexivity|]. split; [exact Hsorted|]. split; [exact Hh0|].
  split; [exact Hlen|]. split; [exact Htrace|]. split; [reflexivity|].
  change (seq 0 FORECAST_HOURS) with (0%nat :: seq 1 71) in Hloop.
  cbn [for_each] in Hloop.
  apply App_bind_inv in Hloop as (s1 & ui1 & Hstep & Hrest).
  apply (forecast_step_inv np) in Hstep as (r0 & y & Hr0 & Hy & -> & ->).
  apply for_each_quiet in Hrest as ->; [|lia].
  exists r0. split; [exact Hr0|]. now rewrite decide_True by reflexivity.
Qed.

(** ** The rows of the returned frame *)

Lemma pd_DataFrame_row (rows : list row) (i : nat) (r0 : row) :
  rows !! i = Some r0 ->
  exists r, pd_DataFrame rows !! i = Some r /\
    (forall k v, r0 !! k = Some v -> r !! k = Some v) /\
    (forall k, r0 !! k = None ->
       r !! k = if decide (k ∈ ⋃ (dom <$> rows)) then Some (VFloat nan) else None).
Proof.
  intros Hi. unfold pd_DataFrame. rewrite list_lookup_fmap, Hi. cbn.
  eexists. split; [reflexivity|]. split.
  - intros k v Hk. now apply lookup_union_Some_l.
  - intros k Hk. rewrite lookup_union_r by exact Hk.
    rewrite lookup_gset_to_gmap. case_decide as Hin.
    + now rewrite option_guard_True.
    + now rewrite option_guard_False.
Qed.

Lemma elem_of_union_dom (rows : list row) (i : nat) (r0 : row) (k : string) :
  rows !! i = Some r0 -> is_Some (r0 !! k) -> k ∈ ⋃ (dom <$> rows).
Proof.
  intros Hi Hk. apply elem_of_union_list. exists (dom r0). split.
  - apply list_elem_of_fmap. exists r0. split; [reflexivity|].
    eapply list_elem_of_lookup_2, Hi.
  - now apply elem_of_dom.
Qed.

Lemma history_cells_mono (np : Numpy) (history : list float) (r r' : row) :
  (forall k v, r !! k = Some v -> r' !! k = Some v) ->
  history_cells np history r -> history_cells np history r'.
Proof.
  intros Hsub (Hlag & Hm & Hs & He1 & He2).
  split; [|auto 10].
  intros k Hk. destruct (Hlag k Hk) as (x & Hx & Hc). eauto.
Qed.

Lemma datetime_not_derived : "datetime" ∉ derived_columns.
Proof.
  unfold derived_columns, WEATHER_RENAME_values, time_columns, weather_feature_columns,
    history_columns. cbn [app]. column_not_in.
Qed.

Lemma insert_sub (k : string) (v : value) (r : row) :
  r !! k = None -> forall c w, r !! c = Some w -> <[k := v]> r !! c = Some w.
Proof.
  intros Hk c w Hc. rewrite lookup_insert_ne; [exact Hc|]. intros <-. congruence.
Qed.

(** What a returned frame holds.  There are 72 rows, each with its
    prediction.  The history cells of row 0 come from the last readings of
    the air-quality frame; those of a later row [i] from the buffer the
    loop keeps: the last readings followed by the predictions of the rows
    before [i].  Row 0 carries the timestamp of the first weather row as
    datetime; the later rows have none, and the missing cell there. *)
Lemma returned_frame (np : Numpy) (model_file : option Model) (wx_df aq_df : DataFrame)
    hist (ui ui' : list st_event) (df : DataFrame) :
  build_future_dataframe model_file wx_df aq_df hist ui = (ui', Returned df) ->
  exists sorted h0 ys,
    sort_values_time aq_df = Ok sorted /\ pm25_tail sorted = Ok h0 /\
    length ys = FORECAST_HOURS /\ length df = FORECAST_HOURS /\
    (forall i r, df !! i = Some r ->
       exists y, ys !! i = Some y /\ r !! "PM2.5_pred" = Some (VFloat y)) /\
    (forall i r, (1 <= i)%nat -> df !! i = Some r ->
       history_cells np (h0 ++ take i ys) r /\ r !! "datetime" = Some (VFloat nan)) /\
    (forall r, df !! 0%nat = Some r ->
       exists sorted' h0' wr t,
         sort_values_time sorted = Ok sorted' /\ pm25_tail sorted' = Ok h0' /\
         history_cells np h0' r /\
         wx_df !! 0%nat = Some wr /\ wr !! "time" = Some (VTime t) /\
         r !! "datetime" = Some (VTime t)).
Proof.
  intros H.
  apply (build_future_dataframe_inv np) in H
    as (model & sorted & h0 & ys & rows & -> & Hsorted & Hh0 & Hlen & Htrace & -> & _).
  destruct (steps_trace_lookup np _ _ _ _ _ _ _ _ Htrace) as [Hrows Hstep].
  exists sorted, h0, ys.
  split; [exact Hsorted|]. split; [exact Hh0|]. split; [exact Hlen|].
  split; [rewrite length_pd_DataFrame; congruence|].
  assert (Hrow0 : exists sorted' h0' wr t r1 y,
            sort_values_time sorted = Ok sorted' /\ pm25_tail sorted' = Ok h0' /\
            wx_df !! 0%nat = Some wr /\ wr !! "time" = Some (VTime t) /\
            rows !! 0%nat = Some (<["PM2.5_pred" := VFloat y]> (<["datetime" := VTime t]> r1)) /\
            history_cells np h0' r1 /\ r1 !! "datetime" = None /\
            r1 !! "PM2.5_pred" = None).
  { destruct (lookup_lt_is_Some_2 rows 0) as [r Hr];
      [rewrite Hrows, Hlen; unfold FORECAST_HOURS; lia|].
    destruct (Hstep 0%nat r Hr) as (r0 & y & _ & Hfeat & _ & ->).
    unfold step_features in Hfeat. rewrite decide_True in Hfeat by reflexivity.
    apply res_bind_Ok in Hfeat as (wx_first & Hfirst & Hfeat).
    unfold iloc_frame in Hfirst. cbn [Nat.add] in Hfirst.
    destruct (wx_df !! 0%nat) as [wr|] eqn:Hwr; [|discriminate]. injection Hfirst as <-.
    apply (prepare_features_inv np) in Hfeat
      as (sorted' & h0' & t & r1 & Hs' & Hh' & Ht & [= ->] & Hagree & Hcells).
    exists sorted', h0', wr, t, r1, y.
    split; [exact Hs'|]. split; [exact Hh'|]. split; [reflexivity|]. split; [exact Ht|].
    split; [exact Hr|]. split; [exact Hcells|]. split.
    - apply (agree_outside_None _ _ _ _ Hagree datetime_not_derived). reflexivity.
    - eapply (agree_outside_None _ _ _ _ Hagree); [|reflexivity].
      unfold derived_columns, WEATHER_RENAME_values, time_columns,
        weather_feature_columns, history_columns. cbn [app]. column_not_in. }
  destruct Hrow0 as (sorted' & h0' & wr & t & r1 & y0 & Hs' & Hh' & Hwr & Ht & Hr0 & Hc0
                     & Hd0 & Hp0).
  split; [|split].
  - intros i r Hi. apply pd_DataFrame_lookup in Hi as (ri & Hri & Hsub).
    destruct (Hstep i ri Hri) as (r0 & y & Hy & _ & _ & ->).
    exists y. split; [exact Hy|]. apply Hsub, lookup_insert_eq.
  - intros i r Hi1 Hi.
    apply pd_DataFrame_lookup in Hi as Hi'. destruct Hi' as (ri & Hri & Hsub).
    destruct (Hstep i ri Hri) as (r0 & y & Hy & Hfeat & _ & ->).
    unfold step_features in Hfeat. rewrite decide_False in Hfeat by lia.
    apply (next_features_inv np) in Hfeat as (wri & ti & r0' & _ & _ & [= ->] & Hagree & Hcells).
    assert (Hp : r0' !! "PM2.5_pred" = None).
    { eapply (agree_outside_None _ _ _ _ Hagree); [|reflexivity].
      unfold derived_columns, WEATHER_RENAME_values, time_columns,
        weather_feature_columns, history_columns. cbn [app]. column_not_in. }
    split.
    + eapply history_cells_mono; [exact Hsub|].
      eapply history_cells_mono; [apply (insert_sub _ _ _ Hp)|exact Hcells].
    + destruct (pd_DataFrame_row rows i _ Hri) as (r' & Hr' & _ & Hnone).
      assert (r' = r) as -> by congruence.
      rewrite Hnone.
      * rewrite decide_True; [reflexivity|].
        eapply elem_of_union_dom; [exact Hr0|].
        rewrite lookup_insert_ne, lookup_insert_eq by discriminate. eauto.
      * rewrite lookup_insert_ne by discriminate.
        apply (agree_outside_None _ _ _ _ Hagree datetime_not_derived). reflexivity.
  - intros r Hr. apply pd_DataFrame_lookup in Hr as (ri & Hri & Hsub).
    rewrite Hr0 in Hri. injection Hri as <-.
    exists sorted', h0', wr, t.
    split; [exact Hs'|]. split; [exact Hh'|]. split; [|split; [exact Hwr|split; [exact Ht|]]].
    + eapply history_cells_mono; [exact Hsub|].
      eapply history_cells_mono; [apply insert_sub|].
      { now rewrite lookup_insert_ne by discriminate. }
      eapply history_cells_mono; [apply (insert_sub _ _ _ Hd0)|exact Hc0].
    + apply Hsub. now rewrite lookup_insert_ne, lookup_insert_eq by discriminate.
Qed.

(** ** Feedback of the predictions *)

(** Counting back from the end of the buffer of hour [i], the first [i]
    places are the predictions of the hours before. *)
Lemma buffer_from_end (h0 ys : list float) (i k : nat) :
  (1 <= k <= i)%nat -> (i <= length ys)%nat ->
  (h0 ++ take i ys) !! (length (h0 ++ take i ys) - k)%nat = ys !! (i - k)%nat.
Proof.
  intros Hk Hi. rewrite length_app, length_take, Nat.min_l by exact Hi.
  rewrite lookup_app_r by lia.
  replace (length h0 + i - k - length h0)%nat with (i - k)%nat by lia.
  apply lookup_take_lt. lia.
Qed.

Lemma lag_column_not_pred (k : nat) : lag_column k <> "PM2.5_pred".
Proof. unfold lag_column. cbn. discriminate. Qed.

(** X6: in a frame the run returns, the lag cells feed the forecast back into
    itself: for a lag [k] among 1, 2, 3, 6, 12 and 24 that does not reach
    before the first forecast hour ([k <= i]), the cell pm2.5_lag<k> of
    the row of hour [i] is the prediction written in the row of hour
    [i - k]. *)
Theorem build_future_dataframe_lag_feedback (np : Numpy) (model_file : option Model)
    (wx_df aq_df : DataFrame) (hist : option DataFrame) (ui ui' : list st_event)
    (df : DataFrame) (i k : nat) (r : row) :
  build_future_dataframe model_file wx_df aq_df hist ui = (ui', Returned df) ->
  k ∈ lag_periods -> (k <= i)%nat -> df !! i = Some r ->
  exists r' y,
    df !! (i - k)%nat = Some r' /\
    r' !! "PM2.5_pred" = Some (VFloat y) /\
    r !! lag_column k = Some (VFloat y).
Proof.
  intros Hrun Hk Hki Hi.
  apply (returned_frame np) in Hrun
    as (sorted & h0 & ys & _ & _ & Hys & Hlen & Hpred & Hlater & _).
  pose proof (proj1 (Forall_forall _ _) (proj1 lag_periods_ok) k Hk) as Hk1.
  cbv beta in Hk1.
  pose proof (lookup_lt_Some _ _ _ Hi) as Hlt.
  destruct (Hlater i r ltac:(lia) Hi) as [(Hlag & _) _].
  destruct (Hlag k Hk) as (x & Hx & Hcell).
  destruct (lag_feature_enough (h0 ++ take i ys) k) as (x' & Hx' & Hf).
  { rewrite length_app, length_take. lia. }
  rewrite Hf in Hx. injection Hx as ->.
  rewrite buffer_from_end in Hx' by lia.
  destruct (lookup_lt_is_Some_2 df (i - k)%nat) as [r' Hr']; [lia|].
  destruct (Hpred _ _ Hr') as (y & Hy & Hp).
  exists r', y. split; [exact Hr'|]. split; [exact Hp|]. congruence.
Qed.

Lemma build_future_dataframe_lag_feedback_witness :
  exists ui' df r r' y,
    build_future_dataframe (np := Reference.numpy) (Some Sample.constant_model)
      Sample.wx_df Sample.aq_df (Some Sample.historical_weather_df) [] =
      (ui', Returned df) /\
    df !! 30%nat = Some r /\ df !! 6%nat = Some r' /\
    r' !! "PM2.5_pred" = Some (VFloat y) /\ r !! "pm2.5_lag24" = Some (VFloat y).
Proof.
  destruct (build_future_dataframe_returns Reference.numpy Sample.constant_model
              Sample.wx_df Sample.aq_df (Some Sample.historical_weather_df) [])
    as (ui' & rows & Hrun & Hrows).
  { by_evaluation. }
  { intros idx df _. exists 10%float. reflexivity. }
  destruct (lookup_lt_is_Some_2 (pd_DataFrame rows) 30) as [r Hr].
  { rewrite length_pd_DataFrame, <- (Forall2_length _ _ _ Hrows), length_seq.
    unfold FORECAST_HOURS. lia. }
  destruct (build_future_dataframe_lag_feedback Reference.numpy _ _ _ _ _ _ _ 30%nat
              24%nat r Hrun) as (r' & y & Hr' & Hy & Hlag).
  { unfold lag_periods. repeat first [apply list_elem_of_here | apply list_elem_of_further]. }
  { lia. }
  { exact Hr. }
  exists ([] ++ ui'), (pd_DataFrame rows), r, r', y. auto.
Defined.

Lemma extreme_flag_buffer (h0 ys : list float) (i k : nat) (y : float) :
  (1 <= k <= i)%nat -> (i <= length ys)%nat -> ys !! (i - k)%nat = Some y ->
  extreme_flag (h0 ++ take i ys) k = is_extreme_pm25 y 150.
Proof.
  intros Hk Hi Hy. unfold extreme_flag.
  rewrite buffer_from_end, Hy by assumption.
  rewrite decide_True; [reflexivity|]. rewrite length_app, length_take. lia.
Qed.

(** X7: the extreme-event flags of a returned frame look at the forecast
    itself: in the row of hour [i >= 1], Extreme_PM2.5 says whether the
    prediction of hour [i - 1] reached 150, and in the row of hour
    [i >= 2], Extreme_Event_VMD_shift1 says the same of hour [i - 2]. *)
Theorem build_future_dataframe_extreme_feedback (np : Numpy)
    (model_file : option Model) (wx_df aq_df : DataFrame) (hist : option DataFrame)
    (ui ui' : list st_event) (df : DataFrame) (i k : nat) (r : row) :
  build_future_dataframe model_file wx_df aq_df hist ui = (ui', Returned df) ->
  (k = 1 \/ k = 2)%nat -> (k <= i)%nat -> df !! i = Some r ->
  exists r' y,
    df !! (i - k)%nat = Some r' /\
    r' !! "PM2.5_pred" = Some (VFloat y) /\
    r !! (if decide (k = 1%nat) then "Extreme_PM2.5" else "Extreme_Event_VMD_shift1")
      = Some (VStr (if (150 <=? y)%float then "Yes" else "No")).
Proof.
  intros Hrun Hk Hki Hi.
  apply (returned_frame np) in Hrun
    as (sorted & h0 & ys & _ & _ & Hys & Hlen & Hpred & Hlater & _).
  pose proof (lookup_lt_Some _ _ _ Hi) as Hlt.
  destruct (Hlater i r ltac:(lia) Hi) as [(_ & _ & _ & He1 & He2) _].
  destruct (lookup_lt_is_Some_2 df (i - k)%nat) as [r' Hr']; [lia|].
  destruct (Hpred _ _ Hr') as (y & Hy & Hp).
  exists r', y. split; [exact Hr'|]. split; [exact Hp|].
  change (if (150 <=? y)%float then "Yes" else "No") with (is_extreme_pm25 y 150).
  rewrite <- (extreme_flag_buffer h0 ys i k y) by (assumption || lia).
  destruct Hk as [-> | ->]; [exact He1 | exact He2].
Qed.

Lemma build_future_dataframe_extreme_feedback_witness :
  exists ui' df r r' y,
    build_future_dataframe (np := Reference.numpy) (Some Sample.constant_model)
      Sample.wx_df Sample.aq_df (Some Sample.historical_weather_df) [] =
      (ui', Returned df) /\
    df !! 5%nat = Some r /\ df !! 3%nat = Some r' /\
    r' !! "PM2.5_pred" = Some (VFloat y) /\
    r !! "Extreme_Event_VMD_shift1" = Some (VStr (if (150 <=? y)%float then "Yes" else "No")).
Proof.
  destruct (build_future_dataframe_returns Reference.numpy Sample.constant_model
              Sample.wx_df Sample.aq_df (Some Sample.historical_weather_df) [])
    as (ui' & rows & Hrun & Hrows).
  { by_evaluation. }
  { intros idx df _. exists 10%float. reflexivity. }
  destruct (lookup_lt_is_Some_2 (pd_DataFrame rows) 5) as [r Hr].
  { rewrite length_pd_DataFrame, <- (Forall2_length _ _ _ Hrows), length_seq.
    unfold FORECAST_HOURS. lia. }
  destruct (build_future_dataframe_extreme_feedback Reference.numpy _ _ _ _ _ _ _ 5%nat
              2%nat r Hrun) as (r' & y & Hr' & Hy & Hflag).
  { now right. }
  { lia. }
  { exact Hr. }
  exists ([] ++ ui'), (pd_DataFrame rows), r, r', y. auto.
Defined.

(** X8: from the 24th forecast hour on, the rolling statistics of a returned
    frame are computed from predictions alone: in the row of hour
    [i >= 24] the rolling mean and the rolling standard deviation are
    those of the predictions of the 24 hours before, in order. *)
Theorem build_future_dataframe_rolling_feedback (np : Numpy)
    (model_file : option Model) (wx_df aq_df : DataFrame) (hist : option DataFrame)
    (ui ui' : list st_event) (df : DataFrame) (i : nat) (r : row) :
  build_future_dataframe model_file wx_df aq_df hist ui = (ui', Returned df) ->
  (24 <= i)%nat -> df !! i = Some r ->
  exists window : list float,
    Forall2 (fun (r' : row) y => r' !! "PM2.5_pred" = Some (VFloat y))
      (take 24 (drop (i - 24) df)) window /\
    length window = 24%nat /\
    r !! "pm2.5_roll24_mean" = Some (VFloat (np_mean window)) /\
    r !! "pm2.5_roll24_std" = Some (VFloat (np_std window)).
Proof.
  intros Hrun Hi24 Hi.
  apply (returned_frame np) in Hrun
    as (sorted & h0 & ys & _ & _ & Hys & Hlen & Hpred & Hlater & _).
  pose proof (lookup_lt_Some _ _ _ Hi) as Hlt.
  destruct (Hlater i r ltac:(lia) Hi) as [(_ & Hm & Hs & _) _].
  assert (Hall : Forall2 (fun (r' : row) y => r' !! "PM2.5_pred" = Some (VFloat y)) df ys).
  { apply Forall2_same_length_lookup_2; [congruence|].
    intros j r' y Hr' Hy. destruct (Hpred _ _ Hr') as (y' & Hy' & Hp). congruence. }
  assert (Hw : rolling_window (h0 ++ take i ys) = take 24 (drop (i - 24) ys)).
  { unfold rolling_window, tail_n. rewrite length_app, length_take.
    replace (length h0 + i `min` length ys - 24 `min` (length h0 + i `min` length ys))%nat
      with (length h0 + (i - 24))%nat by lia.
    rewrite drop_app_add, take_drop_commute. f_equal. f_equal. lia. }
  exists (take 24 (drop (i - 24) ys)).
  split; [now apply Forall2_take, Forall2_drop|].
  split; [rewrite length_take, length_drop; lia|].
  assert (Hlen2 : (2 <= length (h0 ++ take i ys))%nat)
    by (rewrite length_app, length_take; lia).
  unfold rolling_mean_cell, rolling_std_cell in Hm, Hs. rewrite Hw in Hm, Hs.
  destruct (h0 ++ take i ys) as [|a [|b l]]; cbn in Hlen2; try lia. auto.
Qed.

Lemma build_future_dataframe_rolling_feedback_witness :
  exists ui' df r window,
    build_future_dataframe (np := Reference.numpy) (Some Sample.constant_model)
      Sample.wx_df Sample.aq_df (Some Sample.historical_weather_df) [] =
      (ui', Returned df) /\
    df !! 40%nat = Some r /\
    Forall2 (fun (r' : row) y => r' !! "PM2.5_pred" = Some (VFloat y))
      (take 24 (drop 16 df)) window /\
    r !! "pm2.5_roll24_mean" = Some (VFloat (Reference.mean window)).
Proof.
  destruct (build_future_dataframe_returns Reference.numpy Sample.constant_model
              Sample.wx_df Sample.aq_df (Some Sample.historical_weather_df) [])
    as (ui' & rows & Hrun & Hrows).
  { by_evaluation. }
  { intros idx df _. exists 10%float. reflexivity. }
  destruct (lookup_lt_is_Some_2 (pd_DataFrame rows) 40) as [r Hr].
  { rewrite length_pd_DataFrame, <- (Forall2_length _ _ _ Hrows), length_seq.
    unfold FORECAST_HOURS. lia. }
  destruct (build_future_dataframe_rolling_feedback Reference.numpy _ _ _ _ _ _ _ 40%nat
              r Hrun) as (window & Hw & _ & Hm & _).
  { lia. }
  { exact Hr. }
  exists ([] ++ ui'), (pd_DataFrame rows), r, window. auto.
Defined.

Lemma build_future_dataframe_datetime_rows (np : Numpy) (model_file : option Model)
    (wx_df aq_df : DataFrame) (hist : option DataFrame) (ui ui' : list st_event)
    (df : DataFrame) :
  build_future_dataframe model_file wx_df aq_df hist ui = (ui', Returned df) ->
  length df = FORECAST_HOURS /\
  (exists r t, df !! 0%nat = Some r /\ r !! "datetime" = Some (VTime t)) /\
  forall i r, (1 <= i)%nat -> df !! i = Some r -> r !! "datetime" = Some (VFloat nan).
Proof.
  intros Hrun.
  apply (returned_frame np) in Hrun
    as (sorted & h0 & ys & _ & _ & Hys & Hlen & Hpred & Hlater & Hfirst).
  split; [exact Hlen|]. split.
  - destruct (lookup_lt_is_Some_2 df 0) as [r Hr]; [rewrite Hlen; unfold FORECAST_HOURS; lia|].
    destruct (Hfirst r Hr) as (_ & _ & wr & t & _ & _ & _ & Hwr & Ht & Hd). eauto.
  - intros i r Hi1 Hi. apply (Hlater i r Hi1 Hi).
Qed.

(** X9: only the first row of a returned frame has a datetime: it is the
    timestamp of the first weather row.  Every later row was built without
    that column and holds the missing cell there. *)
Theorem build_future_dataframe_datetime_first_row (np : Numpy)
    (model_file : option Model) (wx_df aq_df : DataFrame) (hist : option DataFrame)
    (ui ui' : list st_event) (df : DataFrame) :
  build_future_dataframe model_file wx_df aq_df hist ui = (ui', Returned df) ->
  (exists r wr t,
     df !! 0%nat = Some r /\ wx_df !! 0%nat = Some wr /\
     wr !! "time" = Some (VTime t) /\ r !! "datetime" = Some (VTime t)) /\
  forall i r, (1 <= i)%nat -> df !! i = Some r -> r !! "datetime" = Some (VFloat nan).
Proof.
  intros Hrun.
  apply (returned_frame np) in Hrun
    as (sorted & h0 & ys & _ & _ & Hys & Hlen & Hpred & Hlater & Hfirst).
  split.
  - destruct (lookup_lt_is_Some_2 df 0) as [r Hr]; [rewrite Hlen; unfold FORECAST_HOURS; lia|].
    destruct (Hfirst r Hr) as (_ & _ & wr & t & _ & _ & _ & Hwr & Ht & Hd).
    exists r, wr, t. auto.
  - intros i r Hi1 Hi. apply (Hlater i r Hi1 Hi).
Qed.

Lemma build_future_dataframe_datetime_first_row_witness :
  exists ui' df,
    build_future_dataframe (np := Reference.numpy) (Some Sample.constant_model)
      Sample.wx_df Sample.aq_df (Some Sample.historical_weather_df) [] =
      (ui', Returned df) /\
    (exists r, df !! 0%nat = Some r /\
               r !! "datetime" = Some (VTime (Sample.hour_stamp 0))) /\
    forall i r, (1 <= i)%nat -> df !! i = Some r -> r !! "datetime" = Some (VFloat nan).
Proof.
  destruct (build_future_dataframe_returns Reference.numpy Sample.constant_model
              Sample.wx_df Sample.aq_df (Some Sample.historical_weather_df) [])
    as (ui' & rows & Hrun & Hrows).
  { by_evaluation. }
  { intros idx df _. exists 10%float. reflexivity. }
  destruct (build_future_dataframe_datetime_first_row Reference.numpy _ _ _ _ _ _ _ Hrun)
    as [(r & wr & t & Hr & Hwr & Ht & Hd) Hlater].
  exists ([] ++ ui'), (pd_DataFrame rows). split; [exact Hrun|]. split; [|exact Hlater].
  exists r. split; [exact Hr|].
  change (Sample.wx_df !! 0%nat) with (Some (Sample.weather_row 0)) in Hwr.
  injection Hwr as <-.
  change (Sample.weather_row 0 !! "time") with (Some (VTime (Sample.hour_stamp 0))) in Ht.
  injection Ht as <-. exact Hd.
Defined.

(** ** The order of the air-quality rows *)

#[local] Instance key_le_trans : Transitive key_le.
Proof. intros a b c. unfold key_le. lia. Qed.
#[local] Instance key_le_total : Total key_le.
Proof. intros a b. unfold key_le. lia. Qed.

Lemma sort_key_instant (r : row) (z : Z) :
  (v ← getitem r "time"; t ← as_time v; Ok (ts_value t)) = Ok z <-> instant r = Some z.
Proof.
  unfold getitem, instant. destruct (r !! "time") as [[]|]; cbn; split; congruence.
Qed.

Lemma sort_keys_zip (df : DataFrame) (keys : list Z) :
  res_map (fun r => v ← getitem r "time"; t ← as_time v; Ok (ts_value t)) df = Ok keys ->
  zip keys df = keyed <$> df /\ Forall (fun r => is_Some (instant r)) df.
Proof.
  revert keys. induction df as [|r df IH]; intros keys H; cbn [res_map] in H.
  - injection H as <-. split; [reflexivity|constructor].
  - apply res_bind_Ok in H as (z & Hz & H). apply res_bind_Ok in H as (keys' & Hk & [= <-]).
    apply sort_key_instant in Hz. destruct (IH _ Hk) as [E Hall].
    split; [|constructor; eauto].
    cbn. rewrite E. unfold keyed at 2. now rewrite Hz.
Qed.

Lemma sort_keys_total (df : DataFrame) :
  Forall (fun r => is_Some (instant r)) df ->
  exists keys,
    res_map (fun r => v ← getitem r "time"; t ← as_time v; Ok (ts_value t)) df = Ok keys.
Proof.
  induction 1 as [|r df [z Hz] _ (keys & IH)]; cbn [res_map]; [eauto|].
  apply sort_key_instant in Hz. rewrite Hz, res_bind_ret, IH. eauto.
Qed.

(** [sort_values_time] as a sort of the keyed rows. *)
Lemma sort_values_time_keyed (df sorted : DataFrame) :
  sort_values_time df = Ok sorted <->
  Forall (fun r => is_Some (instant r)) df /\
  sorted = snd <$> merge_sort key_le (keyed <$> df).
Proof.
  unfold sort_values_time. split.
  - intros H. apply res_bind_Ok in H as (keys & Hkeys & [= <-]).
    apply sort_keys_zip in Hkeys as [-> Hall]. split; [exact Hall|reflexivity].
  - intros [Hall ->]. destruct (sort_keys_total df Hall) as (keys & Hkeys).
    rewrite Hkeys, res_bind_ret. apply sort_keys_zip in Hkeys as [-> _]. reflexivity.
Qed.

Lemma keyed_antisym (df : DataFrame) (x1 x2 : Z * row) :
  Forall (fun r => is_Some (instant r)) df -> NoDup (instant <$> df) ->
  x1 ∈ keyed <$> df -> x2 ∈ keyed <$> df -> key_le x1 x2 -> key_le x2 x1 -> x1 = x2.
Proof.
  intros Hall Hnd H1 H2 H12 H21.
  apply list_elem_of_fmap in H1 as (r1 & -> & Hr1).
  apply list_elem_of_fmap in H2 as (r2 & -> & Hr2).
  unfold key_le, keyed in H12, H21. cbn in H12, H21.
  rewrite Forall_forall in Hall.
  destruct (Hall r1 Hr1) as [z1 Hz1]. destruct (Hall r2 Hr2) as [z2 Hz2].
  rewrite Hz1, Hz2 in H12, H21. cbn in H12, H21.
  assert (Heq : instant r1 = instant r2) by (rewrite Hz1, Hz2; f_equal; lia).
  apply list_elem_of_lookup in Hr1 as (i & Hi). apply list_elem_of_lookup in Hr2 as (j & Hj).
  assert (i = j) as ->.
  { eapply NoDup_lookup; [exact Hnd| |]; rewrite list_lookup_fmap.
    - now rewrite Hi.
    - rewrite Hj. cbn. now rewrite Heq. }
  congruence.
Qed.

Lemma snd_keyed (df : DataFrame) : snd <$> (keyed <$> df) = df.
Proof. induction df as [|r df IH]; cbn; [reflexivity | now rewrite IH]. Qed.

(** With distinct instants the sorted frame does not depend on the order
    of the rows. *)
Lemma sort_values_time_Permutation (df df' : DataFrame) :
  df ≡ₚ df' -> Forall (fun r => is_Some (instant r)) df -> NoDup (instant <$> df) ->
  exists sorted, sort_values_time df = Ok sorted /\ sort_values_time df' = Ok sorted /\
                 sorted ≡ₚ df.
Proof.
  intros Hp Hall Hnd. exists (snd <$> merge_sort key_le (keyed <$> df)).
  split; [now apply sort_values_time_keyed|]. split.
  - apply sort_values_time_keyed. split; [now rewrite <- Hp|].
    f_equal. apply (StronglySorted_unique_strong key_le).
    + intros x1 x2 H1 H2. rewrite merge_sort_Permutation in H1, H2.
      rewrite <- Hp in H2. now apply (keyed_antisym df).
    + apply (StronglySorted_merge_sort _).
    + apply (StronglySorted_merge_sort _).
    + rewrite !merge_sort_Permutation. now rewrite Hp.
  - rewrite merge_sort_Permutation. now rewrite snd_keyed.
Qed.

(** Sorting a sorted frame changes nothing. *)
Lemma sort_values_time_idemp (df sorted : DataFrame) :
  NoDup (instant <$> df) -> sort_values_time df = Ok sorted ->
  sort_values_time sorted = Ok sorted.
Proof.
  intros Hnd Hs. pose proof Hs as Hs'.
  apply sort_values_time_keyed in Hs' as [Hall _].
  destruct (sort_values_time_Permutation df df (reflexivity _) Hall Hnd)
    as (s & H1 & _ & Hperm).
  assert (s = sorted) as -> by congruence.
  destruct (sort_values_time_Permutation df sorted (symmetry Hperm) Hall Hnd)
    as (s' & H1' & H2' & _).
  congruence.
Qed.

Lemma has_time_instant (df : DataFrame) :
  forallb has_time df = true -> Forall (fun r => is_Some (instant r)) df.
Proof.
  intros H. apply Forall_forall. intros r Hr.
  rewrite forallb_forall in H. specialize (H r (proj1 (list_elem_of_In _ _) Hr)).
  apply has_time_Some in H as (t & Ht). unfold instant. rewrite Ht. eauto.
Qed.

(** X10: with a timestamp in every air-quality row and no timestamp twice, the
    order in which the rows arrive does not matter: the run on a permuted
    frame shows the same messages and ends in the same way, with the same
    frame if it returns one. *)
Theorem build_future_dataframe_row_order (np : Numpy) (model_file : option Model)
    (wx_df aq_df aq_df' : DataFrame) (hist : option DataFrame) (ui : list st_event) :
  aq_df ≡ₚ aq_df' -> forallb has_time aq_df = true -> NoDup (instant <$> aq_df) ->
  build_future_dataframe model_file wx_df aq_df' hist ui =
    build_future_dataframe model_file wx_df aq_df hist ui.
Proof.
  intros Hp Hall Hnd.
  destruct (sort_values_time_Permutation aq_df aq_df' Hp (has_time_instant _ Hall) Hnd)
    as (sorted & H1 & H2 & _).
  unfold build_future_dataframe. now rewrite H1, H2.
Qed.

Lemma build_future_dataframe_row_order_witness :
  build_future_dataframe (np := Reference.numpy) (Some Sample.constant_model)
    Sample.wx_df (reverse Sample.aq_df) (Some Sample.historical_weather_df) [] =
  build_future_dataframe (np := Reference.numpy) (Some Sample.constant_model)
    Sample.wx_df Sample.aq_df (Some Sample.historical_weather_df) [].
Proof.
  apply build_future_dataframe_row_order.
  - symmetry. apply reverse_Permutation.
  - by_evaluation.
  - apply (bool_decide_eq_true_1 (NoDup _)). by_evaluation.
Defined.

Lemma App_bind_ext {A B} (m : App A) (k k' : A -> App B) (ui : list st_event) :
  (forall a ui1, k a ui1 = k' a ui1) -> (m ≫= k) ui = (m ≫= k') ui.
Proof. intros H. unfold mbind, App_bind. destruct (m ui) as [ui1 [a|e|]]; auto. Qed.

Lemma App_bind_cong {A B} (m m' : App A) (k : A -> App B) (ui : list st_event) :
  m ui = m' ui -> (m ≫= k) ui = (m' ≫= k) ui.
Proof. intros H. unfold mbind, App_bind. now rewrite H. Qed.

Lemma for_each_ext {S} (body body' : nat -> S -> App S) (idxs : list nat) :
  (forall idx s ui, body idx s ui = body' idx s ui) ->
  forall s ui, for_each body idxs s ui = for_each body' idxs s ui.
Proof.
  intros Hext. induction idxs as [|idx idxs IH]; intros s ui; cbn [for_each];
    [reflexivity|].
  unfold mbind, App_bind. rewrite Hext.
  destruct (body' idx s ui) as [ui1 [s1|e|]]; auto.
Qed.

(** The first step reads the same buffer as the loop: on a sorted frame
    [prepare_features] sorts to no effect. *)
Lemma prepare_features_sorted (np : Numpy) (wx_df aq_df sorted : DataFrame) hist :
  NoDup (instant <$> aq_df) -> sort_values_time aq_df = Ok sorted ->
  prepare_features wx_df sorted hist = prepare_features wx_df aq_df hist.
Proof.
  intros Hnd Hs. unfold prepare_features.
  now rewrite (sort_values_time_idemp _ _ Hnd Hs), Hs.
Qed.

(** X11: the air-quality frame enters the run only through the last 24 PM2.5
    readings in time order: two frames, each with distinct timestamps,
    that sort to the same last readings give the same run. *)
Theorem build_future_dataframe_history_window (np : Numpy) (model_file : option Model)
    (wx_df aq_df aq_df' sorted sorted' : DataFrame) (hist : option DataFrame)
    (ui : list st_event) :
  NoDup (instant <$> aq_df) -> NoDup (instant <$> aq_df') ->
  sort_values_time aq_df = Ok sorted -> sort_values_time aq_df' = Ok sorted' ->
  pm25_tail sorted = pm25_tail sorted' ->
  build_future_dataframe model_file wx_df aq_df hist ui =
    build_future_dataframe model_file wx_df aq_df' hist ui.
Proof.
  intros Hnd Hnd' Hs Hs' Htail.
  assert (Hprep : forall wx, prepare_features wx sorted hist = prepare_features wx sorted' hist).
  { intros wx. unfold prepare_features.
    rewrite (sort_values_time_idemp _ _ Hnd Hs), (sort_values_time_idemp _ _ Hnd' Hs').
    rewrite !res_bind_ret. now rewrite Htail. }
  unfold build_future_dataframe. rewrite Hs, Hs'. rewrite !App_bind_lift_Ok.
  rewrite Htail. apply App_bind_ext. intros h0 ui1.
  apply App_bind_ext. intros model ui2.
  apply App_bind_cong. apply for_each_ext.
  intros idx [h rows] ui3. unfold forecast_step.
  case_decide; [|reflexivity].
  apply App_bind_ext. intros wx_first ui4. now rewrite Hprep.
Qed.

Lemma build_future_dataframe_history_window_witness :
  build_future_dataframe (np := Reference.numpy) (Some Sample.constant_model)
    Sample.wx_df Sample.aq_df (Some Sample.historical_weather_df) [] =
  build_future_dataframe (np := Reference.numpy) (Some Sample.constant_model)
    Sample.wx_df (drop 3 Sample.aq_df) (Some Sample.historical_weather_df) [].
Proof.
  pose (s := sort_values_time Sample.aq_df).
  pose (s' := sort_values_time (drop 3 Sample.aq_df)).
  apply (build_future_dataframe_history_window Reference.numpy _ _ _ _
           (match s with Ok d => d | Raise _ => [] end)
           (match s' with Ok d => d | Raise _ => [] end)).
  - apply (bool_decide_eq_true_1 (NoDup _)). by_evaluation.
  - apply (bool_decide_eq_true_1 (NoDup _)). by_evaluation.
  - by_evaluation.
  - by_evaluation.
  - by_evaluation.
Defined.

(** X12: a lag that reaches before the first forecast hour reads the observed
    readings: with distinct timestamps in the air-quality frame, [h0] its
    last 24 readings in time order and [i < k <= length h0 + i], the cell
    pm2.5_lag<k> of the row of hour [i] is the reading [k - i] places
    before the end of [h0]. *)
Theorem build_future_dataframe_lag_observed (np : Numpy) (model_file : option Model)
    (wx_df aq_df sorted : DataFrame) (hist : option DataFrame) (ui ui' : list st_event)
    (df : DataFrame) (h0 : list float) (i k : nat) (r : row) :
  NoDup (instant <$> aq_df) ->
  build_future_dataframe model_file wx_df aq_df hist ui = (ui', Returned df) ->
  sort_values_time aq_df = Ok sorted -> pm25_tail sorted = Ok h0 ->
  k ∈ lag_periods -> (i < k <= length h0 + i)%nat -> df !! i = Some r ->
  exists x,
    h0 !! (length h0 + i - k)%nat = Some x /\ r !! lag_column k = Some (VFloat x).
Proof.
  intros Hnd Hrun Hs Hh0 Hk Hki Hi.
  apply (returned_frame np) in Hrun
    as (sorted1 & h1 & ys & Hs1 & Hh1 & Hys & Hlen & Hpred & Hlater & Hfirst).
  assert (sorted1 = sorted) as -> by congruence.
  assert (h1 = h0) as -> by congruence.
  pose proof (lookup_lt_Some _ _ _ Hi) as Hlt.
  assert (Hcells : history_cells np (h0 ++ take i ys) r).
  { destruct i as [|i].
    - destruct (Hfirst r Hi) as (s' & h' & _ & _ & Hs' & Hh' & Hc & _).
      rewrite (sort_values_time_idemp _ _ Hnd Hs) in Hs'. injection Hs' as <-.
      assert (h' = h0) as -> by congruence. now rewrite app_nil_r.
    - apply (Hlater (S i) r); [lia | exact Hi]. }
  destruct Hcells as (Hlag & _).
  destruct (Hlag k Hk) as (x & Hx & Hcell).
  destruct (lag_feature_enough (h0 ++ take i ys) k) as (x' & Hx' & Hf).
  { rewrite length_app, length_take. lia. }
  rewrite Hf in Hx. injection Hx as ->.
  exists x. split; [|exact Hcell].
  rewrite length_app, length_take, Nat.min_l in Hx' by lia.
  rewrite lookup_app_l in Hx' by lia. exact Hx'.
Qed.

Lemma build_future_dataframe_lag_observed_witness :
  exists ui' df r,
    build_future_dataframe (np := Reference.numpy) (Some Sample.constant_model)
      Sample.wx_df Sample.aq_df (Some Sample.historical_weather_df) [] =
      (ui', Returned df) /\
    df !! 2%nat = Some r /\ r !! "pm2.5_lag3" = Some (VFloat 29).
Proof.
  destruct (build_future_dataframe_returns Reference.numpy Sample.constant_model
              Sample.wx_df Sample.aq_df (Some Sample.historical_weather_df) [])
    as (ui' & rows & Hrun & Hrows).
  { by_evaluation. }
  { intros idx df _. exists 10%float. reflexivity. }
  destruct (lookup_lt_is_Some_2 (pd_DataFrame rows) 2) as [r Hr].
  { rewrite length_pd_DataFrame, <- (Forall2_length _ _ _ Hrows), length_seq.
    unfold FORECAST_HOURS. lia. }
  pose (s := sort_values_time Sample.aq_df).
  pose (h := pm25_tail (match s with Ok d => d | Raise _ => [] end)).
  destruct (build_future_dataframe_lag_observed Reference.numpy
              (Some Sample.constant_model) Sample.wx_df Sample.aq_df
              (match s with Ok d => d | Raise _ => [] end)
              (Some Sample.historical_weather_df) [] ([] ++ ui') (pd_DataFrame rows)
              (match h with Ok l => l | Raise _ => [] end) 2%nat 3%nat r)
    as (x & Hx & Hcell).
  - apply (bool_decide_eq_true_1 (NoDup _)). by_evaluation.
  - exact Hrun.
  - by_evaluation.
  - by_evaluation.
  - unfold lag_periods. repeat first [apply list_elem_of_here | apply list_elem_of_further].
  - split; [lia|]. apply Nat.leb_le. by_evaluation.
  - exact Hr.
  - exists ([] ++ ui'), (pd_DataFrame rows), r. split; [exact Hrun|]. split; [exact Hr|].
    assert (Hx29 : match h with Ok l => l | Raise _ => [] end
                     !! (length (match h with Ok l => l | Raise _ => [] end) + 2 - 3)%nat
                   = Some 29%float) by by_evaluation.
    rewrite Hx29 in Hx. injection Hx as <-. exact Hcell.
Defined.

(** ** Runs that do not return a frame *)

(** X13: without the model file the run ends at once: the readings are sorted
    and read, the error is shown and the script stops.  No weather row is
    looked at, whatever the weather frame is. *)
Theorem build_future_dataframe_model_missing (np : Numpy) (wx_df aq_df : DataFrame)
    (hist : option DataFrame) (ui : list st_event) :
  forallb valid_air_quality_row aq_df = true ->
  build_future_dataframe None wx_df aq_df hist ui =
    (ui ++ [st_error "Model file not found – upload rf_pm25_model.pkl"], Stopped).
Proof.
  intros Haq.
  destruct (sort_values_time_valid aq_df Haq) as (sorted & Hsorted & Hsv).
  destruct (pm25_tail_valid sorted Hsv) as (history & Hhistory).
  unfold build_future_dataframe. rewrite Hsorted. app_step.
  rewrite Hhistory. app_step. reflexivity.
Qed.

Lemma build_future_dataframe_model_missing_witness :
  build_future_dataframe (np := Reference.numpy) None [] Sample.aq_df None [] =
    ([] ++ [st_error "Model file not found – upload rf_pm25_model.pkl"], Stopped).
Proof. apply build_future_dataframe_model_missing. by_evaluation. Defined.

Lemma App_bind_assoc {A B C} (m : App A) (k1 : A -> App B) (k2 : B -> App C)
    (ui : list st_event) :
  ((m ≫= k1) ≫= k2) ui = (m ≫= fun a => k1 a ≫= k2) ui.
Proof. unfold mbind, App_bind. destruct (m ui) as [ui1 [a|e|]]; reflexivity. Qed.

Lemma for_each_app {S} (body : nat -> S -> App S) (l1 l2 : list nat) (s : S)
    (ui : list st_event) :
  for_each body (l1 ++ l2) s ui = (s' ← for_each body l1 s; for_each body l2 s') ui.
Proof.
  revert s ui. induction l1 as [|idx l1 IH]; intros s ui; cbn [app for_each].
  - reflexivity.
  - rewrite App_bind_assoc. apply App_bind_ext. intros s1 ui1. apply IH.
Qed.

Lemma App_bind_lift_Raise {A B} (e : exn) (k : A -> App B) (ui : list st_event) :
  (lift (Raise e) ≫= k) ui = (ui, Raised e).
Proof. reflexivity. Qed.

(** The step at the first index past the weather frame raises. *)
Lemma forecast_step_past_end (np : Numpy) (model : Model) (wx_df aq_df : DataFrame) hist
    (idx : nat) (state : list float * list row) (ui : list st_event) :
  (length wx_df <= idx)%nat ->
  exists e, forecast_step model wx_df aq_df hist idx state ui = (ui, Raised e) /\
            exn_type e = "IndexError".
Proof.
  intros Hlen. destruct state as [history rows]. unfold forecast_step.
  case_decide.
  - unfold iloc_frame. rewrite lookup_ge_None_2 by exact Hlen.
    rewrite App_bind_lift_Raise. eauto.
  - unfold next_features, iloc. rewrite lookup_ge_None_2 by exact Hlen.
    change (Raise ?e ≫= ?k) with (@Raise DataFrame e).
    rewrite App_bind_lift_Raise. eauto.
Qed.

Lemma App_bind_Raised {A B} (m : App A) (k : A -> App B) ui ui' e :
  m ui = (ui', Raised e) -> (m ≫= k) ui = (ui', Raised e).
Proof. intros H. unfold mbind, App_bind. now rewrite H. Qed.

(** X14: a weather frame of fewer than 72 well-formed rows: the run makes one
    step per row, then the next step indexes past the end of the frame
    and the run raises IndexError.  No frame is returned, although every
    prediction succeeded. *)
Theorem build_future_dataframe_short_weather (np : Numpy) (model : Model)
    (wx_df aq_df : DataFrame) (hist : option DataFrame) (ui : list st_event) :
  (length wx_df < FORECAST_HOURS)%nat ->
  forallb valid_weather_row wx_df = true ->
  forallb valid_air_quality_row aq_df = true ->
  match hist with
  | Some historical => forallb valid_historical_row historical = true
  | None => True
  end ->
  (forall idx df, exists y, model idx df = PredValue y) ->
  exists ui' e,
    build_future_dataframe (Some model) wx_df aq_df hist ui = (ui ++ ui', Raised e) /\
    exn_type e = "IndexError".
Proof.
  intros Hlen Hwx Haq Hhist Hmodel.
  destruct (sort_values_time_valid aq_df Haq) as (sorted & Hsorted & Hsv).
  destruct (pm25_tail_valid sorted Hsv) as (history & Hhistory).
  destruct (for_each_values np model wx_df sorted hist Hwx Hsv Hhist (length wx_df)
              0%nat history [] ui) as (ui' & history' & rows & Hloop & _).
  { cbn. lia. }
  { intros idx df _. apply Hmodel. }
  destruct (forecast_step_past_end np model wx_df sorted hist (length wx_df)
              (history', [] ++ rows) (ui ++ ui') (le_n _)) as (e & Hstep & He).
  exists ui', e. split; [|exact He].
  unfold build_future_dataframe. rewrite Hsorted. app_step.
  rewrite Hhistory. app_step. unfold load_model. app_step.
  apply App_bind_Raised.
  replace (seq 0 FORECAST_HOURS)
    with (seq 0 (length wx_df) ++ seq (length wx_df) (FORECAST_HOURS - length wx_df)).
  2:{ rewrite <- seq_app. f_equal. lia. }
  rewrite for_each_app. rewrite (App_bind_Returned _ _ _ _ _ Hloop).
  destruct (FORECAST_HOURS - length wx_df)%nat as [|m] eqn:Hm; [lia|].
  cbn [seq for_each]. now apply App_bind_Raised.
Qed.

Lemma build_future_dataframe_short_weather_witness :
  exists ui' e,
    build_future_dataframe (np := Reference.numpy) (Some Sample.constant_model)
      (take 48 Sample.wx_df) Sample.aq_df (Some Sample.historical_weather_df) [] =
      ([] ++ ui', Raised e) /\
    exn_type e = "IndexError".
Proof.
  apply build_future_dataframe_short_weather.
  - apply Nat.ltb_lt. by_evaluation.
  - by_evaluation.
  - by_evaluation.
  - by_evaluation.
  - intros idx df. exists 10%float. reflexivity.
Defined.

(** The copy of the weather columns of one row never raises; it takes the
    columns the row has. *)
Lemma copy_weather_columns_row (cols : list string) (wr r : row) :
  exists r1, copy_weather_columns cols [wr] [r] = Ok [r1] /\
    forall c, r1 !! c = if decide (c ∈ cols /\ is_Some (wr !! c)) then wr !! c else r !! c.
Proof.
  revert r. induction cols as [|col cols IH]; intros r; cbn [copy_weather_columns].
  - exists r. split; [reflexivity|]. intros c. rewrite decide_False; [reflexivity|].
    intros [Hc _]. inversion Hc.
  - destruct (wr !! col) as [v|] eqn:Hv.
    + rewrite decide_True by (cbn; apply elem_of_dom; eauto).
      rewrite (column_singleton _ _ _ Hv), res_bind_ret, set_column_singleton, res_bind_ret.
      destruct (IH (<[col := v]> r)) as (r1 & -> & Hr1).
      exists r1. split; [reflexivity|]. intros c. rewrite Hr1.
      destruct (decide (c ∈ cols /\ is_Some (wr !! c))) as [[Hc Hs]|Hn].
      * rewrite decide_True; [reflexivity|]. split; [now right|exact Hs].
      * destruct (decide (c = col)) as [->|Hne].
        -- rewrite lookup_insert_eq, decide_True; [now rewrite Hv|].
           split; [left|rewrite Hv; eauto].
        -- rewrite lookup_insert_ne by congruence.
           rewrite decide_False; [reflexivity|].
           intros [Hc Hs]. apply Hn. split; [|exact Hs].
           apply elem_of_cons in Hc as [?|?]; [contradiction|assumption].
    + rewrite decide_False by (cbn; rewrite elem_of_dom, Hv; intros [? ?]; discriminate).
      destruct (IH r) as (r1 & -> & Hr1).
      exists r1. split; [reflexivity|]. intros c. rewrite Hr1.
      destruct (decide (c ∈ cols /\ is_Some (wr !! c))) as [[Hc Hs]|Hn].
      * rewrite decide_True; [reflexivity|]. split; [now right|exact Hs].
      * rewrite decide_False; [reflexivity|].
        intros [Hc Hs]. apply Hn. split; [|exact Hs].
        apply elem_of_cons in Hc as [->|?]; [|assumption].
        rewrite Hv in Hs. destruct Hs as [? [=]].
Qed.

Lemma row_wind_components_missing (np : Numpy) (r : row) (c : string) :
  c ∈ ["WindSpeed"; "WindDir"] -> r !! c = None ->
  exists e, row_wind_components r = Raise e /\ exn_type e = "KeyError".
Proof.
  intros Hc Hr. unfold row_wind_components, getitem.
  destruct (r !! "WindSpeed") as [ws|] eqn:Hws; [|cbn; eauto].
  rewrite res_bind_ret.
  destruct (r !! "WindDir") as [wd|] eqn:Hwd; [|cbn; eauto].
  apply elem_of_cons in Hc as [->|Hc]; [congruence|].
  apply elem_of_cons in Hc as [->|Hc]; [congruence|]. inversion Hc.
Qed.

(** X15: a weather frame without a wind column: the first step raises KeyError
    while it derives the wind components.  The model is loaded but never
    called, nothing is shown, and no frame is returned.  The other
    weather columns may be present or missing. *)
Theorem build_future_dataframe_wind_missing (np : Numpy) (model : Model)
    (wx_df aq_df : DataFrame) (hist : option DataFrame) (ui : list st_event)
    (wr : row) (c : string) :
  forallb valid_air_quality_row aq_df = true ->
  wx_df !! 0%nat = Some wr -> has_time wr = true ->
  c ∈ ["WindSpeed"; "WindDir"] -> wr !! c = None ->
  exists e,
    build_future_dataframe (Some model) wx_df aq_df hist ui = (ui, Raised e) /\
    exn_type e = "KeyError".
Proof.
  intros Haq Hwr Htime Hc Hmiss.
  destruct (sort_values_time_valid aq_df Haq) as (sorted & Hsorted & Hsv).
  destruct (pm25_tail_valid sorted Hsv) as (history & Hhistory).
  destruct (sort_values_time_valid sorted Hsv) as (sorted' & Hsorted' & Hsv').
  destruct (pm25_tail_valid sorted' Hsv') as (history' & Hhistory').
  apply has_time_Some in Htime as (t & Ht).
  destruct (copy_weather_columns_row WEATHER_RENAME_values wr {["time" := VTime t]})
    as (r1 & Hr1 & Hcells).
  assert (Hr1t : r1 !! "time" = Some (VTime t)).
  { rewrite Hcells, decide_False; [apply lookup_singleton_eq|].
    intros [Hin _]. revert Hin. unfold WEATHER_RENAME_values. column_not_in. }
  assert (Hr1c : time_features t r1 !! c = None).
  { rewrite time_features_agree.
    - rewrite Hcells. case_decide as Hd.
      + exact Hmiss.
      + apply lookup_singleton_ne.
        intros <-. apply elem_of_cons in Hc as [?|Hc]; [discriminate|].
        apply elem_of_cons in Hc as [?|Hc]; [discriminate|]. inversion Hc.
    - intros Hin. apply elem_of_cons in Hc as [->|Hc]; [revert Hin; column_not_in|].
      apply elem_of_cons in Hc as [->|Hc]; [revert Hin; column_not_in|]. inversion Hc. }
  destruct (row_wind_components_missing np _ c Hc Hr1c) as (e & He & Hty).
  exists e. split; [|exact Hty].
  unfold build_future_dataframe. rewrite Hsorted. app_step.
  rewrite Hhistory. app_step. unfold load_model. app_step.
  apply App_bind_Raised. change (seq 0 FORECAST_HOURS) with (0%nat :: seq 1 71).
  cbn [for_each]. apply App_bind_Raised.
  unfold forecast_step. rewrite decide_True by reflexivity.
  unfold iloc_frame. rewrite Hwr. app_step.
  assert (Hprep : prepare_features [wr] sorted hist = Raise e).
  { unfold prepare_features. rewrite Hsorted', res_bind_ret. cbv beta.
    rewrite Hhistory', res_bind_ret. cbv beta.
    rewrite (column_singleton "time" wr _ Ht), res_bind_ret. cbv beta.
    cbn [fmap list_fmap]. rewrite Hr1, res_bind_ret. cbv beta.
    rewrite (add_time_features_single r1 t Hr1t), res_bind_ret. cbv beta.
    unfold add_weather_features. cbn [res_map]. rewrite He. reflexivity. }
  rewrite Hprep. reflexivity.
Qed.

Lemma build_future_dataframe_wind_missing_witness :
  exists e,
    build_future_dataframe (np := Reference.numpy) (Some Sample.constant_model)
      (delete "WindDir" <$> Sample.wx_df) Sample.aq_df None [] = ([], Raised e) /\
    exn_type e = "KeyError".
Proof.
  apply (build_future_dataframe_wind_missing Reference.numpy Sample.constant_model
           (delete "WindDir" <$> Sample.wx_df) Sample.aq_df None []
           (delete "WindDir" (Sample.weather_row 0)) "WindDir").
  - by_evaluation.
  - reflexivity.
  - by_evaluation.
  - apply list_elem_of_further, list_elem_of_here.
  - apply lookup_delete_eq.
Defined.

(** ** The messages of a run *)

Lemma history_cells_dom (np : Numpy) (history : list float) (r : row) (c : string) :
  history_cells np history r -> c ∈ history_columns -> is_Some (r !! c).
Proof.
  intros (Hlag & Hm & Hs & He1 & He2) Hc.
  assert (Hl : forall k, k ∈ lag_periods -> is_Some (r !! lag_column k)).
  { intros k Hk. destruct (Hlag k Hk) as (x & _ & ->). eauto. }
  assert (Hin : forall k, bool_decide (k ∈ lag_periods) = true -> k ∈ lag_periods)
    by (intros k; apply bool_decide_eq_true_1).
  unfold history_columns in Hc.
  repeat (apply elem_of_cons in Hc as [->|Hc];
          [first [ eexists; eassumption
                 | exact (Hl 1%nat (Hin 1%nat eq_refl)) | exact (Hl 2%nat (Hin 2%nat eq_refl))
                 | exact (Hl 3%nat (Hin 3%nat eq_refl)) | exact (Hl 6%nat (Hin 6%nat eq_refl))
                 | exact (Hl 12%nat (Hin 12%nat eq_refl)) | exact (Hl 24%nat (Hin 24%nat eq_refl)) ]|]).
  inversion Hc.
Qed.

(** X16: a run that returns has shown exactly two messages, both at step 0:
    the debug header and the column names of the first feature frame.
    The names include time, datetime and the ten history columns; the
    prediction column is not among them, being written after the
    message. *)
Theorem build_future_dataframe_messages (np : Numpy) (model_file : option Model)
    (wx_df aq_df : DataFrame) (hist : option DataFrame) (ui ui' : list st_event)
    (df : DataFrame) :
  build_future_dataframe model_file wx_df aq_df hist ui = (ui', Returned df) ->
  exists cols : gset string,
    ui' = ui ++ [st_write "Debug info - Features available:"; st_write_columns cols] /\
    "time" ∈ cols /\ "datetime" ∈ cols /\ ("PM2.5_pred" ∉ cols) /\
    forall c, c ∈ history_columns -> c ∈ cols.
Proof.
  intros Hrun.
  apply (build_future_dataframe_inv np) in Hrun
    as (model & sorted & h0 & ys & rows & _ & _ & _ & _ & _ & _ & r0 & Hr0 & ->).
  exists (columns [r0]). split; [reflexivity|].
  unfold step_features in Hr0. rewrite decide_True in Hr0 by reflexivity.
  apply res_bind_Ok in Hr0 as (wx_first & Hfirst & Hr0).
  unfold iloc_frame in Hfirst. destruct (wx_df !! 0%nat) as [wr|]; [|discriminate].
  injection Hfirst as <-.
  apply (prepare_features_inv np) in Hr0
    as (sorted' & h0' & t & r1 & _ & _ & _ & [= ->] & Hagree & Hcells).
  cbn [columns]. rewrite dom_insert_L.
  assert (Ht : r1 !! "time" = Some (VTime t)).
  { rewrite (Hagree "time" time_not_derived). apply lookup_singleton_eq. }
  assert (Hp : r1 !! "PM2.5_pred" = None).
  { eapply (agree_outside_None _ _ _ _ Hagree); [|reflexivity].
    unfold derived_columns, WEATHER_RENAME_values, time_columns,
      weather_feature_columns, history_columns. cbn [app]. column_not_in. }
  split; [|split; [|split]].
  - apply elem_of_union_r, elem_of_dom. eauto.
  - apply elem_of_union_l, elem_of_singleton. reflexivity.
  - intros Hin. apply elem_of_union in Hin as [Hin|Hin].
    + apply elem_of_singleton in Hin. discriminate.
    + apply elem_of_dom in Hin as [? Hin]. congruence.
  - intros c Hc. apply elem_of_union_r, elem_of_dom.
    now apply (history_cells_dom np h0' r1).
Qed.

Lemma build_future_dataframe_messages_witness :
  exists ui' df cols,
    build_future_dataframe (np := Reference.numpy) (Some Sample.constant_model)
      Sample.wx_df Sample.aq_df (Some Sample.historical_weather_df) [] =
      (ui', Returned df) /\
    ui' = [st_write "Debug info - Features available:"; st_write_columns cols] /\
    "datetime" ∈ cols /\ ("PM2.5_pred" ∉ cols).
Proof.
  destruct (build_future_dataframe_returns Reference.numpy Sample.constant_model
              Sample.wx_df Sample.aq_df (Some Sample.historical_weather_df) [])
    as (ui' & rows & Hrun & Hrows).
  { by_evaluation. }
  { intros idx df _. exists 10%float. reflexivity. }
  destruct (build_future_dataframe_messages Reference.numpy _ _ _ _ _ _ _ Hrun)
    as (cols & Hui & _ & Hd & Hp & _).
  exists ([] ++ ui'), (pd_DataFrame rows), cols. auto.
Defined.

(** ** The summary of a forecast *)

Lemma idxmax_from_range (l : list float) (i : nat) (best : option (nat * float))
    (j : nat) (x : float) :
  idxmax_from l i best = Some (j, x) ->
  best = Some (j, x) \/ (i <= j < i + length l)%nat.
Proof.
  revert i best. induction l as [|y l IH]; intros i best H; cbn [idxmax_from] in H.
  - now left.
  - cbn [length].
    destruct (is_nan y).
    { apply IH in H as [H|H]; [now left | right; lia]. }
    destruct best as [[bi b]|].
    + destruct (b <? y)%float.
      * apply IH in H as [[= <- <-]|H]; right; lia.
      * apply IH in H as [H|H]; [now left | right; lia].
    + apply IH in H as [[= <- <-]|H]; right; lia.
Qed.

Lemma idxmax_lt (l : list float) (i : nat) : idxmax l = Ok i -> (i < length l)%nat.
Proof.
  unfold idxmax. destruct (idxmax_from l 0 None) as [[j x]|] eqn:E; [|discriminate].
  intros [= <-]. apply idxmax_from_range in E as [E|E]; [discriminate | lia].
Qed.

Lemma column_Forall2 (k : string) (df : DataFrame) (vs : list value) :
  Forall2 (fun (r : row) v => r !! k = Some v) df vs -> column k df = Ok vs.
Proof.
  unfold column. induction 1 as [|r v df vs Hr _ IH]; cbn [res_map]; [reflexivity|].
  assert (Hg : getitem r k = Ok v) by (unfold getitem; now rewrite Hr).
  now rewrite Hg, res_bind_ret, IH.
Qed.

Lemma res_map_as_float_VFloat (ys : list float) : res_map as_float (VFloat <$> ys) = Ok ys.
Proof. induction ys as [|y ys IH]; cbn; [reflexivity | now rewrite IH]. Qed.

Lemma apply_aqi_VFloat (ys : list float) :
  apply_aqi (VFloat <$> ys) = Ok (pm25_to_aqi_category <$> ys).
Proof.
  unfold apply_aqi. induction ys as [|y ys IH]; cbn; [reflexivity | now rewrite IH].
Qed.

Lemma loc_lookup (df : DataFrame) (i : nat) (k : string) (r : row) (v : value) :
  df !! i = Some r -> r !! k = Some v -> loc df i k = Ok v.
Proof. intros Hr Hv. unfold loc, getitem. now rewrite Hr, Hv. Qed.

Section SummaryRun.
Context (today tomorrow : Z * Z * Z).
Context (df_future : nat) (h : heap) (df : DataFrame) (preds : list float).
Hypothesis Hh : h !! df_future = Some df.
Hypothesis Hne : df <> [].
Hypothesis Hpreds :
  Forall2 (fun (r : row) y => r !! "PM2.5_pred" = Some (VFloat y)) df preds.

Lemma with_aqi_lookup (i : nat) (r : row) (y : float) :
  df !! i = Some r -> preds !! i = Some y ->
  (with_aqi df preds) !! i = Some (<["aqi_color" := VStr (pm25_to_aqi_category y).2]>
                          (<["aqi_category" := VStr (pm25_to_aqi_category y).1]> r)).
Proof.
  intros Hr Hy. unfold with_aqi.
  rewrite !lookup_zip_with, Hr, !list_lookup_fmap, Hy. reflexivity.
Qed.

Lemma with_aqi_predictions :
  Forall2 (fun (r : row) y => r !! "PM2.5_pred" = Some (VFloat y)) (with_aqi df preds) preds.
Proof.
  pose proof (Forall2_length _ _ _ Hpreds) as Hlen.
  apply Forall2_same_length_lookup_2.
  { unfold with_aqi. rewrite !length_zip_with, !length_fmap. lia. }
  intros i r2 y Hr2 Hy.
  destruct (lookup_lt_is_Some_2 df i) as [r Hr];
    [rewrite Hlen; eapply lookup_lt_Some, Hy|].
  rewrite (with_aqi_lookup i r y Hr Hy) in Hr2. injection Hr2 as <-.
  rewrite !lookup_insert_ne by discriminate.
  exact (Forall2_lookup_lr _ _ _ _ _ _ Hpreds Hr Hy).
Qed.

(** The call writes the two columns and then reads the worst hour. *)
Lemma generate_forecast_summary_run :
  generate_forecast_summary today tomorrow df_future h =
    (<[df_future := (with_aqi df preds)]>
       (<[df_future :=
            zip_with (fun (r : row) v => <["aqi_category" := v]> r) df
              ((fun c : string * string => VStr c.1) <$> (pm25_to_aqi_category <$> preds))]> h),
     summary_text today tomorrow (with_aqi df preds)).
Proof.
  pose proof (Forall2_length _ _ _ Hpreds) as Hlen.
  assert (Hempty : df_empty df = false).
  { unfold df_empty. apply orb_false_intro; apply bool_decide_eq_false; [exact Hne|].
    destruct Hpreds as [|r y df' preds' Hr _]; [congruence|]. cbn [columns].
    intros E. assert (Hin : "PM2.5_pred" ∈ dom r) by (apply elem_of_dom; eauto).
    rewrite E in Hin. inversion Hin. }
  unfold generate_forecast_summary. rewrite Hh, Hempty.
  rewrite (column_Forall2 "PM2.5_pred" df (VFloat <$> preds))
    by (apply Forall2_fmap_r; exact Hpreds).
  rewrite res_bind_ret, apply_aqi_VFloat.
  rewrite set_column_same_length by (rewrite !length_fmap; lia).
  rewrite set_column_same_length
    by (rewrite length_zip_with, !length_fmap; lia).
  reflexivity.
Qed.

(** With a timestamp at the worst hour the reading part returns a text. *)
Lemma summary_text_returns (i : nat) (r : row) (t : Timestamp) :
  idxmax preds = Ok i -> df !! i = Some r -> r !! "datetime" = Some (VTime t) ->
  exists s, summary_text today tomorrow (with_aqi df preds) = Ok s.
Proof.
  intros Hi Hr Ht.
  pose proof (Forall2_length _ _ _ Hpreds) as Hlen.
  destruct (lookup_lt_is_Some_2 preds i) as [y Hy]; [rewrite <- Hlen; eapply lookup_lt_Some, Hr|].
  pose proof (with_aqi_lookup i r y Hr Hy) as Hr2.
  unfold summary_text.
  rewrite (column_Forall2 "PM2.5_pred" (with_aqi df preds) (VFloat <$> preds))
    by (apply Forall2_fmap_r; exact with_aqi_predictions).
  rewrite res_bind_ret, res_map_as_float_VFloat, res_bind_ret, Hi, res_bind_ret.
  rewrite (loc_lookup _ i "aqi_category" _ (VStr (pm25_to_aqi_category y).1) Hr2)
    by (now rewrite lookup_insert_ne, lookup_insert_eq by discriminate).
  rewrite res_bind_ret.
  rewrite (loc_lookup _ i "datetime" _ (VTime t) Hr2)
    by (now rewrite !lookup_insert_ne by discriminate).
  rewrite res_bind_ret. unfold worst_timestamp. rewrite res_bind_ret. eauto.
Qed.

(** The reading part returns a text exactly when there is a greatest
    prediction and its row has a timestamp as datetime. *)
Lemma summary_text_Ok_iff :
  (exists s, summary_text today tomorrow (with_aqi df preds) = Ok s) <->
  exists i r t, idxmax preds = Ok i /\ df !! i = Some r /\ r !! "datetime" = Some (VTime t).
Proof.
  split.
  - intros (s & H). unfold summary_text in H.
    rewrite (column_Forall2 "PM2.5_pred" (with_aqi df preds) (VFloat <$> preds)) in H
      by (apply Forall2_fmap_r; exact with_aqi_predictions).
    rewrite res_bind_ret, res_map_as_float_VFloat, res_bind_ret in H.
    apply res_bind_Ok in H as (i & Hi & H).
    apply res_bind_Ok in H as (c & Hc & H).
    apply res_bind_Ok in H as (cell & Hcell & H).
    apply res_bind_Ok in H as (t & Ht & _).
    pose proof (idxmax_lt _ _ Hi) as Hlt.
    pose proof (Forall2_length _ _ _ Hpreds) as Hlen.
    destruct (lookup_lt_is_Some_2 df i) as [r Hr]; [lia|].
    destruct (lookup_lt_is_Some_2 preds i) as [y Hy]; [lia|].
    unfold loc in Hcell. rewrite (with_aqi_lookup i r y Hr Hy) in Hcell.
    cbv iota in Hcell. apply getitem_inv in Hcell. rewrite !lookup_insert_ne in Hcell by discriminate.
    exists i, r, t. split; [exact Hi|]. split; [exact Hr|].
    rewrite Hcell. destruct cell; try discriminate. now injection Ht as ->.
  - intros (i & r & t & Hi & Hr & Ht). now apply (summary_text_returns i r t).
Qed.

End SummaryRun.

(** X17: the summary of a forecast fails unless the worst hour is the first.
    On the frame a run returned, with [preds] its predictions, the call
    returns a text exactly when the greatest prediction is that of the
    first row; when a later hour is the worst, the row has no timestamp
    in its datetime cell and the call raises. *)
Theorem generate_forecast_summary_after_forecast (np : Numpy)
    (today tomorrow : Z * Z * Z) (model_file : option Model) (wx_df aq_df : DataFrame)
    (hist : option DataFrame) (ui ui' : list st_event) (df : DataFrame)
    (df_future : nat) (h : heap) (preds : list float) :
  build_future_dataframe model_file wx_df aq_df hist ui = (ui', Returned df) ->
  h !! df_future = Some df ->
  Forall2 (fun (r : row) y => r !! "PM2.5_pred" = Some (VFloat y)) df preds ->
  (exists s, (generate_forecast_summary today tomorrow df_future h).2 = Ok s) <->
  idxmax preds = Ok 0%nat.
Proof.
  intros Hrun Hh Hpreds.
  apply (build_future_dataframe_datetime_rows np) in Hrun as (Hlen & Hfirst & Hlater).
  assert (Hne : df <> []) by (intros ->; discriminate Hlen).
  rewrite (generate_forecast_summary_run today tomorrow df_future h df preds Hh Hne Hpreds).
  cbn [snd]. rewrite (summary_text_Ok_iff today tomorrow df preds Hpreds).
  split.
  - intros (i & r & t & Hi & Hr & Ht).
    destruct i as [|i]; [exact Hi|].
    rewrite (Hlater (S i) r) in Ht by (lia || assumption). discriminate.
  - intros Hi. destruct Hfirst as (r & t & Hr & Ht). eauto 10.
Qed.


(** ** The summary on a forecast with a late worst hour *)

Lemma predictions_Forall2 (df : DataFrame) :
  (forall i r, df !! i = Some r -> exists y, r !! "PM2.5_pred" = Some (VFloat y)) ->
  Forall2 (fun (r : row) y => r !! "PM2.5_pred" = Some (VFloat y)) df (predictions df).
Proof.
  intros H. unfold predictions. apply Forall2_fmap_r, Forall_Forall2_diag, Forall_forall.
  intros r Hr. apply list_elem_of_lookup in Hr as (i & Hi).
  destruct (H i r Hi) as (y & Hy). unfold compose. now rewrite Hy.
Qed.

Lemma generate_forecast_summary_after_forecast_witness :
  exists ui' df,
    build_future_dataframe (np := Reference.numpy) (Some rising_model)
      Sample.wx_df Sample.aq_df (Some Sample.historical_weather_df) [] =
      (ui', Returned df) /\
    idxmax (predictions df) = Ok 71%nat /\
    ~ exists s, (generate_forecast_summary (2025, 6, 1)%Z (2025, 6, 2)%Z 0
                   {[ 0%nat := df ]}).2 = Ok s.
Proof.
  pose (run := build_future_dataframe (np := Reference.numpy) (Some rising_model)
                 Sample.wx_df Sample.aq_df (Some Sample.historical_weather_df) []).
  pose (frame := match run.2 with Returned d => d | _ => [] end).
  assert (E : run.2 = Returned frame) by by_evaluation.
  assert (Hrun : run = (run.1, Returned frame))
    by exact (eq_trans (surjective_pairing run) (f_equal (pair run.1) E)).
  assert (Hmax : idxmax (predictions frame) = Ok 71%nat) by by_evaluation.
  exists run.1, frame. split; [exact Hrun|]. split; [exact Hmax|].
  intros Hs.
  apply (generate_forecast_summary_after_forecast Reference.numpy _ _ _ _ _ _ _ _ _ _ _
           (predictions frame) Hrun (lookup_singleton_eq _ _)) in Hs.
  - rewrite Hmax in Hs. discriminate Hs.
  - apply predictions_Forall2. intros i r Hi.
    destruct (returned_frame Reference.numpy _ _ _ _ _ _ _ Hrun)
      as (_ & _ & ys & _ & _ & _ & _ & Hpred & _).
    destruct (Hpred i r Hi) as (y & _ & Hy). eauto.
Defined.

(** ** The order of the categories *)

Lemma SFleb_refl (a : spec_float) : a <> S754_nan -> SFleb a a = true.
Proof.
  unfold SFleb. destruct a as [s|s| |s m e]; try (destruct s; reflexivity).
  - congruence.
  - intros _. cbn. destruct s; rewrite Z.compare_refl;
      change (PosDef.Pos.compare_cont Eq) with Pos.compare;
      rewrite Pos.compare_refl; reflexivity.
Qed.

Lemma leb_refl (x : float) : is_nan x = false -> (x <=? x)%float = true.
Proof.
  intros H. rewrite FloatAxioms.leb_spec. apply SFleb_refl.
  intros E. apply FloatOrder.Prim2SF_nan_iff in E. congruence.
Qed.

Lemma leb_not_nan (x y : float) :
  (x <=? y)%float = true -> is_nan x = false /\ is_nan y = false.
Proof.
  rewrite FloatAxioms.leb_spec. intros H.
  split; destruct (is_nan _) eqn:E; try reflexivity;
    apply FloatOrder.Prim2SF_nan_iff in E; rewrite E in H;
    [|destruct (Prim2SF x) as [[]|[]| |[]]]; discriminate.
Qed.

(** X18: the classification is monotone: a concentration that is at least
    another never gets a better category.  (A comparison with NaN does
    not hold; NaN itself is classified Hazardous.) *)
Theorem pm25_to_aqi_category_monotone (p q : float) :
  (p <=? q)%float = true ->
  (aqi_rank (pm25_to_aqi_category p).1 <= aqi_rank (pm25_to_aqi_category q).1)%nat.
Proof.
  intros Hpq.
  assert (H : forall c, (q <=? c)%float = true -> (p <=? c)%float = true)
    by (intros c; now apply FloatOrder.leb_trans).
  pose proof (H 12%float) as H1. pose proof (H 35.4%float) as H2.
  pose proof (H 55.4%float) as H3. pose proof (H 150.4%float) as H4.
  pose proof (H 250.4%float) as H5.
  unfold pm25_to_aqi_category.
  destruct (q <=? 12)%float; [rewrite H1 by reflexivity; cbn; lia|].
  destruct (q <=? 35.4)%float;
    [rewrite H2 by reflexivity; destruct (p <=? 12)%float; cbn; lia|].
  destruct (q <=? 55.4)%float;
    [rewrite H3 by reflexivity;
     destruct (p <=? 12)%float, (p <=? 35.4)%float; cbn; lia|].
  destruct (q <=? 150.4)%float;
    [rewrite H4 by reflexivity;
     destruct (p <=? 12)%float, (p <=? 35.4)%float, (p <=? 55.4)%float; cbn; lia|].
  destruct (q <=? 250.4)%float;
    [rewrite H5 by reflexivity;
     destruct (p <=? 12)%float, (p <=? 35.4)%float, (p <=? 55.4)%float,
       (p <=? 150.4)%float; cbn; lia|].
  destruct (p <=? 12)%float, (p <=? 35.4)%float, (p <=? 55.4)%float,
    (p <=? 150.4)%float, (p <=? 250.4)%float; cbn; lia.
Qed.

Lemma pm25_to_aqi_category_monotone_witness :
  (aqi_rank (pm25_to_aqi_category 40).1 <= aqi_rank (pm25_to_aqi_category 151).1)%nat.
Proof. apply pm25_to_aqi_category_monotone. reflexivity. Defined.

(** ** Winsorizing *)

Lemma clip_bounds (lower upper x : float) :
  (lower <=? upper)%float = true -> is_nan x = false ->
  (lower <=? clip lower upper x)%float = true /\
  (clip lower upper x <=? upper)%float = true /\
  ((lower <=? x)%float = true -> (x <=? upper)%float = true -> clip lower upper x = x).
Proof.
  intros Hlu Hx. destruct (leb_not_nan _ _ Hlu) as [Hl Hu].
  unfold clip. rewrite Hl, Hx, Hu. cbn [orb].
  destruct (lower <=? x)%float eqn:E1.
  - rewrite Hx. cbn [orb]. destruct (x <=? upper)%float eqn:E2.
    + auto.
    + split; [exact Hlu|]. split; [now apply leb_refl|]. discriminate.
  - rewrite Hl, Hlu. cbn [orb]. split; [now apply leb_refl|]. split; [exact Hlu|].
    discriminate.
Qed.

Lemma clip_nan (lower upper x : float) : is_nan x = true -> clip lower upper x = x.
Proof.
  intros Hx. unfold clip. rewrite Hx, !orb_true_r. cbn [orb].
  now rewrite Hx, !orb_true_r.
Qed.

(** X19: [winsorize] keeps the length of the series and caps it at the two
    quantiles: when the lower quantile does not exceed the upper one,
    every number of the result lies between them, a number that was
    already between them is unchanged, and a NaN stays NaN. *)
Theorem winsorize_bounds (np : Numpy) (data : list float)
    (lower_percentile upper_percentile : float) :
  (quantile data lower_percentile <=? quantile data upper_percentile)%float = true ->
  length (winsorize data lower_percentile upper_percentile) = length data /\
  forall i x, data !! i = Some x ->
    exists y,
      winsorize data lower_percentile upper_percentile !! i = Some y /\
      (is_nan x = true -> y = x) /\
      (is_nan x = false ->
         (quantile data lower_percentile <=? y)%float = true /\
         (y <=? quantile data upper_percentile)%float = true /\
         ((quantile data lower_percentile <=? x)%float = true ->
          (x <=? quantile data upper_percentile)%float = true -> y = x)).
Proof.
  intros Hq. unfold winsorize. split; [apply length_fmap|].
  intros i x Hx. rewrite list_lookup_fmap, Hx. cbn. eexists. split; [reflexivity|].
  split; [apply clip_nan | now apply clip_bounds].
Qed.

Lemma winsorize_bounds_witness :
  (exists y,
     winsorize (np := Reference.numpy) [1; 2; 3; 4; 100]%float 0.05 0.95 !! 4%nat = Some y /\
     (y <=? Reference.linear_quantile [1; 2; 3; 4; 100]%float 0.95)%float = true) /\
  winsorize (np := Reference.numpy) [1; 2; 3; 4; 100]%float 0.05 0.95 !! 2%nat
    = Some 3%float.
Proof.
  destruct (winsorize_bounds Reference.numpy [1; 2; 3; 4; 100]%float 0.05 0.95)
    as [_ H]; [by_evaluation|].
  split.
  - destruct (H 4%nat 100%float eq_refl) as (y & Hy & _ & Hb).
    destruct (Hb eq_refl) as (_ & Hup & _). eauto.
  - destruct (H 2%nat 3%float eq_refl) as (y & Hy & _ & Hb).
    rewrite Hy. f_equal. apply (Hb eq_refl); by_evaluation.
Defined.

Lemma clip_self (s : float) : clip s s s = s.
Proof.
  unfold clip. cbv zeta. destruct (is_nan s) eqn:E; [reflexivity|].
  rewrite !(leb_refl s E). cbn [orb]. cbv iota. now destruct (is_nan s || (s <=? s)%float).
Qed.


(** X20: on a frame of one row winsorizing changes nothing: both quantiles of
    a single wind speed are that speed, and the cell WindSpeed_Winsorized
    is the wind speed of the row, as a float.  Every call the forecast
    makes passes such a frame. *)
Theorem add_weather_features_one_row_winsorized (np : Numpy) (r : row)
    (historical_weather_df : option DataFrame) (df' : DataFrame) (cell : value)
    (s : float) :
  add_weather_features [r] historical_weather_df = Ok df' ->
  r !! "WindSpeed" = Some cell -> as_float cell = Ok s ->
  quantile [s] 0.05 = s -> quantile [s] 0.95 = s ->
  exists r', df' = [r'] /\ r' !! "WindSpeed_Winsorized" = Some (VFloat s).
Proof.
  intros H Hcell Hs Hq1 Hq2. unfold add_weather_features in H.
  apply res_bind_Ok in H as (uv & Huv & H).
  cbn [res_map] in Huv. apply res_bind_Ok in Huv as (c & Hc & Huv).
  rewrite res_bind_ret in Huv. injection Huv as <-.
  cbn [fmap list_fmap] in H.
  rewrite set_column_singleton, res_bind_ret in H.
  rewrite set_column_singleton, res_bind_ret in H.
  rewrite (column_singleton "WindSpeed" _ cell) in H
    by (now rewrite !lookup_insert_ne by discriminate).
  rewrite res_bind_ret in H. cbn [res_map] in H. rewrite Hs, !res_bind_ret in H.
  unfold winsorize in H. cbn [fmap list_fmap] in H.
  rewrite Hq1, Hq2, clip_self, set_column_singleton, res_bind_ret in H.
  destruct historical_weather_df as [hist|].
  - apply res_bind_Ok in H as (pcells & Hp & H).
    apply res_bind_Ok in H as (scells & Hsn & H).
    apply res_bind_Ok in H as (rain & Hrain & H).
    apply res_bind_Ok in H as (snow & Hsnow & H).
    apply res_bind_Ok in H as (rain' & Hrain' & H).
    apply res_bind_Ok in H as (snow' & Hsnow' & H).
    injection H as <-. eexists. split; [reflexivity|].
    now rewrite !lookup_insert_ne, lookup_insert_eq by discriminate.
  - apply res_bind_Ok in H as (pcells & Hp & H).
    apply res_bind_Ok in H as (has_rain & Hrain & H).
    apply res_bind_Ok in H as (scells & Hsn & H).
    apply res_bind_Ok in H as (has_snow & Hsnow & H).
    injection H as <-. eexists. split; [reflexivity|].
    now rewrite !lookup_insert_ne, lookup_insert_eq by discriminate.
Qed.

Lemma add_weather_features_one_row_winsorized_witness :
  exists r',
    add_weather_features (np := Reference.numpy) [Sample.weather_row 7] None = Ok [r'] /\
    r' !! "WindSpeed_Winsorized" = Some (VFloat 0).
Proof.
  pose (out := add_weather_features (np := Reference.numpy) [Sample.weather_row 7] None).
  assert (E : out = Ok [Sample.first_row out]) by by_evaluation.
  subst out.
  destruct (add_weather_features_one_row_winsorized Reference.numpy _ _ _
              (VFloat 0) 0%float E) as (r' & Hr' & Hw).
  - by_evaluation.
  - reflexivity.
  - by_evaluation.
  - by_evaluation.
  - exists r'. split; [|exact Hw]. now rewrite E, Hr'.
Defined.

(** ** Wind components over the reals *)


(** ** The frame of [prepare_features] *)

Lemma Forall2_diag_intro {A} (P : A -> A -> Prop) (l : list A) :
  (forall x, P x x) -> Forall2 P l l.
Proof. intros H. apply Forall_Forall2_diag, Forall_forall. auto. Qed.



(** ** The text of the summary *)

Lemma ltb_leb (x y : float) : (x <? y)%float = true -> (x <=? y)%float = true.
Proof.
  rewrite FloatAxioms.leb_spec, FloatAxioms.ltb_spec. unfold SFleb, SFltb.
  destruct (SFcompare (Prim2SF x) (Prim2SF y)) as [[]|]; cbn; congruence.
Qed.

Lemma ltb_nan_r (x y : float) : is_nan y = true -> (x <? y)%float = false.
Proof.
  intros H. apply FloatOrder.Prim2SF_nan_iff in H.
  rewrite FloatAxioms.ltb_spec, H. unfold SFltb.
  destruct (Prim2SF x) as [[]|[]| |[]]; reflexivity.
Qed.

(** Among numbers: not below means at least. *)
Lemma ltb_false_leb (x y : float) :
  is_nan x = false -> is_nan y = false -> (x <? y)%float = false -> (y <=? x)%float = true.
Proof.
  intros Hx Hy H. destruct (y <=? x)%float eqn:E; [reflexivity|].
  rewrite (FloatOrder.leb_false_ltb y x Hy Hx E) in H. discriminate.
Qed.

Lemma leb_ltb_false (x y : float) : (y <=? x)%float = true -> (x <? y)%float = false.
Proof.
  intros H. destruct (x <? y)%float eqn:E; [|reflexivity].
  rewrite (FloatOrder.ltb_leb_false y x E) in H. discriminate.
Qed.

(** The scan of [idxmax] ends on a number that no entry of the list and
    not the best so far exceeds. *)
Lemma idxmax_from_greatest (l : list float) :
  forall (i : nat) (best : option (nat * float)) (j : nat) (x : float),
    match best with Some (_, b) => is_nan b = false | None => True end ->
    idxmax_from l i best = Some (j, x) ->
    is_nan x = false /\
    (forall k y, l !! k = Some y -> (x <? y)%float = false) /\
    match best with Some (_, b) => (x <? b)%float = false | None => True end.
Proof.
  induction l as [|y l IH]; intros i best j x Hbest H; cbn [idxmax_from] in H.
  - subst best. split; [exact Hbest|]. split; [intros k y Hk; destruct k; discriminate|].
    apply leb_ltb_false, leb_refl, Hbest.
  - destruct (is_nan y) eqn:Hy.
    { destruct (IH _ best _ _ Hbest H) as (Hx & Hall & Hb).
      split; [exact Hx|]. split; [|exact Hb].
      intros [|k] y' Hk; cbn in Hk; [injection Hk as <-; now apply ltb_nan_r | eauto]. }
    destruct best as [[bi b]|].
    + destruct (b <? y)%float eqn:Hby.
      * destruct (IH _ (Some (i, y)) _ _ Hy H) as (Hx & Hall & Hxy).
        split; [exact Hx|]. split.
        -- intros [|k] y' Hk; cbn in Hk; [injection Hk as <-; exact Hxy | eauto].
        -- apply leb_ltb_false. apply (FloatOrder.leb_trans b y x); [apply ltb_leb, Hby|].
           apply ltb_false_leb; assumption.
      * destruct (IH _ (Some (bi, b)) _ _ Hbest H) as (Hx & Hall & Hxb).
        split; [exact Hx|]. split; [|exact Hxb].
        intros [|k] y' Hk; cbn in Hk; [injection Hk as <-|eauto].
        apply leb_ltb_false.
        apply (FloatOrder.leb_trans y b x); apply ltb_false_leb; assumption.
    + destruct (IH _ (Some (i, y)) _ _ Hy H) as (Hx & Hall & Hxy).
      split; [exact Hx|]. split; [|exact I].
      intros [|k] y' Hk; cbn in Hk; [injection Hk as <-; exact Hxy | eauto].
Qed.

Lemma idxmax_from_lookup (l : list float) :
  forall (i : nat) (best : option (nat * float)) (j : nat) (x : float),
    idxmax_from l i best = Some (j, x) ->
    best = Some (j, x) \/ ((i <= j)%nat /\ l !! (j - i)%nat = Some x).
Proof.
  induction l as [|y l IH]; intros i best j x H; cbn [idxmax_from] in H.
  - now left.
  - assert (Hnext : forall best', idxmax_from l (S i) best' = Some (j, x) ->
              best' = Some (j, x) \/ ((i <= j)%nat /\ (y :: l) !! (j - i)%nat = Some x)).
    { intros best' H'. destruct (IH _ _ _ _ H') as [E|[Hle Hl]]; [now left|right].
      split; [lia|]. replace (j - i)%nat with (S (j - S i)) by lia. exact Hl. }
    destruct (is_nan y); [now apply Hnext|].
    destruct best as [[bi b]|].
    + destruct (b <? y)%float; [|now apply Hnext].
      destruct (Hnext _ H) as [[= <- <-]|Hr]; [right|now right].
      split; [lia|]. now rewrite Nat.sub_diag.
    + destruct (Hnext _ H) as [[= <- <-]|Hr]; [right|now right].
      split; [lia|]. now rewrite Nat.sub_diag.
Qed.

(** [idxmax] returns the position of a number that no entry exceeds. *)
Lemma idxmax_greatest (l : list float) (i : nat) :
  idxmax l = Ok i ->
  exists x, l !! i = Some x /\ is_nan x = false /\
            forall k y, l !! k = Some y -> (x <? y)%float = false.
Proof.
  unfold idxmax. destruct (idxmax_from l 0 None) as [[j x]|] eqn:E; [|discriminate].
  intros [= <-]. exists x.
  destruct (idxmax_from_greatest l 0 None j x I E) as (Hx & Hall & _).
  destruct (idxmax_from_lookup l 0 None j x E) as [?|[_ Hl]]; [discriminate|].
  rewrite Nat.sub_0_r in Hl. auto.
Qed.

Lemma string_app_nil_r (s : string) : s +:+ "" = s.
Proof.
  induction s as [|c s IH]; [reflexivity|].
  change (String c (s +:+ "") = String c s). now rewrite IH.
Qed.

Lemma pm25_to_aqi_category_cases (p : float) :
  (pm25_to_aqi_category p).1 = "Good" \/ (pm25_to_aqi_category p).1 = "Moderate" \/
  (pm25_to_aqi_category p).1 = "Unhealthy for Sensitive Groups" \/
  (pm25_to_aqi_category p).1 = "Unhealthy" \/
  (pm25_to_aqi_category p).1 = "Very Unhealthy" \/
  (pm25_to_aqi_category p).1 = "Hazardous".
Proof.
  unfold pm25_to_aqi_category.
  destruct (p <=? 12)%float; [auto|]. destruct (p <=? 35.4)%float; [auto|].
  destruct (p <=? 55.4)%float; [auto|]. destruct (p <=? 150.4)%float; [auto|].
  destruct (p <=? 250.4)%float; cbn; auto 10.
Qed.

Lemma concat_one (sep s : string) : String.concat sep [s] = s.
Proof. reflexivity. Qed.

Lemma concat_two (sep s1 s2 : string) : String.concat sep [s1; s2] = s1 +:+ sep +:+ s2.
Proof. reflexivity. Qed.

(** X23: what the summary says.  For a frame with predictions [preds], not
    all NaN, whose row of the greatest prediction has a timestamp as
    datetime, [generate_forecast_summary] returns one sentence, followed
    by advice when the category calls for it.  The sentence names the
    category of a prediction that no other prediction exceeds; the day is
    Today, Tomorrow or the formatted date; the advice is missing exactly
    for Good and Moderate. *)
Theorem generate_forecast_summary_text (today tomorrow : Z * Z * Z)
    (df_future : nat) (h : heap) (df : DataFrame) (preds : list float)
    (i : nat) (r : row) (t : Timestamp) :
  h !! df_future = Some df ->
  Forall2 (fun (r : row) y => r !! "PM2.5_pred" = Some (VFloat y)) df preds ->
  idxmax preds = Ok i -> df !! i = Some r -> r !! "datetime" = Some (VTime t) ->
  exists (y : float) (date period advice : string),
    preds !! i = Some y /\ is_nan y = false /\
    (forall k y', preds !! k = Some y' -> (y <? y')%float = false) /\
    (generate_forecast_summary today tomorrow df_future h).2 =
      Ok ("Air quality will be worst on " +:+ date +:+ " during " +:+ period +:+
          ", reaching " +:+ (pm25_to_aqi_category y).1 +:+ " levels." +:+ advice) /\
    (date = "Today" \/ date = "Tomorrow" \/ date = strftime_A_B_d t) /\
    (ts_date t = today -> date = "Today") /\
    period ∈ ["morning (6-12 AM)"; "afternoon (12-6 PM)"; "evening (6-12 PM)";
              "night (12-6 AM)"] /\
    (advice = "" <-> (pm25_to_aqi_category y).1 = "Good" \/
                     (pm25_to_aqi_category y).1 = "Moderate").
Proof.
  intros Hh Hpreds Hi Hr Ht.
  assert (Hne : df <> []) by (intros ->; discriminate Hr).
  destruct (idxmax_greatest preds i Hi) as (y & Hy & Hnan & Hmax).
  rewrite (generate_forecast_summary_run today tomorrow df_future h df preds Hh Hne Hpreds).
  cbn [snd].
  pose proof (with_aqi_lookup df preds i r y Hr Hy) as Hr2.
  unfold summary_text.
  rewrite (column_Forall2 "PM2.5_pred" (with_aqi df preds) (VFloat <$> preds))
    by (apply Forall2_fmap_r; exact (with_aqi_predictions df preds Hpreds)).
  rewrite res_bind_ret, res_map_as_float_VFloat, res_bind_ret, Hi, res_bind_ret.
  rewrite (loc_lookup _ i "aqi_category" _ (VStr (pm25_to_aqi_category y).1) Hr2)
    by (now rewrite lookup_insert_ne, lookup_insert_eq by discriminate).
  rewrite res_bind_ret.
  rewrite (loc_lookup _ i "datetime" _ (VTime t) Hr2)
    by (now rewrite !lookup_insert_ne by discriminate).
  rewrite res_bind_ret. unfold worst_timestamp. rewrite res_bind_ret. cbv zeta.
  set (date := if decide (ts_date t = today) then "Today"
               else if decide (ts_date t = tomorrow) then "Tomorrow"
               else strftime_A_B_d t).
  set (period := if (6 <=? ts_hour t)%Z && (ts_hour t <? 12)%Z then "morning (6-12 AM)"
                 else if (12 <=? ts_hour t)%Z && (ts_hour t <? 18)%Z
                 then "afternoon (12-6 PM)"
                 else if (18 <=? ts_hour t)%Z then "evening (6-12 PM)"
                 else "night (12-6 AM)").
  assert (Hdate : (date = "Today" \/ date = "Tomorrow" \/ date = strftime_A_B_d t) /\
                  (ts_date t = today -> date = "Today")).
  { unfold date. repeat case_decide; auto; split; auto; contradiction. }
  assert (Hperiod : period ∈ ["morning (6-12 AM)"; "afternoon (12-6 PM)";
                              "evening (6-12 PM)"; "night (12-6 AM)"]).
  { unfold period.
    destruct ((6 <=? ts_hour t)%Z && (ts_hour t <? 12)%Z),
      ((12 <=? ts_hour t)%Z && (ts_hour t <? 18)%Z), (18 <=? ts_hour t)%Z;
      repeat first [apply list_elem_of_here | apply list_elem_of_further]. }
  clearbody date period.
  set (cat := (pm25_to_aqi_category y).1).
  set (b1 := bool_decide (cat ∈ ["Unhealthy"; "Very Unhealthy"; "Hazardous"])).
  set (b2 := String.eqb cat "Unhealthy for Sensitive Groups").
  exists y, date, period,
    (if b1 then (newline +:+ newline) +:+ newline +:+ "⛔ Outdoor activity is not recommended."
     else if b2
     then (newline +:+ newline) +:+ newline +:+
          "⚠️ Sensitive individuals should limit outdoor activity."
     else "").
  split; [exact Hy|]. split; [exact Hnan|]. split; [exact Hmax|].
  split; [|split; [exact (proj1 Hdate)|split; [exact (proj2 Hdate)|split; [exact Hperiod|]]]].
  - f_equal. rewrite <- !string_app_assoc.
    destruct b1; [|destruct b2]; cbn [app]; rewrite ?concat_one, ?concat_two;
      rewrite ?string_app_nil_r; reflexivity.
  - subst b1 b2 cat.
    destruct (pm25_to_aqi_category_cases y) as [E|[E|[E|[E|[E|E]]]]]; rewrite !E;
      match goal with
      | |- (?a = "") <-> _ => let v := eval vm_compute in a in change a with v
      end;
      (split; [intros; try discriminate; auto | intros [?|?]; try discriminate; reflexivity]).
Qed.

Lemma generate_forecast_summary_text_witness :
  exists date period advice,
    (generate_forecast_summary (2025, 6, 1)%Z (2025, 6, 2)%Z 0
       {[ 0%nat :=
            [ <["PM2.5_pred" := VFloat 40]>
                (<["datetime" := VTime (Sample.hour_stamp 8)]> (∅ : row));
              <["PM2.5_pred" := VFloat 160]>
                (<["datetime" := VTime (Sample.hour_stamp 30)]> (∅ : row)) ] ]}).2 =
      Ok ("Air quality will be worst on " +:+ date +:+ " during " +:+ period +:+
          ", reaching Very Unhealthy levels." +:+ advice) /\
    date = "Tomorrow" /\ advice <> "".
Proof.
  destruct (generate_forecast_summary_text (2025, 6, 1)%Z (2025, 6, 2)%Z 0
              {[ 0%nat :=
                   [ <["PM2.5_pred" := VFloat 40]>
                       (<["datetime" := VTime (Sample.hour_stamp 8)]> (∅ : row));
                     <["PM2.5_pred" := VFloat 160]>
                       (<["datetime" := VTime (Sample.hour_stamp 30)]> (∅ : row)) ] ]}
              [ <["PM2.5_pred" := VFloat 40]>
                  (<["datetime" := VTime (Sample.hour_stamp 8)]> (∅ : row));
                <["PM2.5_pred" := VFloat 160]>
                  (<["datetime" := VTime (Sample.hour_stamp 30)]> (∅ : row)) ]
              [40; 160]%float 1%nat
              (<["PM2.5_pred" := VFloat 160]>
                 (<["datetime" := VTime (Sample.hour_stamp 30)]> (∅ : row)))
              (Sample.hour_stamp 30))
    as (y & date & period & advice & Hy & _ & _ & Hrun & Hdate & _ & _ & Hadvice).
  - apply lookup_singleton_eq.
  - repeat constructor; apply lookup_insert_eq.
  - reflexivity.
  - reflexivity.
  - now rewrite lookup_insert_ne, lookup_insert_eq by discriminate.
  - injection Hy as <-. exists date, period, advice.
    change (pm25_to_aqi_category 160).1 with "Very Unhealthy" in Hrun, Hadvice.
    split; [exact Hrun|]. split.
    + assert (Hd : (generate_forecast_summary (2025, 6, 1)%Z (2025, 6, 2)%Z 0
           {[ 0%nat :=
                [ <["PM2.5_pred" := VFloat 40]>
                    (<["datetime" := VTime (Sample.hour_stamp 8)]> (∅ : row));
                  <["PM2.5_pred" := VFloat 160]>
                    (<["datetime" := VTime (Sample.hour_stamp 30)]> (∅ : row)) ] ]}).2 =
          Ok ("Air quality will be worst on Tomorrow during morning (6-12 AM), reaching Very Unhealthy levels." +:+
              newline +:+ newline +:+ newline +:+ "⛔ Outdoor activity is not recommended."))
        by by_evaluation.
      rewrite Hd in Hrun. injection Hrun as Hrun.
      destruct Hdate as [->| [->| ->]]; [discriminate Hrun | reflexivity | discriminate Hrun].
    + intros E. apply Hadvice in E as [E|E]; discriminate E.
Defined.
